(** * FROS: the adaptive replanning core, embedded and verified

    A shallow embedding of
      - [backend/models/route.py]                       (class [Route]),
      - [backend/services/optimization/ppo_rerouter.py] (class [PPORerouter]),
      - [backend/realtime/route_adjuster.py]            (class [RouteAdjuster]),
    followed by the properties of the replanning engine proved on it.

    Conventions of the embedding.
      - Python floats are idealised as rationals ([Q]); [x / y] raises
        [ZeroDivisionError] when [y] is zero, as in Python.  Comparisons of
        floats are comparisons of rationals ([Qeq_bool], [Qle_bool]).
        Rounding is not modelled, so the statements are kept to what rounding
        preserves: order relations, ranges of integers, and equalities between
        results that the source computes by the same operations in the same
        order.
      - [Waypoint] objects are mutable and shared, so they live in an object
        store ([heap]); a route holds references to them.  [Route] objects are
        passed by value and written back where the source mutates a stored one.
      - A Python call that may raise returns an [outcome]; the state reached
        when the exception is raised is kept. *)

From Stdlib Require Import QArith Qround Qabs Qminmax Lqa.
From Stdlib Require Import Ascii String Sorted.
From stdpp Require Import gmap strings list pretty.

Set Default Proof Using "Type".

(** ** Exceptions and the state-and-exception monad *)

Inductive exn : Type :=
  | AttributeError
  | ZeroDivisionError
  | IndexError
  | UpstreamError.

Inductive outcome (A : Type) : Type :=
  | Return (a : A)
  | Raise (e : exn).
Arguments Return {A} a.
Arguments Raise {A} e.

Definition Py (S A : Type) : Type := S -> outcome A * S.

Definition py_ret {S A : Type} (a : A) : Py S A := fun s => (Return a, s).

Definition py_bind {S A B : Type} (m : Py S A) (k : A -> Py S B) : Py S B :=
  fun s =>
    match m s with
    | (Return a, s') => k a s'
    | (Raise e, s') => (Raise e, s')
    end.

Definition py_raise {S A : Type} (e : exn) : Py S A := fun s => (Raise e, s).

Definition py_get {S : Type} : Py S S := fun s => (Return s, s).

Definition py_gets {S A : Type} (f : S -> A) : Py S A := fun s => (Return (f s), s).

Definition py_modify {S : Type} (f : S -> S) : Py S unit := fun s => (Return tt, f s).

(** An expression that may raise, evaluated inside a stateful computation. *)
Definition py_lift {S A : Type} (o : outcome A) : Py S A := fun s => (o, s).

#[global] Instance py_mret {S : Type} : MRet (Py S) := fun A => @py_ret S A.
#[global] Instance py_mbind {S : Type} : MBind (Py S) :=
  fun A B k m => @py_bind S A B m k.

(** [outcome] alone is the exception monad of the pure methods. *)
Definition obind {A B : Type} (o : outcome A) (k : A -> outcome B) : outcome B :=
  match o with
  | Return a => k a
  | Raise e => Raise e
  end.

(** ** Numbers *)

Local Open Scope Q_scope.

(** Python's [x / y] on floats. *)
Definition py_div (x y : Q) : outcome Q :=
  if Qeq_bool y 0 then Raise ZeroDivisionError else Return (x / y).

(** Python's [x % m] on floats, for a positive modulus: the result lies in
    [0, m). *)
Definition py_mod (x m : Q) : Q := x - m * inject_Z (Qfloor (x / m)).

Definition Qltb (x y : Q) : bool := negb (Qle_bool y x).

(** [sum(l)] *)
Definition Qsum (l : list Q) : Q := foldl Qplus 0 l.

(** Truthiness of a number: [not x] holds of zero. *)
Definition truthy (x : Q) : bool := negb (Qeq_bool x 0).

Definition Point : Type := Q * Q.

(** ** Data model *)

(** Identifiers are compared through their text ([str(waypoint.id)]), which
    identifies a UUID; an id is modelled by that text. *)
Definition UUID : Type := string.

(** Modelled from the spec: [models/waypoint.py] is not among the sources.
    [WaypointStatus] is the enum PENDING, ACTIVE, PASSED, BLOCKED; a waypoint
    carries identifier, display name, latitude, longitude, a sequence
    position ([order]) and a lifecycle state.  The attribute names are those
    the three modules read and assign. *)
Inductive WaypointStatus : Type := PENDING | ACTIVE | PASSED | BLOCKED.

#[global] Instance WaypointStatus_eq_dec : EqDecision WaypointStatus.
Proof. solve_decision. Defined.

Module Waypoint.
Record t : Type := mk {
  id : UUID;
  name : string;
  latitude : Q;
  longitude : Q;
  order : Z;
  status : WaypointStatus
}.

Definition set_id (v : UUID) (w : t) : t :=
  mk v (name w) (latitude w) (longitude w) (order w) (status w).
Definition set_name (v : string) (w : t) : t :=
  mk (id w) v (latitude w) (longitude w) (order w) (status w).
Definition set_order (v : Z) (w : t) : t :=
  mk (id w) (name w) (latitude w) (longitude w) v (status w).
Definition set_status (v : WaypointStatus) (w : t) : t :=
  mk (id w) (name w) (latitude w) (longitude w) (order w) v.

Definition point (w : t) : Point := (latitude w, longitude w).

(** Modelled from the spec: the methods [mark_as_blocked] and
    [mark_as_active] of the absent [models/waypoint.py].  The blocked
    waypoint is "transitioned to BLOCKED", the anchor before it "transitioned
    to ACTIVE". *)
Definition mark_as_blocked (w : t) : t := set_status BLOCKED w.
Definition mark_as_active (w : t) : t := set_status ACTIVE w.
End Waypoint.

#[global] Instance Waypoint_inhabited : Inhabited Waypoint.t :=
  populate (Waypoint.mk EmptyString EmptyString 0 0 0%Z PENDING).

(** [models/airport.py] is not among the sources; the fields are those the
    adjuster passes to its constructor. *)
Module Airport.
Record t : Type := mk {
  iata_code : string;
  name : string;
  city : string;
  country : string;
  latitude : Q;
  longitude : Q
}.

Definition point (a : t) : Point := (latitude a, longitude a).
End Airport.

(** [models/aircraft.py] is not among the sources; the fields are those the
    cost model reads. *)
Module Aircraft.
Record t : Type := mk {
  model : string;
  cruise_speed_kmh : Q;
  fuel_consumption_rate_kg_hr : Q;
  fuel_capacity_liters : Q
}.
End Aircraft.

(** ** What the modules import

    The functions of [math], of [geopy] and of the point classes that the
    three modules call.  [models/waypoint.py] and [models/airport.py] are not
    among the sources: [calculate_distance] and [calculate_bearing] are taken
    as functions of the two points' coordinates (the great-circle distance in
    km and the initial bearing in degrees), and [waypoint_eq] is the [==] of
    two distinct waypoint objects (constantly false for a class that does not
    define [__eq__]). *)
Class Library : Type := {
  cos : Q -> Q;
  sin : Q -> Q;
  atan2 : Q -> Q -> Q;
  radians : Q -> Q;
  degrees : Q -> Q;
  calculate_distance : Point -> Point -> Q;
  calculate_bearing : Point -> Point -> Q;
  geodesic_kilometers : Point -> Point -> Q;
  waypoint_eq : Waypoint.t -> Waypoint.t -> bool;
  (** [float("inf")] where it enters arithmetic, in a branch that no run
      takes; see [avg_ground_speed_pos]. *)
  float_inf : Q
}.

(** A weather sample is a dict from field names to numbers; the weather of a
    route is a dict from leg keys to samples, whose insertion order the
    fitness score reads ([values()[0]], [values()[-1]]). *)
Definition WeatherSample : Type := gmap string Q.
Definition WeatherData : Type := list (string * WeatherSample).

(** [sample.get(key, default)] *)
Definition sample_get (w : WeatherSample) (key : string) (dflt : Q) : Q :=
  default dflt (w !! key).

(** [key in sample] *)
Definition sample_has (w : WeatherSample) (key : string) : bool :=
  bool_decide (is_Some (w !! key)).

(** [weather_data[key]], when [key in weather_data] *)
Fixpoint weather_lookup (key : string) (wd : WeatherData) : option WeatherSample :=
  match wd with
  | [] => None
  | (k, w) :: rest => if String.eqb k key then Some w else weather_lookup key rest
  end.

(** ** The object store *)

(** A reference to a [Waypoint] object: its index in the store. *)
Abbreviation ref := nat (only parsing).
Abbreviation heap := (list Waypoint.t) (only parsing).

(** The object behind a reference.  References are only made by [alloc], so a
    reference met in a run is allocated; the default is never read there. *)
Definition deref (h : heap) (r : ref) : Waypoint.t := h !!! r.

(** In-place mutation of the object behind [r]. *)
Definition mutate (f : Waypoint.t -> Waypoint.t) (r : ref) (h : heap) : heap :=
  alter f r h.

(** [int(x)] on a float: truncation toward zero. *)
Definition py_int (x : Q) : Z := if Qle_bool 0 x then Qfloor x else Qceiling x.

(** [l[i]]: a negative index counts from the end of the list, and an index
    outside the list raises [IndexError]. *)
Definition py_index {A : Type} (l : list A) (i : Z) : outcome A :=
  let n := Z.of_nat (length l) in
  let j := if (i <? 0)%Z then (n + i)%Z else i in
  if (j <? 0)%Z then Raise IndexError
  else match l !! Z.to_nat j with
       | Some x => Return x
       | None => Raise IndexError
       end.

Module Route.
Record t : Type := mk {
  id : UUID;
  name : string;
  origin : option Airport.t;
  destination : option Airport.t;
  waypoints : list ref;
  path_type : string;
  optimization_method : string;
  distance : Q;
  fitness_score : Q;
  weather_data : WeatherData;
  fuel_consumption : Q;
  (** [None] is Python's [None], which [calculate_estimated_time] returns
      and its callers store. *)
  estimated_time : option Q;
  leg_distances : list Q;
  leg_times : list Q;
  (** An attribute set only by the rerouter and [from_dict]: [None] when
      [hasattr(route, "reroute_history")] is false. *)
  reroute_history : option (list (string * string))
}.
(** [created_at], a timestamp that none of the modelled methods reads, is
    left out. *)

Definition set_waypoints (v : list ref) (r : t) : t :=
  mk (id r) (name r) (origin r) (destination r) v (path_type r)
     (optimization_method r) (distance r) (fitness_score r) (weather_data r)
     (fuel_consumption r) (estimated_time r) (leg_distances r) (leg_times r)
     (reroute_history r).
Definition set_distance (v : Q) (r : t) : t :=
  mk (id r) (name r) (origin r) (destination r) (waypoints r) (path_type r)
     (optimization_method r) v (fitness_score r) (weather_data r)
     (fuel_consumption r) (estimated_time r) (leg_distances r) (leg_times r)
     (reroute_history r).
Definition set_fitness_score (v : Q) (r : t) : t :=
  mk (id r) (name r) (origin r) (destination r) (waypoints r) (path_type r)
     (optimization_method r) (distance r) v (weather_data r)
     (fuel_consumption r) (estimated_time r) (leg_distances r) (leg_times r)
     (reroute_history r).
Definition set_weather_data (v : WeatherData) (r : t) : t :=
  mk (id r) (name r) (origin r) (destination r) (waypoints r) (path_type r)
     (optimization_method r) (distance r) (fitness_score r) v
     (fuel_consumption r) (estimated_time r) (leg_distances r) (leg_times r)
     (reroute_history r).
Definition set_fuel_consumption (v : Q) (r : t) : t :=
  mk (id r) (name r) (origin r) (destination r) (waypoints r) (path_type r)
     (optimization_method r) (distance r) (fitness_score r) (weather_data r)
     v (estimated_time r) (leg_distances r) (leg_times r)
     (reroute_history r).
Definition set_estimated_time (v : option Q) (r : t) : t :=
  mk (id r) (name r) (origin r) (destination r) (waypoints r) (path_type r)
     (optimization_method r) (distance r) (fitness_score r) (weather_data r)
     (fuel_consumption r) v (leg_distances r) (leg_times r)
     (reroute_history r).
Definition set_leg_distances (v : list Q) (r : t) : t :=
  mk (id r) (name r) (origin r) (destination r) (waypoints r) (path_type r)
     (optimization_method r) (distance r) (fitness_score r) (weather_data r)
     (fuel_consumption r) (estimated_time r) v (leg_times r)
     (reroute_history r).
Definition set_leg_times (v : list Q) (r : t) : t :=
  mk (id r) (name r) (origin r) (destination r) (waypoints r) (path_type r)
     (optimization_method r) (distance r) (fitness_score r) (weather_data r)
     (fuel_consumption r) (estimated_time r) (leg_distances r) v
     (reroute_history r).
Definition set_reroute_history (v : option (list (string * string))) (r : t) : t :=
  mk (id r) (name r) (origin r) (destination r) (waypoints r) (path_type r)
     (optimization_method r) (distance r) (fitness_score r) (weather_data r)
     (fuel_consumption r) (estimated_time r) (leg_distances r) (leg_times r)
     v.

(** [Route(id=.., name=.., origin=.., destination=.., waypoints=..,
    path_type=.., optimization_method=.., distance=.., fitness_score=..)]:
    the other attributes take the defaults of [__init__]. *)
Definition init (id : UUID) (name : string) (origin destination : option Airport.t)
    (waypoints : list ref) (path_type optimization_method : string)
    (distance fitness_score : Q) : t :=
  mk id name origin destination waypoints path_type optimization_method
     distance fitness_score [] 0 (Some 0) [] [] None.

(** A reading of the clock.  *)
Definition datetime : Type := Z.

(** [zip(l, l[1:])]: the consecutive pairs of a list. *)
Definition consecutive {A : Type} (l : list A) : list (A * A) := zip l (tail l).

(** [l[0] += x] and [l[-1] += x], on a list that may be empty. *)
Definition add_first (x : Q) (l : list Q) : list Q :=
  match l with
  | [] => []
  | y :: rest => (y + x) :: rest
  end.
Definition add_last (x : Q) (l : list Q) : list Q :=
  match length l with
  | O => l
  | S n => alter (fun y => y + x) n l
  end.

(** [len(l)] as a float. *)
Definition Qlen {A : Type} (l : list A) : Q := inject_Z (Z.of_nat (length l)).

(** [get_current_waypoint(self, current_time=None)]; [utcnow] is what
    [datetime.utcnow()] reads when it is called. *)
Definition get_current_waypoint (h : heap) (utcnow : datetime) (self : t)
    (current_time : option datetime) : option ref :=
  let current_time :=
    match current_time with
    | None => utcnow
    | Some ct => ct
    end in
  let active_waypoints :=
    filter (fun wp => Waypoint.status (deref h wp) = ACTIVE) (waypoints self) in
  head active_waypoints.

(** The entry "estimated_time" of [to_dict()]: the dict of "hours" and
    "minutes", or [None].  The other entries of [to_dict] go through the
    [to_dict] of the waypoints and of the airports, which are not among the
    sources. *)
Definition to_dict_estimated_time (self : t) : option (Z * Z) :=
  match estimated_time self with
  | Some estimated_time =>
    if truthy estimated_time
    then Some (py_int estimated_time,
               if truthy estimated_time then py_int (py_mod estimated_time 1 * 60)
               else 0%Z)
    else None
  | None => None
  end.

(** What [from_dict] assigns to [estimated_time] when [data["estimated_time"]]
    is a value that [to_dict] writes: a dict of "hours" and "minutes", for
    which it computes [hours + (minutes / 60)], or [None], for which
    [float(estimated_time_data) if estimated_time_data else 0] is 0. *)
Definition from_dict_estimated_time (estimated_time_data : option (Z * Z)) : Q :=
  match estimated_time_data with
  | Some (hours, minutes) => inject_Z hours + inject_Z minutes / 60
  | None => 0
  end.

Section methods.
Context `{Library}.

Definition wp_point (h : heap) (r : ref) : Point := Waypoint.point (deref h r).

(** The property [average_bearing]. *)
Definition average_bearing (h : heap) (self : t) : Q :=
  if (length (waypoints self) <? 2)%nat then 0
  else
    let bearings :=
      map (fun '(r1, r2) =>
             let wp1 := deref h r1 in
             let wp2 := deref h r2 in
             let bearing :=
               atan2
                 (sin (radians (Waypoint.longitude wp2 - Waypoint.longitude wp1))
                  * cos (radians (Waypoint.latitude wp2)))
                 (cos (radians (Waypoint.latitude wp1))
                  * sin (radians (Waypoint.latitude wp2))
                  - sin (radians (Waypoint.latitude wp1))
                    * cos (radians (Waypoint.latitude wp2))
                    * cos (radians (Waypoint.longitude wp2 - Waypoint.longitude wp1))) in
             let bearing := degrees bearing in
             py_mod (bearing + 360) 360)
          (consecutive (waypoints self)) in
    Qsum bearings / Qlen bearings.

(** The loop of [calculate_estimated_time] over [weather_data.items()]:
    the accumulated [(wind_effect, num_points)]. *)
Definition wind_effect_loop (avg_bearing : Q) (wd : WeatherData) : Q * Q :=
  foldl (fun '(wind_effect, num_points) '(wp_key, weather) =>
           if sample_has weather "wind_speed" && sample_has weather "wind_direction"
           then
             let wind_speed := sample_get weather "wind_speed" 0 in
             let wind_direction := sample_get weather "wind_direction" 0 in
             let wind_effect :=
               if Qle_bool 0 (Qabs (wind_direction - avg_bearing))
                  && Qle_bool (Qabs (wind_direction - avg_bearing)) 90
               then wind_effect + wind_speed * 3.6
               else wind_effect - wind_speed * 3.6 in
             (wind_effect, num_points + 1)
           else (wind_effect, num_points))
        (0, 0) wd.

Definition calculate_estimated_time (h : heap) (self : t)
    (aircraft : option Aircraft.t) : outcome (option Q) * t :=
  match aircraft with
  | None => (Return None, self)
  | Some aircraft =>
    if negb (truthy (distance self)) then (Return None, self)
    else
      match py_div (distance self) (Aircraft.cruise_speed_kmh aircraft) with
      | Raise e => (Raise e, self)
      | Return base_time_hours =>
        let total_time_hours := base_time_hours + 0.5 in
        let total_time_hours :=
          match weather_data self with
          | [] => total_time_hours
          | _ =>
            let '(wind_effect, num_points) :=
              wind_effect_loop (average_bearing h self) (weather_data self) in
            if Qltb 0 num_points then
              let avg_wind_effect := wind_effect / num_points in
              let effective_speed :=
                Aircraft.cruise_speed_kmh aircraft + avg_wind_effect in
              if Qltb 0 effective_speed then
                let wind_adjusted_time := distance self / effective_speed in
                wind_adjusted_time + 0.5
              else total_time_hours
            else total_time_hours
          end in
        (Return (Some total_time_hours),
         set_estimated_time (Some total_time_hours) self)
      end
  end.

Definition calculate_leg_times (h : heap) (self : t)
    (aircraft : option Aircraft.t) : list Q * t :=
  match aircraft with
  | None => ([], set_leg_times [] self)
  | Some aircraft =>
    let points :=
      match origin self, waypoints self with
      | Some o, w0 :: _ => [(Airport.point o, wp_point h w0)]
      | _, _ => []
      end
      ++ map (fun '(a, b) => (wp_point h a, wp_point h b))
             (consecutive (waypoints self))
      ++ match destination self, last (waypoints self) with
         | Some d, Some wl => [(wp_point h wl, Airport.point d)]
         | _, _ => []
         end in
    let leg_distances :=
      map (fun '(start, end_) => calculate_distance start end_) points in
    let leg_times :=
      map (fun distance =>
             if Qltb 0 (Aircraft.cruise_speed_kmh aircraft)
             then distance / Aircraft.cruise_speed_kmh aircraft
             else 0)
          leg_distances in
    let total_fixed := 0.5 in
    let leg_times := add_last (total_fixed / 2) (add_first (total_fixed / 2) leg_times) in
    (leg_times, set_leg_times leg_times (set_leg_distances leg_distances self))
  end.

Definition get_leg_times (h : heap) (self : t)
    (aircraft : option Aircraft.t) : list Q * t :=
  match leg_times self with
  | [] => let '(_, self) := calculate_leg_times h self aircraft in
          (leg_times self, self)
  | _ => (leg_times self, self)
  end.

(** [wind_angle = abs((wind_direction - bearing + 180) % 360 - 180)] *)
Definition wind_angle (wind_direction bearing : Q) : Q :=
  Qabs (py_mod (wind_direction - bearing + 180) 360 - 180).

(** [headwind = wind_speed * cos(radians(wind_angle))] *)
Definition headwind (wind_speed angle : Q) : Q :=
  wind_speed * cos (radians angle).

(** [tailwind = wind_speed * cos(radians(wind_angle - 180))] *)
Definition tailwind (wind_speed angle : Q) : Q :=
  wind_speed * cos (radians (angle - 180)).

(** The factor of one segment, from its weather sample and bearing. *)
Definition segment_wind_factor (sample : WeatherSample) (bearing : Q) : Q :=
  let wind_speed := sample_get sample "wind_speed_10m" 0 in
  let wind_direction := sample_get sample "wind_direction_10m" 0 in
  let angle := wind_angle wind_direction bearing in
  if Qle_bool angle 90 then 1 + 0.02 * headwind wind_speed angle
  else Qmax 0.5 (1 - 0.015 * tailwind wind_speed angle).

(** The key of segment [i]: [f"waypoint_{i}"]. *)
Definition waypoint_key (i : nat) : string := "waypoint_" +:+ pretty i.

(** One round of the loop over [enumerate(self.waypoints[:-1])]: segment
    [i] runs from [waypoint] to [next_waypoint]; [n] is
    [len(self.waypoints)]. *)
Definition wind_step (h : heap) (n : nat) (weather_data : WeatherData)
    (i : nat) (waypoint next_waypoint : ref) (wind_factor : Q) : Q :=
  let bearing := calculate_bearing (wp_point h waypoint) (wp_point h next_waypoint) in
  match weather_lookup (waypoint_key i) weather_data with
  | Some sample =>
    let segment_wind_factor := segment_wind_factor sample bearing in
    let segment_proportion := 1 / (inject_Z (Z.of_nat n) - 1) in
    wind_factor * (1 - segment_proportion)
    + segment_wind_factor * segment_proportion
  | None => wind_factor
  end.

Fixpoint wind_loop (h : heap) (n : nat) (weather_data : WeatherData)
    (i : nat) (segments : list (ref * ref)) (wind_factor : Q) : Q :=
  match segments with
  | [] => wind_factor
  | (waypoint, next_waypoint) :: rest =>
    wind_loop h n weather_data (S i) rest
      (wind_step h n weather_data i waypoint next_waypoint wind_factor)
  end.

(** The wind factor applied to the base fuel: the loop from 1.0, then
    [max(0.3, wind_factor)]. *)
Definition overall_wind_factor (h : heap) (self : t) (weather_data : WeatherData) : Q :=
  Qmax 0.3
    (wind_loop h (length (waypoints self)) weather_data 0
       (consecutive (waypoints self)) 1).

Definition calculate_fuel_consumption (h : heap) (self : t)
    (aircraft : option Aircraft.t) (weather_data : WeatherData) : outcome Q * t :=
  match aircraft with
  | None => (Raise AttributeError, self)
  | Some aircraft =>
    let distance_km := distance self in
    match py_div distance_km (Aircraft.cruise_speed_kmh aircraft) with
    | Raise e => (Raise e, self)
    | Return flight_hours =>
      let base_fuel_kg := flight_hours * Aircraft.fuel_consumption_rate_kg_hr aircraft in
      let altitude_factor := 1 in
      let temperature_factor := 1 in
      let wind_factor := overall_wind_factor h self weather_data in
      let total_fuel_kg :=
        base_fuel_kg * wind_factor * altitude_factor * temperature_factor in
      let total_fuel_kg := total_fuel_kg / 2 in
      (Return total_fuel_kg, set_fuel_consumption total_fuel_kg self)
    end
  end.

Definition calculate_total_distance (h : heap) (self : t) : Q * t :=
  let leg_distances :=
    match origin self, waypoints self with
    | Some o, w0 :: _ => [calculate_distance (Airport.point o) (wp_point h w0)]
    | _, _ => []
    end
    ++ map (fun '(a, b) => calculate_distance (wp_point h a) (wp_point h b))
           (consecutive (waypoints self))
    ++ match destination self, last (waypoints self) with
       | Some d, Some wl => [calculate_distance (wp_point h wl) (Airport.point d)]
       | _, _ => []
       end in
  let total := Qsum leg_distances in
  (total, set_distance total (set_leg_distances leg_distances self)).

Definition get_leg_distances (h : heap) (self : t) : list Q * t :=
  match leg_distances self with
  | [] => let '(_, self) := calculate_total_distance h self in
          (leg_distances self, self)
  | _ => (leg_distances self, self)
  end.

(** The loop [for i in range(ppo_index)] of the two methods below, over
    [self.waypoints[i]] and [self.waypoints[i + 1]]; [body] is what one round
    does to the accumulator ([total], or [segments]). *)
Definition ppo_prefix {B : Type} (body : B -> ref -> ref -> B) (waypoints : list ref)
    (ppo_index : Z) (acc : B) : outcome B :=
  foldl (fun acc i =>
           obind acc (fun acc =>
           obind (py_index waypoints (Z.of_nat i)) (fun start =>
           obind (py_index waypoints (Z.of_nat i + 1)) (fun end_ =>
           Return (body acc start end_)))))
        (Return acc) (seq 0 (Z.to_nat ppo_index)).

(** [calculate_time_after_ppo(self, ppo_index, alt_waypoints, new_destination,
    aircraft)] *)
Definition calculate_time_after_ppo (h : heap) (self : t) (ppo_index : Z)
    (alt_waypoints : list ref) (new_destination : Airport.t)
    (aircraft : option Aircraft.t) : outcome Q :=
  match aircraft with
  | None => Return 0
  | Some aircraft =>
    let segments :=
      match origin self, waypoints self with
      | Some o, w0 :: _ => [(Airport.point o, wp_point h w0)]
      | _, _ => []
      end in
    obind (ppo_prefix (fun segments start end_ =>
                         segments ++ [(wp_point h start, wp_point h end_)])
                      (waypoints self) ppo_index segments)
      (fun segments =>
    obind (py_index (waypoints self) ppo_index) (fun at_ppo =>
    let segments :=
      match alt_waypoints, last alt_waypoints with
      | alt_first :: _, Some alt_last =>
        (segments ++ [(wp_point h at_ppo, wp_point h alt_first)])
        ++ map (fun '(a, b) => (wp_point h a, wp_point h b)) (consecutive alt_waypoints)
        ++ [(wp_point h alt_last, Airport.point new_destination)]
      | _, _ => segments ++ [(wp_point h at_ppo, Airport.point new_destination)]
      end in
    let leg_times :=
      map (fun '(start, end_) =>
             let distance := calculate_distance start end_ in
             if Qltb 0 (Aircraft.cruise_speed_kmh aircraft)
             then distance / Aircraft.cruise_speed_kmh aircraft
             else 0)
          segments in
    let total_fixed := 0.5 in
    let leg_times := add_last (total_fixed / 2) (add_first (total_fixed / 2) leg_times) in
    Return (Qsum leg_times)))
  end.

(** [calculate_distance_after_ppo(self, ppo_index, alt_waypoints,
    new_destination)]; it does not assign [self.distance]. *)
Definition calculate_distance_after_ppo (h : heap) (self : t) (ppo_index : Z)
    (alt_waypoints : list ref) (new_destination : Airport.t) : outcome Q :=
  let total := 0 in
  let total :=
    match origin self, waypoints self with
    | Some o, w0 :: _ => total + calculate_distance (Airport.point o) (wp_point h w0)
    | _, _ => total
    end in
  obind (ppo_prefix (fun total start end_ =>
                       total + calculate_distance (wp_point h start) (wp_point h end_))
                    (waypoints self) ppo_index total)
    (fun total =>
  obind (py_index (waypoints self) ppo_index) (fun at_ppo =>
  match alt_waypoints, last alt_waypoints with
  | alt_first :: _, Some alt_last =>
    let total := total + calculate_distance (wp_point h at_ppo) (wp_point h alt_first) in
    let total :=
      foldl (fun total '(a, b) =>
               total + calculate_distance (wp_point h a) (wp_point h b))
            total (consecutive alt_waypoints) in
    Return (total + calculate_distance (wp_point h alt_last)
                                       (Airport.point new_destination))
  | _, _ =>
    Return (total + calculate_distance (wp_point h at_ppo)
                                       (Airport.point new_destination))
  end)).

(** The number of samples that satisfy a test, as the counting loops of
    the fitness score compute it. *)
Definition count_nodes (test : WeatherSample -> bool) (nodes : list WeatherSample) : Q :=
  foldl (fun risk node => if test node then risk + 1 else risk) 0 nodes.

(** Step 2 of the fitness score: the mean ground speed over the samples. *)
Definition avg_ground_speed (flight_heading_deg : Q) (weather_nodes : list WeatherSample) : Q :=
  let airspeed_km_h := 900 in
  let total :=
    foldl (fun avg node =>
             let jet_stream_speed := sample_get node "jet_stream_speed_250hPa" 0 in
             let jet_stream_direction := sample_get node "jet_stream_direction_250hPa" 0 in
             let angle_diff := radians (Qabs (flight_heading_deg - jet_stream_direction)) in
             let jet_stream_component := jet_stream_speed * cos angle_diff in
             let ground_speed := airspeed_km_h + jet_stream_component in
             avg + Qmax ground_speed (airspeed_km_h * 0.5))
          0 weather_nodes in
  total / (match weather_nodes with [] => 1 | _ => Qlen weather_nodes end).

(** Steps 1 to 7 of [calculate_fitness_score], reached with at least two
    weather samples. *)
Definition weather_fitness (self : t) (aircraft : option Aircraft.t)
    (weather_weight distance_weight : Q) (weather_nodes : list WeatherSample) : outcome Q :=
  let flight_heading_deg :=
    match origin self, destination self with
    | Some o, Some d =>
      let delta_lat := Airport.latitude d - Airport.latitude o in
      let delta_lon := Airport.longitude d - Airport.longitude o in
      py_mod (degrees (atan2 delta_lon delta_lat)) 360
    | _, _ => 0
    end in
  let avg_ground_speed := avg_ground_speed flight_heading_deg weather_nodes in
  let flight_time_hours :=
    if Qltb 0 avg_ground_speed then distance self / avg_ground_speed else float_inf in
  let '(fuel_consumption_rate, fuel_capacity_kg) :=
    match aircraft with
    | Some aircraft =>
      (Aircraft.fuel_consumption_rate_kg_hr aircraft,
       Aircraft.fuel_capacity_liters aircraft * 0.8)
    | None => (3000, 70000)
    end in
  let fuel_consumption_kg := fuel_consumption_rate * flight_time_hours in
  obind
    (if Qltb fuel_capacity_kg fuel_consumption_kg
     then obind (py_div (fuel_consumption_kg - fuel_capacity_kg) fuel_capacity_kg)
                (fun x => Return (x * 10))
     else Return 0)
    (fun fuel_penalty =>
  let turbulence_risk :=
    count_nodes (fun node =>
                   Qltb 0.5 (Qabs (sample_get node "vertical_velocity_250hPa" 0)))
                weather_nodes in
  let turbulence_penalty :=
    match weather_nodes with
    | [] => 0
    | _ => turbulence_risk / Qlen weather_nodes * 2
    end in
  let thunderstorm_risk :=
    count_nodes (fun node =>
                   Qltb 1000 (sample_get node "cape" 0)
                   || Qltb 80 (sample_get node "cloud_cover_high" 0))
                weather_nodes in
  let thunderstorm_penalty :=
    match weather_nodes with
    | [] => 0
    | _ => thunderstorm_risk / Qlen weather_nodes * 3
    end in
  let source_weather := default ∅ (head weather_nodes) in
  let dest_weather := default ∅ (last weather_nodes) in
  let visibility_source := sample_get source_weather "visibility" 10000 in
  let visibility_dest := sample_get dest_weather "visibility" 10000 in
  let cloud_cover_source := sample_get source_weather "cloud_cover" 0 in
  let cloud_cover_dest := sample_get dest_weather "cloud_cover" 0 in
  let visibility_penalty :=
    if Qltb visibility_source 5000 || Qltb visibility_dest 5000 then 1 else 0 in
  let cloud_cover_penalty :=
    if Qltb 80 cloud_cover_source || Qltb 80 cloud_cover_dest then 0.5 else 0 in
  let runway_risk :=
    count_nodes (fun weather =>
                   Qltb 10 (sample_get weather "precipitation" 0)
                   || Qltb 5 (sample_get weather "rain" 0)
                   || Qltb 5 (sample_get weather "showers" 0)
                   || Qltb 1 (sample_get weather "snowfall" 0))
                [source_weather; dest_weather] in
  let runway_penalty := runway_risk * 0.75 in
  let crosswind_penalty :=
    foldl (fun penalty weather =>
             let wind_speed_10m := sample_get weather "wind_speed_10m" 0 in
             let wind_direction_10m := sample_get weather "wind_direction_10m" 0 in
             let angle_diff := radians (Qabs (flight_heading_deg - wind_direction_10m)) in
             let crosswind_component := wind_speed_10m * sin angle_diff in
             if Qltb 20 crosswind_component then penalty + 0.5 else penalty)
          0 [source_weather; dest_weather] in
  let weather_hazard_penalty :=
    foldl (fun penalty weather =>
             if Qltb 50 (sample_get weather "weather_code" 0)
             then penalty + 0.3 else penalty)
          0 [source_weather; dest_weather] in
  let safety_score :=
    turbulence_penalty + thunderstorm_penalty + visibility_penalty
    + cloud_cover_penalty + runway_penalty + crosswind_penalty
    + weather_hazard_penalty in
  let normalized_fuel := fuel_consumption_kg / 10000 in
  let fitness_score :=
    weather_weight * safety_score + distance_weight * normalized_fuel
    + fuel_penalty in
  let fitness_score :=
    if Qltb 5000 (distance self)
    then fitness_score + (distance self - 5000) / 1000
    else fitness_score in
  Return fitness_score).

(** [calculate_fitness_score(self, aircraft=None, weather_weight=0.6,
    distance_weight=0.4)] *)
Definition calculate_fitness_score (h : heap) (self : t)
    (aircraft : option Aircraft.t) (weather_weight distance_weight : Q)
    : outcome Q * t :=
  let self :=
    if Qle_bool (distance self) 0 then snd (calculate_total_distance h self)
    else self in
  match weather_data self with
  | [] =>
    let fitness_score := distance self / 1000 in
    (Return fitness_score, set_fitness_score fitness_score self)
  | _ =>
    let weather_nodes := map snd (weather_data self) in
    if (length weather_nodes <? 2)%nat then
      let fitness_score := distance self / 1000 in
      (Return fitness_score, set_fitness_score fitness_score self)
    else
      match weather_fitness self aircraft weather_weight distance_weight weather_nodes with
      | Raise e => (Raise e, self)
      | Return fitness_score =>
        (Return fitness_score, set_fitness_score fitness_score self)
      end
  end.
End methods.
End Route.

(** ** The world: the object store and the source of fresh identifiers *)

Record World : Type := mkWorld {
  store : heap;
  (** what the successive calls of [uuid4()] return *)
  uuid_pool : nat -> UUID;
  (** how many identifiers have been drawn *)
  uuid_drawn : nat
}.

Definition set_store (h : heap) (w : World) : World :=
  mkWorld h (uuid_pool w) (uuid_drawn w).

(** [uuid4()] *)
Definition uuid4 : Py World UUID :=
  fun w => (Return (uuid_pool w (uuid_drawn w)),
            mkWorld (store w) (uuid_pool w) (S (uuid_drawn w))).

(** A new object. *)
Definition alloc (v : Waypoint.t) : Py World ref :=
  fun w => (Return (length (store w)), set_store (store w ++ [v]) w).

(** [copy.deepcopy(wp)]: a waypoint holds no reference, so its deep copy is a
    new object with the same attributes. *)
Definition deepcopy (r : ref) : Py World ref :=
  fun w => alloc (deref (store w) r) w.

(** [wp.attr = v] *)
Definition setattr (f : Waypoint.t -> Waypoint.t) (r : ref) : Py World unit :=
  py_modify (fun w => set_store (mutate f r (store w)) w).

(** Reading an attribute of an object. *)
Definition getattr {A : Type} (f : Waypoint.t -> A) (r : ref) : Py World A :=
  py_gets (fun w => f (deref (store w) r)).

(** ** Python lists and strings *)

(** [enumerate(l)] *)
Definition enumerate {A : Type} (l : list A) : list (nat * A) :=
  imap (fun i x => (i, x)) l.

(** The position a slice bound [i] stands for in a list of length [n]. *)
Definition slice_bound (n : nat) (i : Z) : nat :=
  if (i <? 0)%Z then Z.to_nat (Z.max 0 (Z.of_nat n + i))
  else Z.to_nat (Z.min i (Z.of_nat n)).

(** [l[:stop]] and [l[start:]] *)
Definition slice_to {A : Type} (l : list A) (stop : Z) : list A :=
  take (slice_bound (length l) stop) l.
Definition slice_from {A : Type} (l : list A) (start : Z) : list A :=
  drop (slice_bound (length l) start) l.

(** [l[1:-1]] *)
Definition interior {A : Type} (l : list A) : list A :=
  slice_to (slice_from l 1) (-1).

(** [s.split(sep)] for a separator of one character. *)
Fixpoint split_on (sep : ascii) (s : string) : list string :=
  match s with
  | EmptyString => [EmptyString]
  | String c rest =>
    if Ascii.eqb c sep then EmptyString :: split_on sep rest
    else match split_on sep rest with
         | [] => [String c EmptyString]
         | p :: ps => String c p :: ps
         end
  end.

(** [parts[-1] if len(parts) > 1 else "alt"], for [parts = name.split("_")] *)
Definition route_type_of_name (name : string) : string :=
  let parts := split_on "_"%char name in
  if (1 <? length parts)%nat then default EmptyString (last parts) else "alt"%string.

(** [l.sort(key=key)]: Python's sort is stable. *)
Fixpoint insert_by {A : Type} (key : A -> Q) (x : A) (l : list A) : list A :=
  match l with
  | [] => [x]
  | y :: rest =>
    if Qle_bool (key x) (key y) then x :: y :: rest
    else y :: insert_by key x rest
  end.
Definition sort_by {A : Type} (key : A -> Q) (l : list A) : list A :=
  foldr (insert_by key) [] l.

(** [x == y] on two waypoint references, as the list methods test it: the
    same object, or two objects that [__eq__] equates. *)
Definition same_waypoint `{Library} (h : heap) (y x : ref) : bool :=
  bool_decide (y = x) || waypoint_eq (deref h y) (deref h x).

(** [l.index(x)]: the first position of a waypoint equal to [x], [None]
    where Python raises [ValueError]. *)
Fixpoint index_of `{Library} (h : heap) (x : ref) (l : list ref) : option nat :=
  match l with
  | [] => None
  | y :: rest => if same_waypoint h y x then Some O else S <$> index_of h x rest
  end.

(** [x in l] *)
Definition contains `{Library} (h : heap) (x : ref) (l : list ref) : bool :=
  existsb (fun y => same_waypoint h y x) l.

(** A method call on a route held in a local variable: the method's result
    together with the route as the call leaves it. *)
Definition call {S A : Type} (r : outcome A * Route.t) : Py S (A * Route.t) :=
  fun s =>
    match r with
    | (Return a, obj) => (Return (a, obj), s)
    | (Raise e, _) => (Raise e, s)
    end.

(** Truthiness of an attribute that holds a number or [None]. *)
Definition opt_truthy (o : option Q) : bool :=
  match o with
  | Some x => truthy x
  | None => false
  end.

(** ** [PPORerouter] *)

Module PPORerouter.
(** [services/weather_service.py] is not among the sources: the one method
    the rerouter calls is a function of the route and of the objects it
    refers to, and may fail. *)
Record WeatherService : Type := mkWeatherService {
  get_weather_for_route : heap -> Route.t -> outcome WeatherData
}.

Record t : Type := mk {
  used_route_types : list string;
  weather_service : option WeatherService;
  aircraft : option Aircraft.t;
  consider_fuel : bool
}.

Definition set_used_route_types (v : list string) (self : t) : t :=
  mk v (weather_service self) (aircraft self) (consider_fuel self).

(** [PPORerouter(weather_service, aircraft)] *)
Definition init (weather_service : option WeatherService)
    (aircraft : option Aircraft.t) : t :=
  mk [] weather_service aircraft true.

(** An entry of [scores]. *)
Record Score : Type := mkScore {
  route : Route.t;
  target_waypoint : ref;
  target_index : nat;
  distance : Q;
  score : Q;
  fuel_kg : Q;
  weather_risk : Q;
  rerouted_path : Route.t
}.

(** An entry of [reroute_targets]. *)
Record Target : Type := mkTarget {
  t_route : Route.t;
  t_target_waypoint : ref;
  t_target_index : nat;
  t_distance : Q
}.

(** [alt_route.path_type in self.used_route_types or
    alt_route.path_type == "direct"] *)
Definition skipped (self : t) (alt_route : Route.t) : bool :=
  bool_decide (Route.path_type alt_route ∈ used_route_types self)
  || bool_decide (Route.path_type alt_route = "direct"%string).

Section methods.
Context `{Library}.

(** The search for the waypoint of an alternative closest to the current
    position: [(nearest_wp, nearest_index, min_distance)], [None] while
    [nearest_wp] is [None] (and [min_distance] is [float("inf")]). *)
Definition nearest (h : heap) (current_position : ref) (alt_waypoints : list ref)
    : option (ref * nat * Q) :=
  foldl (fun best '(i, wp) =>
           let distance :=
             calculate_distance (Route.wp_point h current_position)
                                (Route.wp_point h wp) in
           match best with
           | None => Some (wp, i, distance)
           | Some (_, _, min_distance) =>
             if Qltb distance min_distance then Some (wp, i, distance) else best
           end)
        None (enumerate alt_waypoints).

(** The first loop of [_create_rerouted_path]:
    [(current_pos_index, blocked_index)], each -1 when no id matches. *)
Definition locate (h : heap) (waypoints : list ref)
    (current_position blocked_waypoint : ref) : Z * Z :=
  foldl (fun '(current_pos_index, blocked_index) '(i, wp) =>
           let current_pos_index :=
             if bool_decide (Waypoint.id (deref h wp)
                             = Waypoint.id (deref h current_position))
             then Z.of_nat i else current_pos_index in
           let blocked_index :=
             if bool_decide (Waypoint.id (deref h wp)
                             = Waypoint.id (deref h blocked_waypoint))
             then Z.of_nat i else blocked_index in
           (current_pos_index, blocked_index))
        ((-1)%Z, (-1)%Z) (enumerate waypoints).

(** The search by closest coordinates, run when no id matched: the index
    found, -1 on an empty list. *)
Definition closest_index (h : heap) (waypoints : list ref)
    (current_position : ref) : Z :=
  snd (foldl (fun '(min_distance, current_pos_index) '(i, wp) =>
                let distance :=
                  geodesic_kilometers (Route.wp_point h current_position)
                                      (Route.wp_point h wp) in
                match min_distance with
                | None => (Some distance, Z.of_nat i)
                | Some m =>
                  if Qltb distance m then (Some distance, Z.of_nat i)
                  else (min_distance, current_pos_index)
                end)
             (None, (-1)%Z) (enumerate waypoints)).

(** [(waypoints_initial, waypoints_alt)].  In the first branch
    [current_route.waypoints[-1]] is read for a log message only, and the
    list is not empty there, since it holds the blocked waypoint. *)
Definition split_paths (h : heap) (current_route alternative_route : Route.t)
    (blocked_waypoint current_position : ref) (target_index : Z)
    : list ref * list ref :=
  let '(current_pos_index, blocked_index) :=
    locate h (Route.waypoints current_route) current_position blocked_waypoint in
  let current_pos_index :=
    if (current_pos_index =? -1)%Z
    then closest_index h (Route.waypoints current_route) current_position
    else current_pos_index in
  if negb (blocked_index =? -1)%Z && (current_pos_index <? blocked_index)%Z then
    let waypoints_initial :=
      slice_to (Route.waypoints current_route) (current_pos_index + 1) in
    let alt_waypoints := Route.waypoints alternative_route in
    let join_index := (target_index + 2)%Z in
    let join_index :=
      if (Z.of_nat (length alt_waypoints) <=? join_index)%Z
      then (Z.of_nat (length alt_waypoints) - 1)%Z
      else join_index in
    let waypoints_alt := slice_from alt_waypoints join_index in
    (waypoints_initial, waypoints_alt)
  else
    let waypoints_initial :=
      slice_to (Route.waypoints current_route) (current_pos_index + 1) in
    let remaining_waypoints :=
      slice_from (Route.waypoints current_route) (current_pos_index + 1) in
    (waypoints_initial, remaining_waypoints).
End methods.

(** [f"WP{order}_{route_type}"] *)
Definition wp_name (order : nat) (route_type : string) : string :=
  "WP" +:+ pretty order +:+ "_" +:+ route_type.

(** The loop over [enumerate(waypoints_initial)], from index [i]. *)
Fixpoint copy_initial (i : nat) (waypoints_initial : list ref) : Py World (list ref) :=
  match waypoints_initial with
  | [] => mret []
  | wp :: rest =>
    wp_copy ← deepcopy wp;
    _ ← setattr (Waypoint.set_order (Z.of_nat i + 1)) wp_copy;
    copies ← copy_initial (S i) rest;
    mret (wp_copy :: copies)
  end.

(** The loop over [enumerate(waypoints_alt)], from index [i]. *)
Fixpoint copy_alt (next_order i : nat) (waypoints_alt : list ref) : Py World (list ref) :=
  match waypoints_alt with
  | [] => mret []
  | wp :: rest =>
    wp_copy ← deepcopy wp;
    new_id ← uuid4;
    _ ← setattr (Waypoint.set_id new_id) wp_copy;
    original_name ← getattr Waypoint.name wp;
    let route_type := route_type_of_name original_name in
    _ ← setattr (Waypoint.set_name (wp_name (next_order + i) route_type)) wp_copy;
    _ ← setattr (Waypoint.set_order (Z.of_nat (next_order + i))) wp_copy;
    copies ← copy_alt next_order (S i) rest;
    mret (wp_copy :: copies)
  end.

(** [is_destination_included]: the assembled list is not empty and its last
    waypoint has the latitude and the longitude of [destination_waypoint]. *)
Definition is_destination_included (h : heap) (combined_waypoints : list ref)
    (destination_waypoint : ref) : bool :=
  match last combined_waypoints with
  | Some final_combined =>
    Qeq_bool (Waypoint.latitude (deref h final_combined))
             (Waypoint.latitude (deref h destination_waypoint))
    && Qeq_bool (Waypoint.longitude (deref h final_combined))
                (Waypoint.longitude (deref h destination_waypoint))
  | None => false
  end.

(** "Always ensure the final waypoint is the destination": the block from
    [destination_waypoint = copy.deepcopy(current_route.waypoints[-1])] to
    the append. *)
Definition ensure_destination (current_route : Route.t)
    (combined_waypoints : list ref) : Py World (list ref) :=
  match last (Route.waypoints current_route) with
  | None => py_raise IndexError
  | Some final =>
    destination_waypoint ← deepcopy final;
    h ← py_gets store;
    if is_destination_included h combined_waypoints destination_waypoint
    then mret combined_waypoints
    else
      new_id ← uuid4;
      _ ← setattr (Waypoint.set_id new_id) destination_waypoint;
      let order := S (length combined_waypoints) in
      _ ← setattr (Waypoint.set_order (Z.of_nat order)) destination_waypoint;
      new_name ← match last combined_waypoints with
                 | Some final_combined =>
                   last_name ← getattr Waypoint.name final_combined;
                   mret (wp_name order (route_type_of_name last_name))
                 | None => mret (wp_name order "dest")
                 end;
      _ ← setattr (Waypoint.set_name new_name) destination_waypoint;
      mret (combined_waypoints ++ [destination_waypoint])
  end.

(** [current_route.reroute_history + [reroute_record]], or the record
    alone when the current route has no history. *)
Definition extend_history (current_route : Route.t)
    (reroute_record : string * string) : list (string * string) :=
  match Route.reroute_history current_route with
  | Some (entry :: entries) => (entry :: entries) ++ [reroute_record]
  | _ => [reroute_record]
  end.

Section methods2.
Context `{Library}.

(** The construction of the new [Route] from the combined waypoints, with
    its history, weather and metrics: the part of [_create_rerouted_path]
    from "Create reroute record" on. *)
Definition build_route (self : t) (current_route : Route.t)
    (blocked_waypoint : ref) (alternative_route : Route.t)
    (combined_waypoints : list ref) : Py World Route.t :=
  blocked_name ← getattr Waypoint.name blocked_waypoint;
  let reroute_record := (blocked_name, Route.path_type alternative_route) in
  new_id ← uuid4;
  let rerouted_route :=
    Route.init new_id ("Rerouted_" +:+ Route.name current_route)
               (Route.origin current_route) (Route.destination current_route)
               combined_waypoints
               ("rerouted_" +:+ Route.path_type alternative_route) "ppo" 0 0 in
  let rerouted_route :=
    Route.set_reroute_history
      (Some (extend_history current_route reroute_record)) rerouted_route in
  let rerouted_route :=
    match Route.weather_data current_route, Route.weather_data alternative_route with
    | _ :: _, _ =>
      Route.set_weather_data (Route.weather_data current_route) rerouted_route
    | [], _ :: _ =>
      Route.set_weather_data (Route.weather_data alternative_route) rerouted_route
    | [], [] => rerouted_route
    end in
  h ← py_gets store;
  let '(_, rerouted_route) := Route.calculate_total_distance h rerouted_route in
  '(_, rerouted_route) ← call (Route.calculate_fitness_score h rerouted_route None 0.6 0.4);
  let rerouted_route :=
    if opt_truthy (Route.estimated_time current_route)
    then Route.set_estimated_time (Route.estimated_time current_route) rerouted_route
    else rerouted_route in
  match aircraft self, Route.weather_data rerouted_route with
  | Some _, _ :: _ =>
    '(fuel_kg, rerouted_route) ←
      call (Route.calculate_fuel_consumption h rerouted_route (aircraft self)
              (Route.weather_data rerouted_route));
    let rerouted_route := Route.set_fuel_consumption fuel_kg rerouted_route in
    '(flight_time, rerouted_route) ←
      call (Route.calculate_estimated_time h rerouted_route (aircraft self));
    mret (Route.set_estimated_time flight_time rerouted_route)
  | _, _ =>
    if negb (opt_truthy (Route.estimated_time rerouted_route)) then
      let default_speed := 900 in
      let flight_hours := Route.distance rerouted_route / default_speed in
      mret (Route.set_estimated_time (Some (flight_hours + 0.5)) rerouted_route)
    else mret rerouted_route
  end.

Definition _create_rerouted_path (self : t) (current_route : Route.t)
    (blocked_waypoint current_position : ref) (alternative_route : Route.t)
    (target_waypoint : ref) (target_index : Z) : Py World Route.t :=
  h ← py_gets store;
  let '(waypoints_initial, waypoints_alt) :=
    split_paths h current_route alternative_route blocked_waypoint
                current_position target_index in
  initial_copies ← copy_initial 0 waypoints_initial;
  let next_order := S (length initial_copies) in
  alt_copies ← copy_alt next_order 0 waypoints_alt;
  combined_waypoints ← ensure_destination current_route (initial_copies ++ alt_copies);
  build_route self current_route blocked_waypoint alternative_route combined_waypoints.

(** The risk accumulated over [rerouted.weather_data.items()]. *)
Definition weather_risk_of (weather_data : WeatherData) : Q :=
  foldl (fun weather_risk '(wp_key, weather) =>
           let v_velocity := Qabs (sample_get weather "vertical_velocity_250hPa" 0) in
           let weather_risk :=
             if Qltb 0.5 v_velocity then weather_risk + v_velocity * 2
             else weather_risk in
           let visibility := sample_get weather "visibility" 10000 in
           let weather_risk :=
             if Qltb visibility 5000 then weather_risk + (5000 - visibility) / 1000
             else weather_risk in
           let cloud_cover := sample_get weather "cloud_cover" 0 in
           if Qltb 80 cloud_cover then weather_risk + (cloud_cover - 80) / 5
           else weather_risk)
        0 weather_data.

(** One round of the loop of [evaluate_alternatives]: the entry appended
    to [scores], [None] when the round ends in [continue]. *)
Definition evaluate_one (self : t) (current_route : Route.t)
    (blocked_waypoint current_position : ref) (alt_route : Route.t)
    : Py World (option Score) :=
  if skipped self alt_route then mret None
  else
    h ← py_gets store;
    match nearest h current_position (Route.waypoints alt_route) with
    | None => mret None
    | Some (nearest_wp, nearest_index, min_distance) =>
      rerouted ← _create_rerouted_path self current_route blocked_waypoint
                   current_position alt_route nearest_wp (Z.of_nat nearest_index);
      '(fuel_kg, rerouted) ←
        match consider_fuel self, weather_service self, aircraft self with
        | true, Some service, Some _ =>
          rerouted ←
            match Route.weather_data rerouted with
            | [] =>
              h ← py_gets store;
              weather ← py_lift (get_weather_for_route service h rerouted);
              mret (Route.set_weather_data weather rerouted)
            | _ => mret rerouted
            end;
          h ← py_gets store;
          call (Route.calculate_fuel_consumption h rerouted (aircraft self)
                  (Route.weather_data rerouted))
        | _, _, _ => mret (0, rerouted)
        end;
      let base_score := Route.fitness_score rerouted in
      let weather_risk :=
        if consider_fuel self then weather_risk_of (Route.weather_data rerouted)
        else 0 in
      let fuel_factor := if consider_fuel self then 0.2 else 0 in
      let weather_factor := if consider_fuel self then 0.1 else 0 in
      let total_score :=
        base_score + fuel_kg * fuel_factor + weather_risk * weather_factor in
      mret (Some (mkScore alt_route nearest_wp nearest_index min_distance
                          total_score fuel_kg weather_risk rerouted))
    end.

(** The loop of [evaluate_alternatives]: [scores] as the rounds leave it. *)
Fixpoint evaluate_loop (self : t) (current_route : Route.t)
    (blocked_waypoint current_position : ref) (alternative_routes : list Route.t)
    (scores : list Score) : Py World (list Score) :=
  match alternative_routes with
  | [] => mret scores
  | alt_route :: rest =>
    entry ← evaluate_one self current_route blocked_waypoint current_position alt_route;
    evaluate_loop self current_route blocked_waypoint current_position rest
      (match entry with
       | Some e => scores ++ [e]
       | None => scores
       end)
  end.

Definition evaluate_alternatives (self : t) (current_route : Route.t)
    (blocked_waypoint current_position : ref) (alternative_routes : list Route.t)
    : Py World (list Score) :=
  scores ← evaluate_loop self current_route blocked_waypoint current_position
             alternative_routes [];
  mret (sort_by score scores).

(** The state [reroute] runs in: the rerouter object, whose
    [used_route_types] it assigns, and the world. *)
Record state : Type := mkState {
  self_ : t;
  world : World
}.

Definition in_world {A : Type} (m : Py World A) : Py state A :=
  fun s => let '(o, w) := m (world s) in (o, mkState (self_ s) w).

Definition update_self (f : t -> t) : Py state unit :=
  py_modify (fun s => mkState (f (self_ s)) (world s)).

(** "Reset used route types if this is a new rerouting session", else
    "extract used route types from reroute history". *)
Definition reset_used_route_types (current_route : Route.t) (self : t) : t :=
  match Route.reroute_history current_route with
  | Some (entry :: entries) =>
    set_used_route_types (map snd (entry :: entries)) self
  | _ => set_used_route_types [Route.path_type current_route] self
  end.

(** The targets of the non-fuel-aware branch, in the order of the
    alternatives. *)
Definition reroute_targets (self : t) (h : heap) (current_position : ref)
    (alternative_routes : list Route.t) : list Target :=
  omap (fun alt_route =>
          if skipped self alt_route then None
          else match nearest h current_position (Route.waypoints alt_route) with
               | Some (nearest_wp, nearest_index, min_distance) =>
                 Some (mkTarget alt_route nearest_wp nearest_index min_distance)
               | None => None
               end)
       alternative_routes.

(** "If no current_position is provided, use the waypoint before the blocked
    one": the position to reroute from, [None] where [reroute] returns
    [None] (the blocked waypoint is the first one, or is not in the route). *)
Definition resolve_position (blocked_waypoint : ref) (current_route : Route.t)
    (current_position : option ref) : Py state (option ref) :=
  match current_position with
  | Some current_position => mret (Some current_position)
  | None =>
    h ← in_world (py_gets store);
    match index_of h blocked_waypoint (Route.waypoints current_route) with
    | Some (S before) =>
      let current_position := Route.waypoints current_route !!! before in
      _ ← in_world (setattr (Waypoint.set_status ACTIVE) current_position);
      mret (Some current_position)
    | Some O => mret None
    | None => mret None
    end
  end.

(** "Evaluate alternative routes considering weather and fuel", or the
    "original non-fuel-aware rerouting logic". *)
Definition choose_reroute (blocked_waypoint : ref) (current_route : Route.t)
    (alternative_routes : list Route.t) (current_position : ref)
    : Py state (option Route.t) :=
  self ← py_gets self_;
  match consider_fuel self, weather_service self, aircraft self with
  | true, Some _, Some _ =>
    alternatives ← in_world (evaluate_alternatives self current_route
                               blocked_waypoint current_position
                               alternative_routes);
    match alternatives with
    | [] => mret None
    | best_reroute :: _ =>
      _ ← update_self (fun self =>
             set_used_route_types
               (used_route_types self
                ++ [Route.path_type (route best_reroute)]) self);
      mret (Some (rerouted_path best_reroute))
    end
  | _, _, _ =>
    h ← in_world (py_gets store);
    match sort_by t_distance
            (reroute_targets self h current_position alternative_routes) with
    | [] => mret None
    | best_reroute :: _ =>
      rerouted_route ←
        in_world (_create_rerouted_path self current_route blocked_waypoint
                    current_position (t_route best_reroute)
                    (t_target_waypoint best_reroute)
                    (Z.of_nat (t_target_index best_reroute)));
      _ ← update_self (fun self =>
             set_used_route_types
               (used_route_types self
                ++ [Route.path_type (t_route best_reroute)]) self);
      if negb (opt_truthy (Route.estimated_time rerouted_route)) then
        match aircraft self with
        | Some _ =>
          h ← in_world (py_gets store);
          '(flight_time, rerouted_route) ←
            call (Route.calculate_estimated_time h rerouted_route (aircraft self));
          mret (Some (Route.set_estimated_time flight_time rerouted_route))
        | None =>
          let default_speed := 900 in
          let flight_hours := Route.distance rerouted_route / default_speed in
          mret (Some (Route.set_estimated_time (Some (flight_hours + 0.5))
                                               rerouted_route))
        end
      else mret (Some rerouted_route)
    end
  end.

(** [reroute(blocked_waypoint, current_route, alternative_routes,
    current_position=None)].  An absent argument is [None]. *)
Definition reroute (blocked_waypoint : option ref) (current_route : option Route.t)
    (alternative_routes : list Route.t) (current_position : option ref)
    : Py state (option Route.t) :=
  match blocked_waypoint, current_route, alternative_routes with
  | Some blocked_waypoint, Some current_route, _ :: _ =>
    _ ← update_self (reset_used_route_types current_route);
    position ← resolve_position blocked_waypoint current_route current_position;
    match position with
    | None => mret None
    | Some current_position =>
      choose_reroute blocked_waypoint current_route alternative_routes current_position
    end
  | _, _, _ => mret None
  end.
End methods2.
End PPORerouter.

(** ** [RouteAdjuster] *)

Module RouteAdjuster.
(** An entry of [excluded_areas]. *)
Record ExcludedArea : Type := mkExcludedArea {
  center : Point;
  radius : Q
}.

(** What is passed as [destination] to the generator: the waypoint after
    the blocked one, or the route's destination, which may be [None]. *)
Inductive Endpoint : Type :=
  | AtWaypoint (w : Waypoint.t)
  | AtAirport (a : option Airport.t).

(** A route returned by an optimizer, seen through the attribute the
    adjuster reads.  The waypoints of a generated route are objects of its
    own: they are given by value and enter the store when they are spliced
    into a stored route. *)
Record Segment : Type := mkSegment {
  segment_waypoints : list Waypoint.t
}.

(** [services/route_generator.py] and
    [services/optimization/optimizer_factory.py] are not among the sources.
    [generate_alternative_routes(origin, destination, aircraft_model,
    excluded_areas)] and [get_optimizer(method).optimize(routes)] are
    functions of their arguments that may fail; [Routes] is whatever the
    first hands to the second. *)
Record Services : Type := mkServices {
  Routes : Type;
  generate_alternative_routes :
    Airport.t -> Endpoint -> option string -> list ExcludedArea -> outcome Routes;
  optimize : string -> Routes -> outcome (option Segment)
}.

(** The adjuster's [active_routes], and the world. *)
Record state : Type := mkState {
  active_routes : gmap string Route.t;
  world : World
}.

Definition in_world {A : Type} (m : Py World A) : Py state A :=
  fun s => let '(o, w) := m (world s) in (o, mkState (active_routes s) w).

(** The loop that finds the blocked waypoint: the first index whose
    waypoint has the id, with the waypoint. *)
Fixpoint find_waypoint (h : heap) (waypoint_id : string) (idx : nat)
    (waypoints : list ref) : option (nat * ref) :=
  match waypoints with
  | [] => None
  | waypoint :: rest =>
    if bool_decide (Waypoint.id (deref h waypoint) = waypoint_id)
    then Some (idx, waypoint)
    else find_waypoint h waypoint_id (S idx) rest
  end.

(** The new objects of a segment's waypoints. *)
Fixpoint alloc_all (l : list Waypoint.t) : Py World (list ref) :=
  match l with
  | [] => mret []
  | v :: rest => r ← alloc v; rs ← alloc_all rest; mret (r :: rs)
  end.

(** [next_waypoint]: the waypoint at [idx], or the route's destination. *)
Definition endpoint_at (h : heap) (route : Route.t) (idx : nat) : Endpoint :=
  match Route.waypoints route !! idx with
  | Some w => AtWaypoint (deref h w)
  | None => AtAirport (Route.destination route)
  end.

(** "Set the current position (either previous waypoint or route origin)":
    the waypoint before the blocked one becomes ACTIVE.  The result is
    [(current_lat, current_lon, next_waypoint)]. *)
Definition anchor (route : Route.t) (blocked_idx : nat) : Py state (Q * Q * Endpoint) :=
  match blocked_idx with
  | S before =>
    let current_position := Route.waypoints route !!! before in
    _ ← in_world (setattr Waypoint.mark_as_active current_position);
    h ← in_world (py_gets store);
    mret (Waypoint.latitude (deref h current_position),
          Waypoint.longitude (deref h current_position),
          endpoint_at h route (blocked_idx + 1))
  | O =>
    match Route.origin route with
    | None => py_raise AttributeError
    | Some origin =>
      h ← in_world (py_gets store);
      mret (Airport.latitude origin, Airport.longitude origin,
            endpoint_at h route 1)
    end
  end.

(** "Build new waypoints list" and "Update the route's waypoints": the
    commit.  [route] is the object stored under [route_id], so assigning its
    [waypoints] changes the stored route. *)
Definition splice (route_id : string) (route : Route.t) (blocked_idx : nat)
    (new_segment : Segment) : Py state Route.t :=
  bypass ←
    (if (2 <? length (segment_waypoints new_segment))%nat
     then in_world (alloc_all (interior (segment_waypoints new_segment)))
     else mret []);
  let new_waypoints :=
    (if (0 <? blocked_idx)%nat then take blocked_idx (Route.waypoints route)
     else [])
    ++ bypass
    ++ (if (blocked_idx + 1 <? length (Route.waypoints route))%nat
        then drop (blocked_idx + 1) (Route.waypoints route)
        else []) in
  let route := Route.set_waypoints new_waypoints route in
  _ ← py_modify (fun s => mkState (<[route_id := route]> (active_routes s))
                                  (world s));
  mret route.

Definition handle_blocked_waypoint (services : Services)
    (route_id waypoint_id : string) : Py state (option Route.t) :=
  registry ← py_gets active_routes;
  match registry !! route_id with
  | None => mret None
  | Some route =>
    h ← in_world (py_gets store);
    match find_waypoint h waypoint_id 0 (Route.waypoints route) with
    | None => mret None
    | Some (blocked_idx, blocked) =>
      _ ← in_world (setattr Waypoint.mark_as_blocked blocked);
      '(current_lat, current_lon, next_waypoint) ← anchor route blocked_idx;
      h ← in_world (py_gets store);
      let excluded_area :=
        mkExcludedArea (Waypoint.latitude (deref h blocked),
                        Waypoint.longitude (deref h blocked)) 0.2 in
      tmp ← in_world uuid4;
      let temp_origin :=
        Airport.mk ("TMP" +:+ substring 0 4 tmp) "Current Position" EmptyString EmptyString
                   current_lat current_lon in
      new_segment_routes ←
        py_lift (generate_alternative_routes services temp_origin next_waypoint
                   None [excluded_area]);
      new_segment ←
        py_lift (optimize services (Route.optimization_method route) new_segment_routes);
      match new_segment with
      | None => mret None
      | Some new_segment =>
        match segment_waypoints new_segment with
        | [] => mret None
        | _ => route ← splice route_id route blocked_idx new_segment; mret (Some route)
        end
      end
    end
  end.

(** [register_route(route)] *)
Definition register_route (route : Route.t) : Py state unit :=
  py_modify (fun s => mkState (<[Route.id route := route]> (active_routes s))
                              (world s)).
End RouteAdjuster.

(** ** Vocabulary of the statements *)

(** The store after steps 2 and 3 of [handle_blocked_waypoint]: the blocked
    waypoint marked BLOCKED, then the waypoint before it, if there is one,
    marked ACTIVE. *)
Definition marked (route : Route.t) (blocked_idx : nat) (blocked : ref) (h : heap) : heap :=
  match blocked_idx with
  | O => mutate Waypoint.mark_as_blocked blocked h
  | S before =>
    mutate Waypoint.mark_as_active (Route.waypoints route !!! before)
      (mutate Waypoint.mark_as_blocked blocked h)
  end.

(** Two states of a waypoint that differ at most in the status. *)
Definition same_identity (v w : Waypoint.t) : Prop :=
  Waypoint.id v = Waypoint.id w /\ Waypoint.name v = Waypoint.name w
  /\ Waypoint.latitude v = Waypoint.latitude w
  /\ Waypoint.longitude v = Waypoint.longitude w
  /\ Waypoint.order v = Waypoint.order w.

(** The adjuster's state with another store. *)
Definition with_store (h : heap) (s : RouteAdjuster.state) : RouteAdjuster.state :=
  RouteAdjuster.mkState (RouteAdjuster.active_routes s)
                        (set_store h (RouteAdjuster.world s)).

(** The path of a route: what the metrics do not assign. *)
Definition same_path (r r' : Route.t) : Prop :=
  Route.waypoints r' = Route.waypoints r
  /\ Route.origin r' = Route.origin r
  /\ Route.destination r' = Route.destination r.

(** Two waypoints at the same place, as floats compare ([==] on [Q]) and as
    values. *)
Definition same_coordinates (v w : Waypoint.t) : Prop :=
  Waypoint.latitude v == Waypoint.latitude w
  /\ Waypoint.longitude v == Waypoint.longitude w.

Definition eq_coordinates (v w : Waypoint.t) : Prop :=
  Waypoint.latitude v = Waypoint.latitude w
  /\ Waypoint.longitude v = Waypoint.longitude w.

(** An index that [l[i]] accepts: it lies in [-len(l), len(l)). *)
Definition in_range {A : Type} (l : list A) (i : Z) : Prop :=
  (- Z.of_nat (length l) <= i < Z.of_nat (length l))%Z.

(** A list in ascending order of a key. *)
Definition ascending {A : Type} (key : A -> Q) (l : list A) : Prop :=
  forall i j x y, (i < j)%nat -> l !! i = Some x -> l !! j = Some y -> key x <= key y.

(** What the search for the nearest waypoint has found after going over a
    list: nothing on the empty list, and otherwise a waypoint of the list, its
    index and its distance, which no waypoint of the list undercuts and no
    earlier one equals. *)
Definition closest `{Library} (h : heap) (current_position : ref) (l : list ref)
    (best : option (ref * nat * Q)) : Prop :=
  let dist := fun wp =>
    calculate_distance (Route.wp_point h current_position) (Route.wp_point h wp) in
  match best with
  | None => l = []
  | Some (wp, i, d) =>
    l !! i = Some wp
    /\ d = dist wp
    /\ (forall j wp', l !! j = Some wp' -> d <= dist wp')
    /\ (forall j wp', (j < i)%nat -> l !! j = Some wp' -> d < dist wp')
  end.

(** The copy that [_create_rerouted_path] makes of a waypoint of the initial
    part: the order is assigned, the rest is kept. *)
Definition initial_copy (order : nat) (v : Waypoint.t) : Waypoint.t :=
  Waypoint.set_order (Z.of_nat order) v.

(** The copy it makes of a waypoint of the alternative part: a new id, the
    name [WP{order}_{route_type}] and the order are assigned; the coordinates
    and the status are kept. *)
Definition alt_copy (new_id : UUID) (order : nat) (v : Waypoint.t) : Waypoint.t :=
  Waypoint.set_order (Z.of_nat order)
    (Waypoint.set_name (PPORerouter.wp_name order (route_type_of_name (Waypoint.name v)))
       (Waypoint.set_id new_id v)).

(** The labels of a route, which the metrics do not assign. *)
Definition same_labels (r r' : Route.t) : Prop :=
  Route.id r' = Route.id r
  /\ Route.name r' = Route.name r
  /\ Route.path_type r' = Route.path_type r
  /\ Route.optimization_method r' = Route.optimization_method r
  /\ Route.reroute_history r' = Route.reroute_history r.

(** The waypoints ahead after a PPO at [ppo_index]: the current ones up to
    that index, then the alternates. *)
Definition ahead (self : Route.t) (ppo_index : Z) (alt_waypoints : list ref) : list ref :=
  take (S (Z.to_nat ppo_index)) (Route.waypoints self) ++ alt_waypoints.

(** ** Sample data

    Concrete inputs on which the model is run below.  [sample_library]
    stands in for the numeric library with rational functions (a flat-earth
    distance, constant trigonometry); the theorems quantify over every
    [Library], and the runs shown do not depend on the choice. *)

Definition sample_library : Library := {|
  cos := fun _ => 1;
  sin := fun _ => 0;
  atan2 := fun _ _ => 0;
  radians := fun x => x * (355 # 113) / 180;
  degrees := fun x => x * 180 / (355 # 113);
  calculate_distance := fun p q => 111 * (Qabs (p.1 - q.1) + Qabs (p.2 - q.2));
  calculate_bearing := fun _ _ => 0;
  geodesic_kilometers := fun p q => 111 * (Qabs (p.1 - q.1) + Qabs (p.2 - q.2));
  waypoint_eq := fun _ _ => false;
  float_inf := 0
|}.

Definition airport_A : Airport.t := Airport.mk "AAA" "Alpha" "A" "IN" 10 10.
Definition airport_B : Airport.t := Airport.mk "BBB" "Bravo" "B" "IN" 20 20.

Definition wp1 : Waypoint.t := Waypoint.mk "id-1" "WP1_direct" 12 12 1 PENDING.
Definition wp2 : Waypoint.t := Waypoint.mk "id-2" "WP2_direct" 14 14 2 PENDING.
Definition wp3 : Waypoint.t := Waypoint.mk "id-3" "WP3_direct" 16 16 3 PENDING.

(** Route R1 of the spec's scenario: origin A, destination B, three
    waypoints, path type "direct". *)
Definition route_R1 : Route.t :=
  Route.init "R1" "R1" (Some airport_A) (Some airport_B) [0; 1; 2]%nat "direct" "aco" 0 0.

(** A route with no waypoint between A and B. *)
Definition route_bare : Route.t :=
  Route.init "R0" "R0" (Some airport_A) (Some airport_B) [] "direct" "aco" 0 0.

Definition sample_store : heap := [wp1; wp2; wp3].

Definition sample_world : World :=
  mkWorld sample_store (fun n => "uuid-" +:+ pretty n) 0.

Definition jet : Aircraft.t := Aircraft.mk "Jet" 900 3000 80000.
Definition grounded : Aircraft.t := Aircraft.mk "Grounded" 0 3000 80000.
Definition empty_tank : Aircraft.t := Aircraft.mk "Dry" 900 3000 0.

(** Two weather mappings for R1 that differ in the wind speed of leg 0. *)
Definition breeze : WeatherSample :=
  {[ "wind_speed_10m"%string := 10; "wind_direction_10m"%string := 0 ]}.
Definition gale : WeatherSample :=
  {[ "wind_speed_10m"%string := 20; "wind_direction_10m"%string := 0 ]}.

(** A sample with a negative wind speed, as a faulty feed may deliver: on a
    leg flown into it the segment factor is 1 + 0.02 * (-100) = -1. *)
Definition reverse_gale : WeatherSample :=
  {[ "wind_speed_10m"%string := -100; "wind_direction_10m"%string := 0 ]}.

(** The registry that holds R1, over the sample world. *)
Definition registry_R1 : RouteAdjuster.state :=
  RouteAdjuster.mkState {[ "R1"%string := route_R1 ]} sample_world.

(** Collaborators that find no bypass, and collaborators that answer with a
    segment of four points: the synthetic first and last, and two new
    waypoints in between. *)
Definition no_bypass : RouteAdjuster.Services :=
  RouteAdjuster.mkServices unit (fun _ _ _ _ => Return tt) (fun _ _ => Return None).

Definition detour_1 : Waypoint.t := Waypoint.mk "id-d1" "WP1_left" 13 15 1 PENDING.
Definition detour_2 : Waypoint.t := Waypoint.mk "id-d2" "WP2_left" 15 17 2 PENDING.

Definition detour : RouteAdjuster.Services :=
  RouteAdjuster.mkServices unit (fun _ _ _ _ => Return tt)
    (fun _ _ =>
       Return (Some (RouteAdjuster.mkSegment
                       [Waypoint.mk "id-d0" "Current Position" 12 12 0 PENDING;
                        detour_1; detour_2;
                        Waypoint.mk "id-d3" "WP3_direct" 16 16 3 PENDING]))).

(** The sample store with the three waypoints of an alternative "left"
    route, and routes over it. *)
Definition left1 : Waypoint.t := Waypoint.mk "id-l1" "WP1_left" 12 14 1 PENDING.
Definition left2 : Waypoint.t := Waypoint.mk "id-l2" "WP2_left" 14 17 2 PENDING.
Definition left3 : Waypoint.t := Waypoint.mk "id-l3" "WP3_left" 17 18 3 PENDING.

Definition wide_world : World :=
  mkWorld [wp1; wp2; wp3; left1; left2; left3] (fun n => "uuid-" +:+ pretty n) 0.

Definition route_left : Route.t :=
  Route.init "L1" "Left" (Some airport_A) (Some airport_B) [3; 4; 5]%nat "left" "aco" 0 0.

Definition route_direct : Route.t :=
  Route.init "D1" "Direct" (Some airport_A) (Some airport_B) [3; 4; 5]%nat "direct" "aco" 0 0.

(** R1 after one reroute to the left, and an alternative that carries the
    same path type. *)
Definition route_R1_rerouted : Route.t :=
  Route.set_reroute_history (Some [("WP2_direct"%string, "left"%string)])
    (Route.init "R2" "Rerouted_R1" (Some airport_A) (Some airport_B) [0; 1; 2]%nat
                "rerouted_left" "ppo" 0 0).

Definition route_left_again : Route.t :=
  Route.init "L2" "Left again" (Some airport_A) (Some airport_B) [3; 4; 5]%nat
             "rerouted_left" "ppo" 0 0.

(** A rerouter without weather service and without aircraft. *)
Definition plain_rerouter : PPORerouter.t := PPORerouter.init None None.

(** R1 over 1800 km, with the weather of the fuel model on its two
    segments. *)
Definition route_R1_windy : Route.t :=
  Route.set_weather_data [("waypoint_0"%string, breeze); ("waypoint_1"%string, gale)]
    (Route.set_distance 1800 route_R1).

(** A route without origin, and the registry that holds it. *)
Definition route_adrift : Route.t :=
  Route.init "R5" "Adrift" None (Some airport_B) [0; 1; 2]%nat "direct" "aco" 0 0.

Definition registry_adrift : RouteAdjuster.state :=
  RouteAdjuster.mkState {[ "R5"%string := route_adrift ]} sample_world.

(** R1 after a PPO at its second waypoint, continued over the last two
    waypoints of the left route. *)
Definition route_R1_ahead : Route.t :=
  Route.init "R3" "R1 ahead" (Some airport_A) (Some airport_B) [0; 1; 4; 5]%nat
             "direct" "aco" 0 0.


(** * Properties *)

(** ** The helper functions on Python's lists, strings and numbers *)

Example split_on_underscore :
  split_on "_" "WP3_left" = ["WP3"; "left"]%string
  /\ split_on "_" "CurrentPosition" = ["CurrentPosition"]%string
  /\ split_on "_" "a__b_" = ["a"; EmptyString; "b"; EmptyString]%string.
Proof. repeat split. Qed.

Example route_type_of_name_cases :
  route_type_of_name "WP3_left" = "left"%string
  /\ route_type_of_name "WP2_rerouted_left" = "left"%string
  /\ route_type_of_name "CurrentPosition" = "alt"%string.
Proof. repeat split. Qed.

Example slices :
  slice_to [1; 2; 3]%nat 2 = [1; 2]%nat
  /\ slice_to [1; 2; 3]%nat 0 = []
  /\ slice_from [1; 2; 3]%nat 2 = [3]%nat
  /\ slice_from [1; 2; 3]%nat 5 = []
  /\ slice_from [1; 2; 3]%nat (-1) = [3]%nat
  /\ slice_from (@nil nat) (-1) = []
  /\ interior [1; 2; 3; 4]%nat = [2; 3]%nat
  /\ interior [1; 2]%nat = [].
Proof. repeat split. Qed.

Example sort_by_is_stable :
  sort_by snd [("a", 2); ("b", 1); ("c", 2); ("d", 1)]%string
  = [("b", 1); ("d", 1); ("a", 2); ("c", 2)]%string.
Proof. reflexivity. Qed.

Example py_mod_cases :
  py_mod 450 360 == 90 /\ py_mod (-90) 360 == 270 /\ py_mod 360 360 == 0.
Proof. repeat split. Qed.

Example py_div_cases :
  py_div 1800 900 = Return (1800 / 900) /\ py_div 1800 0 = Raise ZeroDivisionError.
Proof. repeat split. Qed.

Example wp_names :
  PPORerouter.wp_name 3 "left" = "WP3_left"%string
  /\ Route.waypoint_key 12 = "waypoint_12"%string.
Proof. repeat split. Qed.

Example add_first_last :
  Route.add_last 0.25 (Route.add_first 0.25 [1; 2; 3]) = [1 + 0.25; 2; 3 + 0.25]
  /\ Route.add_last 0.25 (Route.add_first 0.25 [1]) = [1 + 0.25 + 0.25]
  /\ Route.add_last 0.25 (Route.add_first 0.25 []) = [].
Proof. repeat split. Qed.

(** The spec's scenario: cruise speed 900 km/h, distance 1800 km, no wind. *)
Example estimated_time_scenario :
  exists t, fst (@Route.calculate_estimated_time sample_library sample_store
                   (Route.set_distance 1800 route_R1) (Some jet)) = Return (Some t)
            /\ t == 2.5.
Proof. eexists. split; [reflexivity|]. reflexivity. Qed.

(** ** The current waypoint *)

(** The head of a filtered list is its first element that passes the test. *)
Lemma head_filter_Some {A : Type} (P : A -> Prop) `{!forall x, Decision (P x)}
    (l : list A) (x : A) :
  head (filter P l) = Some x ->
  exists i, l !! i = Some x /\ P x /\
            forall j y, (j < i)%nat -> l !! j = Some y -> ~ P y.
Proof.
  induction l as [|a l IH]; simpl; [discriminate|].
  rewrite filter_cons. destruct (decide (P a)) as [Ha|Ha]; simpl.
  - intros [= ->]. exists O. split; [done|]. split; [done|]. intros j y Hj. lia.
  - intros Hx. destruct (IH Hx) as (i & Hi & Px & Hmin).
    exists (S i). split; [done|]. split; [done|].
    intros [|j] y Hj; simpl.
    + intros [= ->]. done.
    + apply Hmin. lia.
Qed.

Lemma head_filter_None {A : Type} (P : A -> Prop) `{!forall x, Decision (P x)}
    (l : list A) :
  head (filter P l) = None -> forall x, x ∈ l -> ~ P x.
Proof.
  intros Hnone x Hx Px.
  assert (Hin : x ∈ filter P l) by (apply list_elem_of_filter; done).
  destruct (filter P l); [by apply elem_of_nil in Hin | discriminate].
Qed.

(** C10.  [get_current_waypoint] returns the first waypoint, in sequence
    order, whose status is ACTIVE, and [None] when no waypoint is ACTIVE; the
    [current_time] argument and the reading of the clock have no effect on the
    result. *)
Theorem get_current_waypoint_first_active
    (h : heap) (self : Route.t) (utcnow utcnow' : Route.datetime)
    (current_time current_time' : option Route.datetime) :
  Route.get_current_waypoint h utcnow self current_time
  = Route.get_current_waypoint h utcnow' self current_time'
  /\ match Route.get_current_waypoint h utcnow self current_time with
     | Some wp =>
       exists i, Route.waypoints self !! i = Some wp
                 /\ Waypoint.status (deref h wp) = ACTIVE
                 /\ forall j wp', (j < i)%nat ->
                      Route.waypoints self !! j = Some wp' ->
                      Waypoint.status (deref h wp') <> ACTIVE
     | None =>
       forall wp, wp ∈ Route.waypoints self ->
                  Waypoint.status (deref h wp) <> ACTIVE
     end.
Proof.
  split; [reflexivity|].
  unfold Route.get_current_waypoint.
  destruct (head (filter _ (Route.waypoints self))) as [wp|] eqn:Hhead.
  - exact (head_filter_Some _ _ _ Hhead).
  - exact (head_filter_None _ _ Hhead).
Qed.


(** ** The cost model *)

(** C7.  With fewer than two weather samples (none included),
    [calculate_fitness_score] returns exactly [distance / 1000] and stores it,
    where the distance is recomputed first when the stored one is not positive. *)
Theorem fitness_fallback_distance_only `{Library}
    (h : heap) (self : Route.t) (aircraft : option Aircraft.t)
    (weather_weight distance_weight : Q) :
  (length (Route.weather_data self) < 2)%nat ->
  let self' :=
    if Qle_bool (Route.distance self) 0
    then snd (Route.calculate_total_distance h self) else self in
  Route.calculate_fitness_score h self aircraft weather_weight distance_weight
  = (Return (Route.distance self' / 1000),
     Route.set_fitness_score (Route.distance self' / 1000) self')
  /\ (Qle_bool (Route.distance self) 0 = true ->
      Route.distance self' = fst (Route.calculate_total_distance h self)).
Proof.
  intros Hlen self'. split.
  - unfold Route.calculate_fitness_score. fold self'.
    assert (Hwd : Route.weather_data self' = Route.weather_data self).
    { unfold self'. destruct (Qle_bool _ _); reflexivity. }
    rewrite Hwd.
    destruct (Route.weather_data self) as [|s1 [|s2 rest]]; simpl in *;
      [reflexivity | reflexivity | lia].
  - intros Hle. unfold self'. rewrite Hle. reflexivity.
Qed.

Lemma fitness_fallback_distance_only_witness :
  (length (Route.weather_data route_R1) < 2)%nat
  /\ fst (@Route.calculate_fitness_score sample_library sample_store route_R1
            None 0.6 0.4)
     = Return (Route.distance
                 (snd (@Route.calculate_total_distance sample_library sample_store
                         route_R1)) / 1000).
Proof.
  split; [simpl; lia|].
  destruct (@fitness_fallback_distance_only sample_library sample_store route_R1
              None 0.6 0.4) as [Heq _]; [simpl; lia|].
  rewrite Heq. reflexivity.
Defined.

(** C4, as the code has it.  On a route without waypoints
    [calculate_total_distance] returns zero and stores a zero distance and an
    empty [leg_distances], whatever the origin and the destination are: both
    endpoint legs are guarded by [self.waypoints]. *)
Theorem total_distance_without_waypoints `{Library} (h : heap) (self : Route.t) :
  Route.waypoints self = [] ->
  Route.calculate_total_distance h self
  = (0, Route.set_distance 0 (Route.set_leg_distances [] self)).
Proof.
  intros Hnil. unfold Route.calculate_total_distance. rewrite Hnil.
  destruct (Route.origin self), (Route.destination self); reflexivity.
Qed.

Lemma total_distance_without_waypoints_witness :
  Route.waypoints route_bare = []
  /\ @Route.calculate_total_distance sample_library [] route_bare
     = (0, Route.set_distance 0 (Route.set_leg_distances [] route_bare)).
Proof.
  split; [reflexivity|].
  apply (@total_distance_without_waypoints sample_library [] route_bare).
  reflexivity.
Defined.

(** C4 as stated fails: a route from A to B with no waypoint in between has
    both endpoints, yet the distance returned is zero and no leg is stored,
    while A and B are 2220 km apart. *)
Lemma total_distance_no_fallback_leg :
  Route.origin route_bare = Some airport_A
  /\ Route.destination route_bare = Some airport_B
  /\ Route.waypoints route_bare = []
  /\ fst (@Route.calculate_total_distance sample_library [] route_bare) = 0
  /\ Route.leg_distances (snd (@Route.calculate_total_distance sample_library [] route_bare))
     = []
  /\ ~ (@calculate_distance sample_library (Airport.point airport_A)
          (Airport.point airport_B) == 0).
Proof.
  repeat split. intros Heq. vm_compute in Heq. discriminate.
Qed.

(** *** Where the cost model raises *)

Section speed.
Context `{Library}.

Lemma ground_speed_sum_lower_bound (heading : Q) (nodes : list WeatherSample) :
  forall acc,
    acc + 450 * Route.Qlen nodes
    <= foldl (fun avg node =>
                avg + Qmax (900 + sample_get node "jet_stream_speed_250hPa" 0
                                  * cos (radians (Qabs (heading
                                       - sample_get node "jet_stream_direction_250hPa" 0))))
                           (900 * 0.5))
             acc nodes.
Proof.
  induction nodes as [|node nodes IH]; intros acc.
  - simpl. assert (E : Route.Qlen (@nil WeatherSample) == 0) by reflexivity.
    rewrite E. lra.
  - simpl. eapply Qle_trans; [|apply IH].
    assert (Hlen : Route.Qlen (node :: nodes) == Route.Qlen nodes + 1).
    { unfold Route.Qlen. simpl length. rewrite Nat2Z.inj_succ, <- Z.add_1_r.
      rewrite inject_Z_plus. reflexivity. }
    rewrite Hlen.
    match goal with |- _ <= _ + Qmax ?a ?b + _ => pose proof (Q.le_max_r a b) as Hmax end.
    lra.
Qed.

(** The mean ground speed is at least half the airspeed, so the
    [float("inf")] branch of the flight time is never taken. *)
Lemma avg_ground_speed_pos (heading : Q) (nodes : list WeatherSample) :
  nodes <> [] -> 0 < Route.avg_ground_speed heading nodes.
Proof.
  intros Hne. unfold Route.avg_ground_speed.
  pose proof (ground_speed_sum_lower_bound heading nodes 0) as Hsum.
  destruct nodes as [|node nodes]; [done|].
  set (total := foldl _ 0 (node :: nodes)) in *.
  assert (Hlen : 1 <= Route.Qlen (node :: nodes)).
  { unfold Route.Qlen. change 1 with (inject_Z 1). rewrite <- Zle_Qle. simpl length. lia. }
  apply Qlt_shift_div_l; lra.
Qed.

Lemma Qltb_true (x y : Q) : x < y -> Qltb x y = true.
Proof.
  intros Hlt. unfold Qltb. destruct (Qle_bool y x) eqn:E; [|reflexivity].
  apply Qle_bool_iff in E. lra.
Qed.

(** With at least two weather samples, an aircraft that burns fuel and
    holds none makes the fuel-shortage penalty divide by zero. *)
Lemma fitness_score_raises_on_zero_capacity (h : heap) (self : Route.t)
    (aircraft : Aircraft.t) (weather_weight distance_weight : Q)
    (k1 k2 : string) (s1 s2 : WeatherSample) (rest : WeatherData) :
  Route.weather_data self = (k1, s1) :: (k2, s2) :: rest ->
  0 < Route.distance self ->
  0 < Aircraft.fuel_consumption_rate_kg_hr aircraft ->
  Aircraft.fuel_capacity_liters aircraft == 0 ->
  fst (Route.calculate_fitness_score h self (Some aircraft) weather_weight distance_weight)
  = Raise ZeroDivisionError.
Proof.
  intros Hwd Hd Hr Hc. unfold Route.calculate_fitness_score.
  assert (Hpos : Qle_bool (Route.distance self) 0 = false).
  { destruct (Qle_bool _ _) eqn:E; [|reflexivity]. apply Qle_bool_iff in E. lra. }
  rewrite Hpos, Hwd. cbn [map snd length Nat.ltb Nat.leb].
  unfold Route.weather_fitness.
  set (heading := match Route.origin self with Some _ => _ | None => _ end).
  pose proof (avg_ground_speed_pos heading (s1 :: s2 :: map snd rest)) as Havg.
  specialize (Havg ltac:(discriminate)).
  set (avg := Route.avg_ground_speed heading _) in *.
  rewrite (Qltb_true _ _ Havg).
  assert (Hfuel : 0 < Aircraft.fuel_consumption_rate_kg_hr aircraft
                      * (Route.distance self / avg)).
  { apply Qmult_lt_0_compat; [exact Hr|]. apply Qlt_shift_div_l; lra. }
  assert (Hcap : Aircraft.fuel_capacity_liters aircraft * 0.8 == 0) by (rewrite Hc; reflexivity).
  rewrite Qltb_true by (rewrite Hcap; exact Hfuel).
  unfold py_div. rewrite (proj2 (Qeq_bool_iff _ _) Hcap). reflexivity.
Qed.
End speed.

(** C2, where the code departs from it.  [calculate_fuel_consumption] raises
    when the aircraft is absent, and it and [calculate_estimated_time] raise
    on an aircraft whose cruise speed is zero; [calculate_leg_times], which
    tests [cruise_speed_kmh > 0], returns on the same aircraft.
    [calculate_fitness_score] raises on an aircraft whose fuel capacity is
    zero once the route has two weather samples. *)
Theorem cost_model_raises `{Library} (h : heap) (weather_data : WeatherData) :
  fst (Route.calculate_fuel_consumption h route_R1 None weather_data)
  = Raise AttributeError
  /\ fst (Route.calculate_fuel_consumption h (Route.set_distance 1800 route_R1)
            (Some grounded) weather_data)
     = Raise ZeroDivisionError
  /\ fst (Route.calculate_estimated_time h (Route.set_distance 1800 route_R1)
            (Some grounded))
     = Raise ZeroDivisionError
  /\ length (fst (Route.calculate_leg_times h (Route.set_distance 1800 route_R1)
                    (Some grounded))) = 4%nat
  /\ fst (Route.calculate_fitness_score h
            (Route.set_weather_data [("waypoint_0"%string, breeze); ("waypoint_1"%string, gale)]
               (Route.set_distance 1800 route_R1))
            (Some empty_tank) 0.6 0.4)
     = Raise ZeroDivisionError.
Proof.
  split; [reflexivity|]. split; [reflexivity|]. split; [reflexivity|].
  split; [reflexivity|].
  eapply fitness_score_raises_on_zero_capacity; reflexivity.
Qed.

(** *** Fuel and wind *)

(** The weight of a segment, [1 / (len(waypoints) - 1)], lies in [0, 1] on a
    route that has a segment. *)
Lemma segment_proportion_bounds (n : nat) :
  (2 <= n)%nat ->
  0 <= 1 / (inject_Z (Z.of_nat n) - 1) /\ 1 / (inject_Z (Z.of_nat n) - 1) <= 1.
Proof.
  intros Hn.
  assert (Hm : 1 <= inject_Z (Z.of_nat n) - 1).
  { assert (H2 : inject_Z 2 <= inject_Z (Z.of_nat n)) by (rewrite <- Zle_Qle; lia).
    change (inject_Z 2) with 2 in H2. lra. }
  split.
  - apply Qle_shift_div_l; lra.
  - apply Qle_shift_div_r; lra.
Qed.

Lemma consecutive_lookup_length {A : Type} (l : list A) (k : nat) (p : A * A) :
  Route.consecutive l !! k = Some p -> (2 <= length l)%nat.
Proof.
  destruct l as [|x [|y l]]; simpl; [done | done | lia].
Qed.

Section wind.
Context `{Library}.

(** The loop preserves the order of the running factor when each round does. *)
Lemma wind_loop_mono (h : heap) (n : nat) (wd1 wd2 : WeatherData) :
  forall (segments : list (ref * ref)) (i : nat) (x y : Q),
    x <= y ->
    (forall j a b u v, segments !! j = Some (a, b) -> u <= v ->
       Route.wind_step h n wd1 (i + j) a b u <= Route.wind_step h n wd2 (i + j) a b v) ->
    Route.wind_loop h n wd1 i segments x <= Route.wind_loop h n wd2 i segments y.
Proof.
  induction segments as [|[a b] rest IH]; intros i x y Hxy Hstep; simpl; [exact Hxy|].
  apply IH.
  - specialize (Hstep O a b x y eq_refl Hxy). rewrite Nat.add_0_r in Hstep. exact Hstep.
  - intros j a' b' u v Hj Huv.
    specialize (Hstep (S j) a' b' u v Hj Huv).
    rewrite Nat.add_succ_r in Hstep. exact Hstep.
Qed.

(** A round is monotone in the running factor and in the segment's factor. *)
Lemma wind_step_mono (h : heap) (n : nat) (wd1 wd2 : WeatherData) (i : nat)
    (a b : ref) (u v : Q) :
  (2 <= n)%nat -> u <= v ->
  match weather_lookup (Route.waypoint_key i) wd1,
        weather_lookup (Route.waypoint_key i) wd2 with
  | Some s1, Some s2 =>
    Route.segment_wind_factor s1 (calculate_bearing (Route.wp_point h a) (Route.wp_point h b))
    <= Route.segment_wind_factor s2 (calculate_bearing (Route.wp_point h a) (Route.wp_point h b))
  | None, None => True
  | _, _ => False
  end ->
  Route.wind_step h n wd1 i a b u <= Route.wind_step h n wd2 i a b v.
Proof.
  intros Hn Huv Hseg. unfold Route.wind_step.
  destruct (segment_proportion_bounds n Hn) as [Hp0 Hp1].
  destruct (weather_lookup _ wd1) as [s1|], (weather_lookup _ wd2) as [s2|];
    try contradiction; [|exact Huv].
  set (p := 1 / (inject_Z (Z.of_nat n) - 1)) in *.
  nra.
Qed.

(** The fuel is monotone in the factor of one segment, the weather of the
    other segments being the same. *)
Lemma fuel_mono_in_segment (h : heap) (self : Route.t) (aircraft : Aircraft.t)
    (wd1 wd2 : WeatherData) (k : nat) (a b : ref) (s1 s2 : WeatherSample) :
  0 <= Route.distance self ->
  0 < Aircraft.cruise_speed_kmh aircraft ->
  0 <= Aircraft.fuel_consumption_rate_kg_hr aircraft ->
  Route.consecutive (Route.waypoints self) !! k = Some (a, b) ->
  weather_lookup (Route.waypoint_key k) wd1 = Some s1 ->
  weather_lookup (Route.waypoint_key k) wd2 = Some s2 ->
  (forall i, i <> k ->
     weather_lookup (Route.waypoint_key i) wd1 = weather_lookup (Route.waypoint_key i) wd2) ->
  Route.segment_wind_factor s1 (calculate_bearing (Route.wp_point h a) (Route.wp_point h b))
  <= Route.segment_wind_factor s2 (calculate_bearing (Route.wp_point h a) (Route.wp_point h b)) ->
  exists fuel1 fuel2,
    fst (Route.calculate_fuel_consumption h self (Some aircraft) wd1) = Return fuel1
    /\ fst (Route.calculate_fuel_consumption h self (Some aircraft) wd2) = Return fuel2
    /\ fuel1 <= fuel2.
Proof.
  intros Hd Hc Hr Hk H1 H2 Hother Hseg.
  unfold Route.calculate_fuel_consumption, py_div.
  assert (Hnz : Qeq_bool (Aircraft.cruise_speed_kmh aircraft) 0 = false).
  { destruct (Qeq_bool _ 0) eqn:E; [|reflexivity].
    apply Qeq_bool_iff in E. lra. }
  rewrite Hnz. simpl. eexists _, _. split; [reflexivity|]. split; [reflexivity|].
  assert (Hbase : 0 <= Route.distance self / Aircraft.cruise_speed_kmh aircraft
                       * Aircraft.fuel_consumption_rate_kg_hr aircraft).
  { apply Qmult_le_0_compat; [|exact Hr].
    apply Qle_shift_div_l; lra. }
  assert (Hwf : Route.overall_wind_factor h self wd1 <= Route.overall_wind_factor h self wd2).
  { unfold Route.overall_wind_factor. apply Q.max_le_compat_l.
    apply wind_loop_mono; [lra|].
    intros j a' b' u v Hj Huv. simpl.
    apply wind_step_mono; [by eapply consecutive_lookup_length | exact Huv |].
    destruct (decide (j = k)) as [->|Hne].
    - rewrite H1, H2. rewrite Hk in Hj. injection Hj as <- <-. exact Hseg.
    - rewrite (Hother j Hne).
      destruct (weather_lookup (Route.waypoint_key j) wd2); [apply Qle_refl | exact I]. }
  set (base := Route.distance self / Aircraft.cruise_speed_kmh aircraft
               * Aircraft.fuel_consumption_rate_kg_hr aircraft) in *.
  apply Qmult_le_compat_r; [|discriminate]. nra.
Qed.

(** C6.  The fuel returned is the base fuel times the overall wind factor,
    halved, and that factor is never below 0.3: whenever the cruise speed is
    not zero the call returns, and for a base fuel that is not negative the
    fuel is at least 0.3 times the base fuel, halved (at most that, for a
    base fuel that is not positive).  On a flight whose base
    fuel is not negative (distance and burn rate not negative, cruise speed
    positive), with the weather of the other legs held fixed, the fuel
    returned does not decrease when a leg's headwind grows and does not
    increase when a leg's tailwind grows. *)
Theorem fuel_monotone_in_wind (h : heap) (self : Route.t) (aircraft : Aircraft.t)
    (wd1 wd2 : WeatherData) (k : nat) (a b : ref) (s1 s2 : WeatherSample) :
  let bearing := calculate_bearing (Route.wp_point h a) (Route.wp_point h b) in
  let speed1 := sample_get s1 "wind_speed_10m" 0 in
  let speed2 := sample_get s2 "wind_speed_10m" 0 in
  let angle1 := Route.wind_angle (sample_get s1 "wind_direction_10m" 0) bearing in
  let angle2 := Route.wind_angle (sample_get s2 "wind_direction_10m" 0) bearing in
  let base_fuel_kg :=
    Route.distance self / Aircraft.cruise_speed_kmh aircraft
    * Aircraft.fuel_consumption_rate_kg_hr aircraft in
  0.3 <= Route.overall_wind_factor h self wd1
  /\ (~ Aircraft.cruise_speed_kmh aircraft == 0 ->
      exists fuel,
        Route.calculate_fuel_consumption h self (Some aircraft) wd1
        = (Return fuel, Route.set_fuel_consumption fuel self)
        /\ fuel == base_fuel_kg * Route.overall_wind_factor h self wd1 / 2
        /\ (0 <= base_fuel_kg -> 0.3 * base_fuel_kg / 2 <= fuel)
        /\ (base_fuel_kg <= 0 -> fuel <= 0.3 * base_fuel_kg / 2))
  /\ (0 <= Route.distance self ->
      0 < Aircraft.cruise_speed_kmh aircraft ->
      0 <= Aircraft.fuel_consumption_rate_kg_hr aircraft ->
      Route.consecutive (Route.waypoints self) !! k = Some (a, b) ->
      weather_lookup (Route.waypoint_key k) wd1 = Some s1 ->
      weather_lookup (Route.waypoint_key k) wd2 = Some s2 ->
      (forall i, i <> k ->
         weather_lookup (Route.waypoint_key i) wd1
         = weather_lookup (Route.waypoint_key i) wd2) ->
      exists fuel1 fuel2,
        fst (Route.calculate_fuel_consumption h self (Some aircraft) wd1) = Return fuel1
        /\ fst (Route.calculate_fuel_consumption h self (Some aircraft) wd2) = Return fuel2
        /\ (angle1 <= 90 -> angle2 <= 90 ->
            Route.headwind speed1 angle1 <= Route.headwind speed2 angle2 ->
            fuel1 <= fuel2)
        /\ (90 < angle1 -> 90 < angle2 ->
            Route.tailwind speed1 angle1 <= Route.tailwind speed2 angle2 ->
            fuel2 <= fuel1)).
Proof.
  intros bearing speed1 speed2 angle1 angle2 base_fuel_kg.
  assert (Hfloor : 0.3 <= Route.overall_wind_factor h self wd1).
  { unfold Route.overall_wind_factor. apply Q.le_max_l. }
  split; [exact Hfloor|]. split.
  { intros Hc. unfold Route.calculate_fuel_consumption, py_div.
    assert (Hnz : Qeq_bool (Aircraft.cruise_speed_kmh aircraft) 0 = false).
    { destruct (Qeq_bool _ 0) eqn:E; [|reflexivity].
      apply Qeq_bool_iff in E. contradiction. }
    rewrite Hnz. cbv zeta. fold base_fuel_kg.
    set (wind_factor := Route.overall_wind_factor h self wd1) in *.
    eexists. split; [reflexivity|].
    assert (Hfuel : base_fuel_kg * wind_factor * 1 * 1 / 2
                    == base_fuel_kg * wind_factor / 2) by field.
    split; [exact Hfuel|]. rewrite Hfuel.
    assert (Hhalf : forall x, x / 2 == x * (1 # 2)) by (intros x; field).
    rewrite !Hhalf. clearbody wind_factor base_fuel_kg.
    split; intros Hbase; nra. }
  intros Hd Hc Hr Hk H1 H2 Hother.
  assert (Hnz : Qeq_bool (Aircraft.cruise_speed_kmh aircraft) 0 = false).
  { destruct (Qeq_bool _ 0) eqn:E; [|reflexivity].
    apply Qeq_bool_iff in E. lra. }
  destruct (fst (Route.calculate_fuel_consumption h self (Some aircraft) wd1)) as [fuel1|e1] eqn:E1;
    [|unfold Route.calculate_fuel_consumption, py_div in E1; rewrite Hnz in E1; discriminate].
  destruct (fst (Route.calculate_fuel_consumption h self (Some aircraft) wd2)) as [fuel2|e2] eqn:E2;
    [|unfold Route.calculate_fuel_consumption, py_div in E2; rewrite Hnz in E2; discriminate].
  exists fuel1, fuel2. split; [reflexivity|]. split; [reflexivity|]. split.
  - intros Ha1 Ha2 Hhead.
    destruct (fuel_mono_in_segment h self aircraft wd1 wd2 k a b s1 s2)
      as (f1 & f2 & F1 & F2 & Hle); try assumption.
    + unfold Route.segment_wind_factor. fold bearing speed1 speed2 angle1 angle2.
      apply Qle_bool_iff in Ha1, Ha2. rewrite Ha1, Ha2. lra.
    + rewrite E1 in F1. rewrite E2 in F2. injection F1 as ->. injection F2 as ->. exact Hle.
  - intros Ha1 Ha2 Htail.
    destruct (fuel_mono_in_segment h self aircraft wd2 wd1 k a b s2 s1)
      as (f2 & f1 & F2 & F1 & Hle); try assumption.
    + intros i Hi. symmetry. apply Hother. exact Hi.
    + unfold Route.segment_wind_factor. fold bearing speed1 speed2 angle1 angle2.
      assert (B1 : Qle_bool angle1 90 = false).
      { destruct (Qle_bool angle1 90) eqn:E; [|reflexivity]. apply Qle_bool_iff in E. lra. }
      assert (B2 : Qle_bool angle2 90 = false).
      { destruct (Qle_bool angle2 90) eqn:E; [|reflexivity]. apply Qle_bool_iff in E. lra. }
      rewrite B1, B2. apply Q.max_le_compat_l. lra.
    + rewrite E1 in F1. rewrite E2 in F2. injection F1 as ->. injection F2 as ->. exact Hle.
Qed.
End wind.

Lemma waypoint_key_inj (i j : nat) : Route.waypoint_key i = Route.waypoint_key j -> i = j.
Proof.
  unfold Route.waypoint_key. simpl. intros E.
  injection E as E. apply (inj pretty). exact E.
Qed.

Lemma fuel_monotone_in_wind_witness :
  (exists fuel1 fuel2,
    fst (@Route.calculate_fuel_consumption sample_library sample_store
           (Route.set_distance 1800 route_R1) (Some jet) [("waypoint_0"%string, breeze)])
    = Return fuel1
    /\ fst (@Route.calculate_fuel_consumption sample_library sample_store
              (Route.set_distance 1800 route_R1) (Some jet) [("waypoint_0"%string, gale)])
       = Return fuel2
    /\ fuel1 <= fuel2)
  /\ exists fuel,
       fst (@Route.calculate_fuel_consumption sample_library sample_store
              (Route.set_distance 1800 route_R1) (Some jet)
              [("waypoint_0"%string, reverse_gale)]) = Return fuel
       /\ fuel == 0.3 * (1800 / 900 * 3000) / 2.
Proof.
  split.
  - destruct (@fuel_monotone_in_wind sample_library sample_store
                (Route.set_distance 1800 route_R1) jet
                [("waypoint_0"%string, breeze)] [("waypoint_0"%string, gale)]
                0%nat 0%nat 1%nat breeze gale) as (_ & _ & Hmono).
    destruct Hmono as (fuel1 & fuel2 & E1 & E2 & Hhead & _).
    + vm_compute. discriminate.
    + vm_compute. reflexivity.
    + vm_compute. discriminate.
    + reflexivity.
    + reflexivity.
    + reflexivity.
    + intros i Hi. unfold weather_lookup.
      destruct (String.eqb_spec "waypoint_0" (Route.waypoint_key i)) as [E|E]; [|reflexivity].
      exfalso. apply Hi. symmetry. apply waypoint_key_inj. exact E.
    + exists fuel1, fuel2. split; [exact E1|]. split; [exact E2|].
      apply Hhead; vm_compute; discriminate.
  - destruct (@fuel_monotone_in_wind sample_library sample_store
                (Route.set_distance 1800 route_R1) jet
                [("waypoint_0"%string, reverse_gale)] [] 0%nat 0%nat 1%nat breeze gale)
      as (_ & Hfloor & _).
    destruct Hfloor as (fuel & Hrun & Hfuel & _); [discriminate|].
    exists fuel. split; [rewrite Hrun; reflexivity|].
    rewrite Hfuel. vm_compute. reflexivity.
Defined.


(** ** The blocked-waypoint handler *)

Ltac py_unfold :=
  unfold mbind, mret, py_mbind, py_mret, py_bind, py_ret, py_gets, py_modify,
         py_lift, py_raise, py_get, RouteAdjuster.in_world, setattr, getattr in *.


(** *** The store *)

Lemma alloc_all_run (l : list Waypoint.t) (w : World) :
  RouteAdjuster.alloc_all l w
  = (Return (seq (length (store w)) (length l)), set_store (store w ++ l) w).
Proof.
  revert w. induction l as [|v l IH]; intros w; simpl.
  - unfold mret, py_mret, py_ret, set_store. rewrite app_nil_r. by destruct w.
  - unfold mbind, py_mbind, py_bind, alloc at 1. rewrite IH. simpl.
    unfold mret, py_mret, py_ret. rewrite length_app. simpl.
    rewrite Nat.add_1_r. unfold set_store. simpl. by rewrite <- app_assoc.
Qed.

Lemma interior_short {A : Type} (l : list A) : (length l <= 2)%nat -> interior l = [].
Proof.
  destruct l as [|x [|y [|z l]]]; simpl; intros Hl; try reflexivity. lia.
Qed.

Lemma deref_mutate (f : Waypoint.t -> Waypoint.t) (r x : ref) (h : heap) :
  deref (mutate f r h) x
  = if decide (x = r /\ (r < length h)%nat) then f (deref h x) else deref h x.
Proof.
  unfold deref, mutate. rewrite !list_lookup_total_alt, list_lookup_alter.
  destruct (decide (r = x)) as [->|Hne].
  - destruct (h !! x) eqn:E; simpl.
    + apply lookup_lt_Some in E. rewrite decide_True by done. done.
    + apply lookup_ge_None in E. rewrite decide_False by lia. done.
  - rewrite decide_False by (intros [-> _]; done). done.
Qed.

(** The lookup returns the first waypoint that carries the id. *)
Lemma find_waypoint_spec (h : heap) (waypoint_id : string) (waypoints : list ref) :
  forall (i idx : nat) (blocked : ref),
    RouteAdjuster.find_waypoint h waypoint_id i waypoints = Some (idx, blocked) ->
    (i <= idx)%nat
    /\ waypoints !! (idx - i)%nat = Some blocked
    /\ Waypoint.id (deref h blocked) = waypoint_id
    /\ forall j x, (j < idx - i)%nat -> waypoints !! j = Some x ->
                   Waypoint.id (deref h x) <> waypoint_id.
Proof.
  induction waypoints as [|w ws IH]; intros i idx blocked; simpl; [discriminate|].
  case_bool_decide as Hid.
  - intros [= <- <-]. rewrite Nat.sub_diag. repeat split; [lia | done | lia].
  - intros Hfind. destruct (IH _ _ _ Hfind) as (Hle & Hlook & Hb & Hmin).
    split; [lia|]. replace (idx - i)%nat with (S (idx - S i)) by lia.
    split; [done|]. split; [done|].
    intros [|j] x Hj; simpl.
    + intros [= <-]. done.
    + apply Hmin. lia.
Qed.

Lemma deref_app (h l : heap) (x : ref) :
  deref (h ++ l) x
  = if decide (x < length h)%nat then deref h x else deref l (x - length h).
Proof.
  unfold deref. case_decide.
  - apply lookup_total_app_l. done.
  - apply lookup_total_app_r. lia.
Qed.

Lemma deref_elem_or_default (l : heap) (x : ref) :
  deref l x ∈ l \/ ((length l <= x)%nat /\ deref l x = inhabitant).
Proof.
  unfold deref. rewrite list_lookup_total_alt.
  destruct (l !! x) eqn:E; simpl.
  - left. eapply list_elem_of_lookup_2. exact E.
  - right. apply lookup_ge_None in E. done.
Qed.

Lemma deref_default (h : heap) (x : ref) :
  (length h <= x)%nat -> deref h x = inhabitant.
Proof.
  intros Hx. unfold deref. rewrite list_lookup_total_alt.
  rewrite (proj2 (lookup_ge_None h x) Hx). reflexivity.
Qed.

Lemma same_identity_set_status (st : WaypointStatus) (r x : ref) (h : heap) :
  same_identity (deref (mutate (Waypoint.set_status st) r h) x) (deref h x).
Proof.
  rewrite deref_mutate. case_decide; repeat split.
Qed.

Lemma same_identity_trans (u v w : Waypoint.t) :
  same_identity u v -> same_identity v w -> same_identity u w.
Proof. unfold same_identity. intuition congruence. Qed.

Lemma same_identity_marked route blocked_idx blocked (h : heap) (x : ref) :
  same_identity (deref (marked route blocked_idx blocked h) x) (deref h x).
Proof.
  unfold marked. destruct blocked_idx as [|before].
  - apply same_identity_set_status.
  - eapply same_identity_trans; apply same_identity_set_status.
Qed.

Lemma length_marked route blocked_idx blocked (h : heap) :
  length (marked route blocked_idx blocked h) = length h.
Proof.
  unfold marked, mutate. destruct blocked_idx; rewrite ?length_alter; reflexivity.
Qed.

(** *** The run of the handler *)

Lemma anchor_run (route : Route.t) (blocked_idx : nat) (blocked : ref)
    (s : RouteAdjuster.state) :
  let s1 := with_store (mutate Waypoint.mark_as_blocked blocked
                          (store (RouteAdjuster.world s))) s in
  let s2 := with_store (marked route blocked_idx blocked
                          (store (RouteAdjuster.world s))) s in
  RouteAdjuster.anchor route blocked_idx s1 = (Raise AttributeError, s2)
  \/ exists a, RouteAdjuster.anchor route blocked_idx s1 = (Return a, s2).
Proof.
  intros s1 s2. unfold RouteAdjuster.anchor. destruct blocked_idx as [|before].
  - destruct (Route.origin route); [right|left]; py_unfold; simpl.
    + eexists. reflexivity.
    + reflexivity.
  - right. py_unfold. simpl. eexists. reflexivity.
Qed.

Lemma splice_run (route_id : string) (route : Route.t) (blocked_idx : nat)
    (new_segment : RouteAdjuster.Segment) (s : RouteAdjuster.state) :
  let bypass := interior (RouteAdjuster.segment_waypoints new_segment) in
  let r := Route.set_waypoints
             (take blocked_idx (Route.waypoints route)
              ++ seq (length (store (RouteAdjuster.world s))) (length bypass)
              ++ drop (S blocked_idx) (Route.waypoints route)) route in
  RouteAdjuster.splice route_id route blocked_idx new_segment s
  = (Return r,
     RouteAdjuster.mkState (<[route_id := r]> (RouteAdjuster.active_routes s))
       (set_store (store (RouteAdjuster.world s) ++ bypass) (RouteAdjuster.world s))).
Proof.
  intros bypass r. unfold RouteAdjuster.splice. py_unfold.
  assert (Htake : (if (0 <? blocked_idx)%nat then take blocked_idx (Route.waypoints route) else [])
                  = take blocked_idx (Route.waypoints route)).
  { destruct blocked_idx; reflexivity. }
  assert (Hdrop : (if (blocked_idx + 1 <? length (Route.waypoints route))%nat
                   then drop (blocked_idx + 1) (Route.waypoints route) else [])
                  = drop (S blocked_idx) (Route.waypoints route)).
  { rewrite Nat.add_1_r. destruct (Nat.ltb_spec (S blocked_idx) (length (Route.waypoints route)));
      [reflexivity|]. symmetry. apply drop_ge. lia. }
  rewrite Htake, Hdrop.
  destruct (Nat.ltb_spec 2 (length (RouteAdjuster.segment_waypoints new_segment))) as [Hlen|Hlen].
  - rewrite alloc_all_run. simpl. reflexivity.
  - simpl. subst r bypass. rewrite (interior_short _ Hlen). simpl.
    rewrite app_nil_r. unfold set_store. destruct s as [ar [st up ud]]. reflexivity.
Qed.

Lemma handle_run services route_id waypoint_id s o s' route blocked_idx blocked :
  RouteAdjuster.active_routes s !! route_id = Some route ->
  RouteAdjuster.find_waypoint (store (RouteAdjuster.world s)) waypoint_id 0
    (Route.waypoints route) = Some (blocked_idx, blocked) ->
  RouteAdjuster.handle_blocked_waypoint services route_id waypoint_id s = (o, s') ->
  let h := marked route blocked_idx blocked (store (RouteAdjuster.world s)) in
  ((forall r, o <> Return (Some r))
   /\ RouteAdjuster.active_routes s' = RouteAdjuster.active_routes s
   /\ store (RouteAdjuster.world s') = h)
  \/ (exists temp_origin next_waypoint excluded_area new_segment_routes new_segment,
        let bypass := interior (RouteAdjuster.segment_waypoints new_segment) in
        let r := Route.set_waypoints
                   (take blocked_idx (Route.waypoints route)
                    ++ seq (length h) (length bypass)
                    ++ drop (S blocked_idx) (Route.waypoints route)) route in
        RouteAdjuster.generate_alternative_routes services temp_origin next_waypoint
          None [excluded_area] = Return new_segment_routes
        /\ RouteAdjuster.optimize services (Route.optimization_method route)
             new_segment_routes = Return (Some new_segment)
        /\ o = Return (Some r)
        /\ RouteAdjuster.active_routes s' = <[route_id := r]> (RouteAdjuster.active_routes s)
        /\ store (RouteAdjuster.world s') = h ++ bypass).
Proof.
  intros Hroute Hfind Hrun h.
  unfold RouteAdjuster.handle_blocked_waypoint in Hrun.
  unfold mbind, py_mbind, py_bind at 1, py_gets at 1 in Hrun. rewrite Hroute in Hrun.
  unfold py_bind at 1, RouteAdjuster.in_world at 1, py_gets at 1 in Hrun.
  rewrite Hfind in Hrun.
  unfold py_bind at 1, RouteAdjuster.in_world at 1, setattr, py_modify in Hrun.
  unfold py_bind at 1 in Hrun.
  cbn [RouteAdjuster.active_routes RouteAdjuster.world] in Hrun.
  destruct (anchor_run route blocked_idx blocked s) as [Hanchor|[[[lat lon] next] Hanchor]];
    unfold with_store in Hanchor; rewrite Hanchor in Hrun.
  { injection Hrun as <- <-. left. done. }
  py_unfold. unfold uuid4 in Hrun. simpl in Hrun.
  destruct (RouteAdjuster.generate_alternative_routes _ _ _ _ _) as [routes|e] eqn:Hgen;
    [|injection Hrun as <- <-; left; done].
  destruct (RouteAdjuster.optimize _ _ _) as [[new_segment|]|e] eqn:Hopt;
    [|injection Hrun as <- <-; left; done..].
  destruct (RouteAdjuster.segment_waypoints new_segment) as [|v vs] eqn:Hseg;
    [injection Hrun as <- <-; left; done|].
  rewrite splice_run in Hrun. simpl in Hrun. injection Hrun as <- <-.
  right. eexists _, _, _, routes, new_segment. simpl.
  split; [exact Hgen|]. split; [exact Hopt|]. done.
Qed.

(** C1, as the code has it.  When [handle_blocked_waypoint] returns [None]
    after the waypoint lookup succeeded, the registry is the same, so the
    stored route keeps its waypoint list and every other attribute, and every
    waypoint keeps its id, name, coordinates and order; the statuses set before
    the bypass was requested stay: the blocked waypoint is BLOCKED and the
    waypoint before it, if any, ACTIVE. *)
Theorem failed_bypass_keeps_waypoint_list services route_id waypoint_id
    (s s' : RouteAdjuster.state) route blocked_idx blocked :
  RouteAdjuster.active_routes s !! route_id = Some route ->
  RouteAdjuster.find_waypoint (store (RouteAdjuster.world s)) waypoint_id 0
    (Route.waypoints route) = Some (blocked_idx, blocked) ->
  RouteAdjuster.handle_blocked_waypoint services route_id waypoint_id s = (Return None, s') ->
  RouteAdjuster.active_routes s' = RouteAdjuster.active_routes s
  /\ store (RouteAdjuster.world s')
     = marked route blocked_idx blocked (store (RouteAdjuster.world s))
  /\ forall x, same_identity (deref (store (RouteAdjuster.world s')) x)
                             (deref (store (RouteAdjuster.world s)) x).
Proof.
  intros Hroute Hfind Hrun.
  destruct (handle_run _ _ _ _ _ _ _ _ _ Hroute Hfind Hrun)
    as [(_ & Hreg & Hstore)|(? & ? & ? & ? & ? & _ & _ & Ho & _)]; [|discriminate].
  split; [exact Hreg|]. split; [exact Hstore|].
  intros x. rewrite Hstore. apply same_identity_marked.
Qed.

(** C8.  When [handle_blocked_waypoint] succeeds, the waypoints of the
    returned route, which is the stored one, are the original waypoints before
    the blocked one, then new objects holding the interior of the bypass
    segment, then the original waypoints after the blocked one; the reroute
    history is that of the stored route.  Ids being identifiers (those of the
    route pairwise distinct, those of the bypass different from the blocked
    one), the blocked waypoint's id does not occur in the result. *)
Theorem bypass_replaces_blocked_waypoint services route_id waypoint_id
    (s s' : RouteAdjuster.state) (r : Route.t) :
  RouteAdjuster.handle_blocked_waypoint services route_id waypoint_id s
  = (Return (Some r), s') ->
  exists route blocked_idx blocked new_segment bypass,
    RouteAdjuster.active_routes s !! route_id = Some route
    /\ RouteAdjuster.find_waypoint (store (RouteAdjuster.world s)) waypoint_id 0
         (Route.waypoints route) = Some (blocked_idx, blocked)
    /\ (exists temp_origin next_waypoint excluded_area new_segment_routes,
          RouteAdjuster.generate_alternative_routes services temp_origin next_waypoint
            None [excluded_area] = Return new_segment_routes
          /\ RouteAdjuster.optimize services (Route.optimization_method route)
               new_segment_routes = Return (Some new_segment))
    /\ Route.waypoints r
       = take blocked_idx (Route.waypoints route) ++ bypass
         ++ drop (S blocked_idx) (Route.waypoints route)
    /\ map (deref (store (RouteAdjuster.world s'))) bypass
       = interior (RouteAdjuster.segment_waypoints new_segment)
    /\ (forall x, x ∈ bypass -> (length (store (RouteAdjuster.world s)) <= x)%nat)
    /\ Route.reroute_history r = Route.reroute_history route
    /\ RouteAdjuster.active_routes s' !! route_id = Some r
    /\ (NoDup (map (fun x => Waypoint.id (deref (store (RouteAdjuster.world s)) x))
                   (Route.waypoints route)) ->
        (forall v, v ∈ interior (RouteAdjuster.segment_waypoints new_segment) ->
                   Waypoint.id v <> waypoint_id) ->
        forall x, x ∈ Route.waypoints r ->
                  Waypoint.id (deref (store (RouteAdjuster.world s')) x) <> waypoint_id).
Proof.
  intros Hrun.
  destruct (RouteAdjuster.active_routes s !! route_id) as [route|] eqn:Hroute;
    [|unfold RouteAdjuster.handle_blocked_waypoint in Hrun; py_unfold;
      rewrite Hroute in Hrun; discriminate].
  destruct (RouteAdjuster.find_waypoint (store (RouteAdjuster.world s)) waypoint_id 0
              (Route.waypoints route)) as [[blocked_idx blocked]|] eqn:Hfind;
    [|unfold RouteAdjuster.handle_blocked_waypoint in Hrun; py_unfold;
      rewrite Hroute in Hrun; simpl in Hrun; rewrite Hfind in Hrun; discriminate].
  destruct (handle_run _ _ _ _ _ _ _ _ _ Hroute Hfind Hrun)
    as [(Hno & _)|(t_o & nw & ea & routes & seg & Hgen & Hopt & Ho & Hreg & Hstore)];
    [by destruct (Hno r)|].
  injection Ho as ->.
  set (h := store (RouteAdjuster.world s)) in *.
  set (h' := marked route blocked_idx blocked h) in *.
  set (new := interior (RouteAdjuster.segment_waypoints seg)) in *.
  assert (Hlen : length h' = length h) by apply length_marked.
  assert (Hbypass : map (deref (h' ++ new)) (seq (length h') (length new)) = new).
  { apply list_eq. intros i. rewrite list_lookup_fmap.
    destruct (new !! i) as [v|] eqn:Ei.
    - rewrite (lookup_seq_lt _ _ _ (lookup_lt_Some _ _ _ Ei)). simpl. f_equal.
      rewrite deref_app. rewrite decide_False by lia.
      unfold deref. replace (length h' + i - length h')%nat with i by lia.
      apply list_lookup_total_correct. exact Ei.
    - rewrite lookup_seq_ge; [done|]. by apply lookup_ge_None. }
  exists route, blocked_idx, blocked, seg, (seq (length h') (length new)).
  split; [done|]. split; [done|].
  split; [by exists t_o, nw, ea, routes|].
  split; [reflexivity|]. rewrite Hstore.
  split; [exact Hbypass|].
  split; [intros x Hx; apply elem_of_seq in Hx; lia|].
  split; [reflexivity|].
  split; [rewrite Hreg; apply lookup_insert_eq|].
  intros Hnodup Hfresh x Hx. simpl in Hx.
  destruct (find_waypoint_spec _ _ _ _ _ _ Hfind) as (_ & Hblocked & Hid & _).
  rewrite Nat.sub_0_r in Hblocked.
  assert (Hnew : forall y, (length h <= y)%nat -> Waypoint.id (deref h y) <> waypoint_id ->
                           Waypoint.id (deref (h' ++ new) y) <> waypoint_id).
  { intros y Hy Hidy. rewrite deref_app. rewrite decide_False by lia.
    destruct (deref_elem_or_default new (y - length h')) as [Hin|[_ Hd]].
    - apply Hfresh. exact Hin.
    - rewrite Hd. rewrite (deref_default h y Hy) in Hidy. exact Hidy. }
  assert (Hold : forall j y, Route.waypoints route !! j = Some y -> j <> blocked_idx ->
                             Waypoint.id (deref (h' ++ new) y) <> waypoint_id).
  { intros j y Hj Hne.
    assert (Hidy : Waypoint.id (deref h y) <> waypoint_id).
    { intros Heq. apply Hne.
      eapply (NoDup_lookup _ j blocked_idx); [exact Hnodup| |].
      - rewrite list_lookup_fmap, Hj. reflexivity.
      - rewrite list_lookup_fmap, Hblocked. simpl. f_equal. congruence. }
    destruct (decide (y < length h)%nat) as [Hlt|Hge].
    - rewrite deref_app. rewrite decide_True by lia.
      destruct (same_identity_marked route blocked_idx blocked h y) as [Hsame _].
      fold h' in Hsame. rewrite Hsame. exact Hidy.
    - apply Hnew; [lia | exact Hidy]. }
  apply elem_of_app in Hx as [Hx|Hx]; [|apply elem_of_app in Hx as [Hx|Hx]].
  - apply list_elem_of_lookup in Hx as [j Hj].
    pose proof (lookup_lt_Some _ _ _ Hj) as Hjl. rewrite length_take in Hjl.
    rewrite lookup_take_lt in Hj by lia.
    eapply Hold; [exact Hj | lia].
  - apply elem_of_seq in Hx.
    rewrite deref_app. rewrite decide_False by lia.
    apply Hfresh. unfold deref. eapply list_elem_of_lookup_2.
    apply list_lookup_lookup_total_lt. lia.
  - apply list_elem_of_lookup in Hx as [j Hj]. rewrite lookup_drop in Hj.
    eapply Hold; [exact Hj | lia].
Qed.

Lemma failed_bypass_keeps_waypoint_list_witness :
  RouteAdjuster.active_routes
    (snd (RouteAdjuster.handle_blocked_waypoint no_bypass "R1" "id-2" registry_R1))
  = RouteAdjuster.active_routes registry_R1
  /\ store (RouteAdjuster.world
              (snd (RouteAdjuster.handle_blocked_waypoint no_bypass "R1" "id-2" registry_R1)))
     = marked route_R1 1 1%nat sample_store.
Proof.
  destruct (failed_bypass_keeps_waypoint_list no_bypass "R1" "id-2" registry_R1
              (snd (RouteAdjuster.handle_blocked_waypoint no_bypass "R1" "id-2" registry_R1))
              route_R1 1 1%nat) as (Hreg & Hstore & _).
  - vm_compute. reflexivity.
  - vm_compute. reflexivity.
  - vm_compute. reflexivity.
  - split; [exact Hreg | exact Hstore].
Defined.

(** C1 as stated fails.  R1 is registered with three PENDING waypoints and
    waypoint "id-2" is reported blocked; the collaborators find no bypass, the
    call returns [None], and the stored route's waypoints are left ACTIVE,
    BLOCKED and PENDING. *)
Lemma failed_bypass_changes_statuses :
  let s := registry_R1 in
  let run := RouteAdjuster.handle_blocked_waypoint no_bypass "R1" "id-2" s in
  RouteAdjuster.active_routes s !! "R1"%string = Some route_R1
  /\ RouteAdjuster.find_waypoint (store (RouteAdjuster.world s)) "id-2" 0
       (Route.waypoints route_R1) = Some (1%nat, 1%nat)
  /\ fst run = Return None
  /\ RouteAdjuster.active_routes (snd run) !! "R1"%string = Some route_R1
  /\ map (fun x => Waypoint.status (deref (store (RouteAdjuster.world s)) x))
         (Route.waypoints route_R1) = [PENDING; PENDING; PENDING]
  /\ map (fun x => Waypoint.status (deref (store (RouteAdjuster.world (snd run))) x))
         (Route.waypoints route_R1) = [ACTIVE; BLOCKED; PENDING].
Proof.
  vm_compute. repeat split.
Qed.

Lemma bypass_replaces_blocked_waypoint_witness :
  exists route blocked_idx bypass,
    RouteAdjuster.active_routes registry_R1 !! "R1"%string = Some route
    /\ [0; 3; 4; 2]%nat
       = take blocked_idx (Route.waypoints route) ++ bypass
         ++ drop (S blocked_idx) (Route.waypoints route)
    /\ map (deref (store (RouteAdjuster.world
                            (snd (RouteAdjuster.handle_blocked_waypoint detour "R1" "id-2"
                                    registry_R1))))) bypass
       = [detour_1; detour_2].
Proof.
  destruct (bypass_replaces_blocked_waypoint detour "R1" "id-2" registry_R1
              (snd (RouteAdjuster.handle_blocked_waypoint detour "R1" "id-2" registry_R1))
              (Route.set_waypoints [0; 3; 4; 2]%nat route_R1))
    as (route & blocked_idx & blocked & seg & bypass & Hroute & _ & Hsvc & Hwps & Hobj & _).
  - vm_compute. reflexivity.
  - exists route, blocked_idx, bypass. split; [exact Hroute|]. split; [exact Hwps|].
    rewrite Hobj. destruct Hsvc as (? & ? & ? & ? & _ & Hopt).
    injection Hopt as <-. reflexivity.
Defined.


(** ** The path splicer *)

Ltac world_unfold :=
  unfold mbind, mret, py_mbind, py_mret, py_bind, py_ret, py_gets, py_modify,
         py_lift, py_raise, py_get, setattr, getattr, deepcopy, alloc, uuid4,
         set_store, mutate in *.

Lemma alter_snoc {A : Type} (f : A -> A) (l : list A) (v : A) :
  alter f (length l) (l ++ [v]) = l ++ [f v].
Proof.
  rewrite <- (Nat.add_0_r (length l)). rewrite alter_app_r. reflexivity.
Qed.

Lemma copy_initial_run (l : list ref) :
  forall (i : nat) (w : World),
  exists added,
    length added = length l
    /\ PPORerouter.copy_initial i l w
       = (Return (seq (length (store w)) (length l)),
          mkWorld (store w ++ added) (uuid_pool w) (uuid_drawn w)).
Proof.
  induction l as [|x l IH]; intros i w.
  - exists []. split; [done|]. simpl. world_unfold. rewrite app_nil_r. by destruct w.
  - simpl. world_unfold. simpl. rewrite alter_snoc.
    edestruct (IH (S i)) as (added & Hlen & Hrun). rewrite Hrun. clear Hrun. simpl.
    rewrite length_app. simpl. rewrite Nat.add_1_r.
    eexists (_ :: added). split; [simpl; by rewrite Hlen|].
    rewrite <- app_assoc. reflexivity.
Qed.

Lemma copy_alt_run (next_order : nat) (l : list ref) :
  forall (i : nat) (w : World),
  exists added,
    length added = length l
    /\ PPORerouter.copy_alt next_order i l w
       = (Return (seq (length (store w)) (length l)),
          mkWorld (store w ++ added) (uuid_pool w) (uuid_drawn w + length l)).
Proof.
  induction l as [|x l IH]; intros i w.
  - exists []. split; [done|]. simpl. world_unfold. rewrite app_nil_r, Nat.add_0_r. by destruct w.
  - simpl. world_unfold. simpl. rewrite !alter_snoc.
    edestruct (IH (S i)) as (added & Hlen & Hrun). rewrite Hrun. clear Hrun. simpl.
    rewrite length_app. simpl. rewrite Nat.add_1_r.
    eexists (_ :: added). split; [simpl; by rewrite Hlen|].
    rewrite <- app_assoc. simpl. do 2 f_equal. lia.
Qed.

Lemma ensure_destination_run (current_route : Route.t) (combined : list ref) (w : World) :
  match last (Route.waypoints current_route) with
  | None => PPORerouter.ensure_destination current_route combined w = (Raise IndexError, w)
  | Some final =>
    let d := length (store w) in
    let copy := deref (store w) final in
    if PPORerouter.is_destination_included (store w ++ [copy]) combined d
    then PPORerouter.ensure_destination current_route combined w
         = (Return combined, mkWorld (store w ++ [copy]) (uuid_pool w) (uuid_drawn w))
    else exists new_name,
        PPORerouter.ensure_destination current_route combined w
        = (Return (combined ++ [d]),
           mkWorld (store w ++ [Waypoint.set_name new_name
                                  (Waypoint.set_order (Z.of_nat (S (length combined)))
                                     (Waypoint.set_id (uuid_pool w (uuid_drawn w)) copy))])
                   (uuid_pool w) (S (uuid_drawn w)))
  end.
Proof.
  unfold PPORerouter.ensure_destination.
  destruct (last (Route.waypoints current_route)) as [final|]; [|reflexivity].
  world_unfold. simpl.
  destruct (PPORerouter.is_destination_included _ _ _); [reflexivity|].
  cbn [store uuid_pool uuid_drawn]. rewrite !alter_snoc.
  destruct (last combined) as [final_combined|]; cbn [store uuid_pool uuid_drawn];
    rewrite alter_snoc; eexists; reflexivity.
Qed.

Lemma deref_snoc_copy (h : heap) (x : ref) :
  deref (h ++ [deref h x]) x = deref h x.
Proof.
  rewrite deref_app. case_decide as Hx; [reflexivity|].
  rewrite (deref_default h x) by lia.
  destruct (deref_elem_or_default [inhabitant] (x - length h)) as [Hin|[_ Hd]].
  - apply list_elem_of_singleton in Hin. exact Hin.
  - exact Hd.
Qed.

Lemma deref_snoc_new (h : heap) (v : Waypoint.t) : deref (h ++ [v]) (length h) = v.
Proof.
  rewrite deref_app. rewrite decide_False by lia. rewrite Nat.sub_diag. reflexivity.
Qed.

Lemma is_destination_included_spec (h : heap) (combined : list ref) (d : ref) :
  PPORerouter.is_destination_included h combined d = true ->
  exists x, last combined = Some x /\ same_coordinates (deref h x) (deref h d).
Proof.
  unfold PPORerouter.is_destination_included.
  destruct (last combined) as [x|]; [|discriminate].
  intros [H1 H2]%andb_prop. apply Qeq_bool_iff in H1, H2. exists x. done.
Qed.

Lemma deref_snoc_rel (P : Waypoint.t -> Waypoint.t -> Prop) (h : heap)
    (v v' : Waypoint.t) (x : ref) :
  (forall u, P u u) -> P v v' -> P (deref (h ++ [v]) x) (deref (h ++ [v']) x).
Proof.
  intros Hrefl Hvv'. rewrite !deref_app. case_decide; [apply Hrefl|].
  unfold deref. destruct (x - length h)%nat as [|k]; simpl; [exact Hvv' | apply Hrefl].
Qed.

Lemma is_destination_included_snoc (h : heap) (v v' : Waypoint.t)
    (combined : list ref) (d : ref) :
  eq_coordinates v v' ->
  PPORerouter.is_destination_included (h ++ [v]) combined d
  = PPORerouter.is_destination_included (h ++ [v']) combined d.
Proof.
  intros Hvv'. unfold PPORerouter.is_destination_included.
  destruct (last combined) as [x|]; [|reflexivity].
  destruct (deref_snoc_rel eq_coordinates h v v' x) as [-> ->]; [done | exact Hvv' |].
  destruct (deref_snoc_rel eq_coordinates h v v' d) as [-> ->]; [done | exact Hvv' |].
  reflexivity.
Qed.

Lemma deref_prefix (h l : heap) (x : ref) :
  (x < length h)%nat -> deref (h ++ l) x = deref h x.
Proof. intros Hx. rewrite deref_app. rewrite decide_True by done. reflexivity. Qed.

Section frames.
Context `{Library}.

Lemma total_distance_same_path (h : heap) (r : Route.t) :
  same_path r (snd (Route.calculate_total_distance h r)).
Proof. repeat split. Qed.

Lemma fitness_score_same_path (h : heap) (r : Route.t) (a : option Aircraft.t) (ww dw : Q) :
  same_path r (snd (Route.calculate_fitness_score h r a ww dw)).
Proof.
  unfold Route.calculate_fitness_score.
  set (r1 := if Qle_bool _ _ then _ else _).
  assert (H1 : same_path r r1).
  { subst r1. destruct (Qle_bool _ _); repeat split. }
  destruct (Route.weather_data r1) as [|x l]; [exact H1|].
  destruct (_ <? _)%nat; [exact H1|].
  destruct (Route.weather_fitness _ _ _ _ _); exact H1.
Qed.

Lemma fuel_consumption_same_path (h : heap) (r : Route.t) (a : option Aircraft.t)
    (wd : WeatherData) :
  same_path r (snd (Route.calculate_fuel_consumption h r a wd)).
Proof.
  unfold Route.calculate_fuel_consumption.
  destruct a; [|repeat split]. destruct (py_div _ _); repeat split.
Qed.

Lemma estimated_time_same_path (h : heap) (r : Route.t) (a : option Aircraft.t) :
  same_path r (snd (Route.calculate_estimated_time h r a)).
Proof.
  unfold Route.calculate_estimated_time.
  destruct a; [|repeat split]. destruct (negb _); [repeat split|].
  destruct (py_div _ _); repeat split.
Qed.

Lemma call_run {S A : Type} (m : outcome A * Route.t) (s : S) (a : A) (r : Route.t) (s' : S) :
  call m s = (Return (a, r), s') -> s' = s /\ m = (Return a, r).
Proof.
  unfold call. destruct m as [[a'|e] r']; intros [= -> -> ->]; done.
Qed.

(** The construction of the route leaves the store alone and gives the new
    route the combined waypoints and the endpoints of the current route. *)
Lemma build_route_run (self : PPORerouter.t) (current_route : Route.t)
    (blocked_waypoint : ref) (alternative_route : Route.t) (combined : list ref)
    (w w' : World) (r : Route.t) :
  PPORerouter.build_route self current_route blocked_waypoint alternative_route combined w
  = (Return r, w') ->
  store w' = store w
  /\ uuid_pool w' = uuid_pool w
  /\ uuid_drawn w' = S (uuid_drawn w)
  /\ Route.waypoints r = combined
  /\ Route.origin r = Route.origin current_route
  /\ Route.destination r = Route.destination current_route.
Proof.
  unfold PPORerouter.build_route. intros Hrun.
  unfold mbind, py_mbind, py_bind at 1, getattr, py_gets in Hrun.
  unfold py_bind at 1, uuid4 in Hrun.
  unfold py_bind at 1 in Hrun. cbn [store uuid_pool uuid_drawn] in Hrun.
  set (r0 := match Route.weather_data current_route with | [] => _ | _ :: _ => _ end) in Hrun.
  assert (H0 : Route.waypoints r0 = combined
               /\ Route.origin r0 = Route.origin current_route
               /\ Route.destination r0 = Route.destination current_route).
  { subst r0. destruct (Route.weather_data current_route), (Route.weather_data alternative_route);
      repeat split. }
  clearbody r0.
  pose proof (total_distance_same_path (store w) r0) as P1.
  destruct (Route.calculate_total_distance (store w) r0) as [d r1]. simpl in P1.
  unfold py_bind at 1, call at 1 in Hrun.
  pose proof (fitness_score_same_path (store w) r1 None 0.6 0.4) as P2.
  destruct (Route.calculate_fitness_score (store w) r1 None 0.6 0.4) as [[f|e] r2];
    [|discriminate]. simpl in P2.
  set (r3 := if opt_truthy _ then _ else _) in Hrun.
  assert (P3 : same_path r2 r3).
  { subst r3. destruct (opt_truthy _); repeat split. }
  clearbody r3.
  assert (Hfinal : forall r4, same_path r3 r4 ->
            store w = store w /\ Route.waypoints r4 = combined
            /\ Route.origin r4 = Route.origin current_route
            /\ Route.destination r4 = Route.destination current_route).
  { intros r4 P4. unfold same_path in *. intuition congruence. }
  assert (Hdefault :
            ((if negb (opt_truthy (Route.estimated_time r3))
              then mret (Route.set_estimated_time (Some (Route.distance r3 / 900 + 0.5)) r3)
              else mret r3) : Py World Route.t) {| store := store w; uuid_pool := uuid_pool w;
                              uuid_drawn := S (uuid_drawn w) |} = (Return r, w') ->
            store w' = store w /\ uuid_pool w' = uuid_pool w
            /\ uuid_drawn w' = S (uuid_drawn w) /\ Route.waypoints r = combined
            /\ Route.origin r = Route.origin current_route
            /\ Route.destination r = Route.destination current_route).
  { destruct (negb _); intros [= <- <-]; simpl;
      (split; [done|]); (split; [done|]); (split; [done|]); apply Hfinal; repeat split. }
  destruct (PPORerouter.aircraft self) as [ac|]; [|exact (Hdefault Hrun)].
  destruct (Route.weather_data r3) as [|x l] eqn:Hwd; [exact (Hdefault Hrun)|].
  unfold py_bind at 1, call at 1 in Hrun.
  pose proof (fuel_consumption_same_path (store w) r3 (Some ac) (x :: l)) as P4.
  destruct (Route.calculate_fuel_consumption (store w) r3 (Some ac) (x :: l)) as [[fuel|e] r4];
    [|discriminate]. simpl in P4.
  unfold py_bind at 1, call at 1 in Hrun.
  pose proof (estimated_time_same_path (store w) (Route.set_fuel_consumption fuel r4) (Some ac)) as P5.
  destruct (Route.calculate_estimated_time (store w) (Route.set_fuel_consumption fuel r4) (Some ac))
    as [[t|e] r5]; [|discriminate]. simpl in P5.
  injection Hrun as <- <-. simpl.
  (split; [done|]); (split; [done|]); (split; [done|]).
  unfold same_path in *. simpl in *. intuition congruence.
Qed.
End frames.

Section splice.
Context `{Library}.

(** The run of [_create_rerouted_path], when it returns. *)
Lemma create_rerouted_path_run (self : PPORerouter.t)
    (current_route : Route.t) (blocked_waypoint current_position : ref)
    (alternative_route : Route.t) (target_waypoint : ref) (target_index : Z)
    (w w' : World) (r : Route.t) :
  PPORerouter._create_rerouted_path self current_route blocked_waypoint current_position
    alternative_route target_waypoint target_index w = (Return r, w') ->
  exists final final' combined,
    last (Route.waypoints current_route) = Some final
    /\ last (Route.waypoints r) = Some final'
    /\ same_coordinates (deref (store w') final') (deref (store w') final)
    /\ store w `prefix_of` store w'
    /\ Route.destination r = Route.destination current_route
    /\ combined
       = (let '(waypoints_initial, waypoints_alt) :=
            PPORerouter.split_paths (store w) current_route alternative_route
              blocked_waypoint current_position target_index in
          seq (length (store w)) (length waypoints_initial + length waypoints_alt))
    /\ let copy := (length (store w) + length combined)%nat in
       if PPORerouter.is_destination_included (store w') combined copy
       then Route.waypoints r = combined
       else Route.waypoints r = combined ++ [copy]
            /\ final' = copy
            /\ Waypoint.order (deref (store w') copy) = Z.of_nat (S (length combined))
            /\ (exists n, (uuid_drawn w <= n < uuid_drawn w')%nat
                          /\ Waypoint.id (deref (store w') copy) = uuid_pool w n)
            /\ ((final < length (store w))%nat ->
                Waypoint.latitude (deref (store w') copy)
                = Waypoint.latitude (deref (store w) final)
                /\ Waypoint.longitude (deref (store w') copy)
                   = Waypoint.longitude (deref (store w) final)
                /\ Waypoint.status (deref (store w') copy)
                   = Waypoint.status (deref (store w) final)).
Proof.
  unfold PPORerouter._create_rerouted_path. intros Hrun.
  unfold mbind, py_mbind, py_bind at 1, py_gets at 1 in Hrun.
  destruct (PPORerouter.split_paths _ _ _ _ _ _) as [wi wa] eqn:Hsplit.
  unfold py_bind at 1 in Hrun.
  destruct (copy_initial_run wi 0 w) as (add1 & Hl1 & Hrun1). rewrite Hrun1 in Hrun.
  unfold py_bind at 1 in Hrun.
  edestruct (copy_alt_run (S (length (seq (length (store w)) (length wi)))) wa 0) as (add2 & Hl2 & Hrun2).
  rewrite Hrun2 in Hrun. clear Hrun1 Hrun2. cbn [store uuid_pool uuid_drawn] in Hrun.
  unfold py_bind at 1 in Hrun.
  set (w2 := mkWorld _ _ _) in Hrun.
  set (combined := seq (length (store w)) (length wi) ++ seq (length (store w ++ add1)) (length wa)) in Hrun.
  assert (Hcomb : combined = seq (length (store w)) (length wi + length wa)).
  { subst combined. rewrite length_app, Hl1. symmetry. apply seq_app. }
  pose proof (ensure_destination_run current_route combined w2) as Hens.
  destruct (last (Route.waypoints current_route)) as [final|] eqn:Hlast;
    [|rewrite Hens in Hrun; discriminate].
  cbv zeta in Hens.
  assert (Hlen2 : length (store w2) = (length (store w) + length combined)%nat).
  { subst w2. simpl. rewrite !length_app, Hcomb, length_seq. lia. }
  assert (Hpre : store w `prefix_of` store w2).
  { subst w2. simpl. rewrite <- app_assoc. by eexists. }
  set (d := length (store w2)) in *.
  set (copy := deref (store w2) final) in *.
  assert (Hcopy : (final < length (store w))%nat -> copy = deref (store w) final).
  { intros Hf. subst copy w2. simpl. rewrite <- app_assoc. apply deref_prefix. exact Hf. }
  destruct (PPORerouter.is_destination_included (store w2 ++ [copy]) combined d) eqn:Hinc.
  - rewrite Hens in Hrun. clear Hens.
    apply build_route_run in Hrun as (Hst & Hup & Hud & Hwps & _ & Hdest).
    cbn [store uuid_pool uuid_drawn] in Hst, Hup, Hud.
    destruct (is_destination_included_spec _ _ _ Hinc) as (x & Hx & Hlat & Hlon).
    exists final, x, combined. split; [done|]. rewrite Hwps, Hst.
    split; [exact Hx|]. split.
    { subst copy. rewrite deref_snoc_copy. unfold d in Hlat, Hlon.
      rewrite deref_snoc_new in Hlat, Hlon. done. }
    split; [destruct Hpre as [k ->]; rewrite <- app_assoc; by eexists|].
    split; [exact Hdest|]. split; [exact Hcomb|].
    cbv zeta. rewrite <- Hlen2. fold d. rewrite Hinc. reflexivity.
  - destruct Hens as [new_name Hens]. rewrite Hens in Hrun. clear Hens.
    apply build_route_run in Hrun as (Hst & Hup & Hud & Hwps & _ & Hdest).
    cbn [store uuid_pool uuid_drawn] in Hst, Hup, Hud.
    set (copy' := Waypoint.set_name new_name _) in Hst.
    assert (Hcc : eq_coordinates copy copy') by (split; reflexivity).
    exists final, d, combined. split; [done|]. rewrite Hwps, Hst.
    split; [apply last_snoc|]. split.
    { unfold d at 1. rewrite deref_snoc_new.
      destruct (deref_snoc_rel eq_coordinates (store w2) copy copy' final) as [E1 E2];
        [done | exact Hcc |].
      unfold same_coordinates. rewrite <- E1, <- E2. subst copy.
      rewrite deref_snoc_copy. split; reflexivity. }
    split; [destruct Hpre as [k ->]; rewrite <- app_assoc; by eexists|].
    split; [exact Hdest|]. split; [exact Hcomb|].
    cbv zeta. rewrite <- Hlen2. fold d.
    rewrite <- (is_destination_included_snoc (store w2) copy copy' combined d Hcc), Hinc.
    split; [reflexivity|]. split; [reflexivity|].
    pose proof (deref_snoc_new (store w2) copy') as Hd. fold d in Hd. rewrite !Hd.
    split; [reflexivity|]. split.
    { exists (uuid_drawn w + length wa)%nat. rewrite Hud. split; [simpl; lia | reflexivity]. }
    intros Hf. rewrite <- (Hcopy Hf). repeat split.
Qed.
(** What the splicer ensures in place of the destination guarantee.  The
    final waypoint of a spliced route has the
    latitude and the longitude of the last waypoint of the current route,
    which [_create_rerouted_path] takes for the destination: when the last
    assembled waypoint is not at those coordinates (or none was assembled), a
    deep copy of that waypoint is appended, with an id drawn from [uuid4] and
    the next order; otherwise nothing is appended.  The route's declared
    destination is the current route's, and is not compared. *)
Theorem spliced_route_ends_at_last_waypoint (self : PPORerouter.t)
    (current_route : Route.t) (blocked_waypoint current_position : ref)
    (alternative_route : Route.t) (target_waypoint : ref) (target_index : Z)
    (w w' : World) (r : Route.t) :
  PPORerouter._create_rerouted_path self current_route blocked_waypoint current_position
    alternative_route target_waypoint target_index w = (Return r, w') ->
  exists final final' combined,
    last (Route.waypoints current_route) = Some final
    /\ last (Route.waypoints r) = Some final'
    /\ same_coordinates (deref (store w') final') (deref (store w') final)
    /\ store w `prefix_of` store w'
    /\ Route.destination r = Route.destination current_route
    /\ (forall destination,
          Route.destination current_route = Some destination ->
          Waypoint.latitude (deref (store w') final) == Airport.latitude destination ->
          Waypoint.longitude (deref (store w') final) == Airport.longitude destination ->
          Waypoint.latitude (deref (store w') final') == Airport.latitude destination
          /\ Waypoint.longitude (deref (store w') final') == Airport.longitude destination)
    /\ combined
       = (let '(waypoints_initial, waypoints_alt) :=
            PPORerouter.split_paths (store w) current_route alternative_route
              blocked_waypoint current_position target_index in
          seq (length (store w)) (length waypoints_initial + length waypoints_alt))
    /\ let copy := (length (store w) + length combined)%nat in
       if PPORerouter.is_destination_included (store w') combined copy
       then Route.waypoints r = combined
       else Route.waypoints r = combined ++ [copy]
            /\ final' = copy
            /\ Waypoint.order (deref (store w') copy) = Z.of_nat (S (length combined))
            /\ (exists n, (uuid_drawn w <= n < uuid_drawn w')%nat
                          /\ Waypoint.id (deref (store w') copy) = uuid_pool w n)
            /\ ((final < length (store w))%nat ->
                Waypoint.latitude (deref (store w') copy)
                = Waypoint.latitude (deref (store w) final)
                /\ Waypoint.longitude (deref (store w') copy)
                   = Waypoint.longitude (deref (store w) final)
                /\ Waypoint.status (deref (store w') copy)
                   = Waypoint.status (deref (store w) final)).
Proof.
  intros Hrun.
  destruct (create_rerouted_path_run _ _ _ _ _ _ _ _ _ _ Hrun)
    as (final & final' & combined & Hlast & Hlast' & [Hlat Hlon] & Hpre & Hdest & Hcomb & Hcase).
  exists final, final', combined.
  split; [exact Hlast|]. split; [exact Hlast'|]. split; [split; assumption|].
  split; [exact Hpre|]. split; [exact Hdest|]. split.
  { intros destination _ Hdlat Hdlon. split.
    - rewrite Hlat. exact Hdlat.
    - rewrite Hlon. exact Hdlon. }
  split; [exact Hcomb | exact Hcase].
Qed.
End splice.

(** ** The rerouter *)

Lemma index_of_head `{Library} (h : heap) (x : ref) (l : list ref) :
  head l = Some x -> index_of h x l = Some O.
Proof.
  destruct l as [|y l]; simpl; [discriminate|]. intros [= ->].
  unfold same_waypoint. rewrite bool_decide_eq_true_2 by done. reflexivity.
Qed.

Lemma index_of_absent `{Library} (h : heap) (x : ref) (l : list ref) :
  contains h x l = false -> index_of h x l = None.
Proof.
  unfold contains. induction l as [|y l IH]; simpl; [done|].
  intros [Hy Hl]%orb_false_elim. rewrite Hy, (IH Hl). reflexivity.
Qed.

Section reroute.
Context `{Library}.

(** C9.  Called without a current position on a blocked waypoint that is
    the first waypoint of the current route, or that is not among its
    waypoints, [reroute] returns [None]; it has only reset
    [used_route_types]: no object is created, no identifier drawn, no status
    changed. *)
Theorem reroute_needs_a_position (blocked_waypoint : ref) (current_route : Route.t)
    (alternative_routes : list Route.t) (s : PPORerouter.state) :
  alternative_routes <> [] ->
  head (Route.waypoints current_route) = Some blocked_waypoint
  \/ contains (store (PPORerouter.world s)) blocked_waypoint
               (Route.waypoints current_route) = false ->
  PPORerouter.reroute (Some blocked_waypoint) (Some current_route) alternative_routes None s
  = (Return None,
     PPORerouter.mkState
       (PPORerouter.reset_used_route_types current_route (PPORerouter.self_ s))
       (PPORerouter.world s)).
Proof.
  intros Halts Hblocked. unfold PPORerouter.reroute.
  destruct alternative_routes as [|alt rest]; [done|].
  assert (Hidx : index_of (store (PPORerouter.world s)) blocked_waypoint
                   (Route.waypoints current_route) = Some O
                 \/ index_of (store (PPORerouter.world s)) blocked_waypoint
                      (Route.waypoints current_route) = None).
  { destruct Hblocked as [Hhead|Habsent];
      [left; by apply index_of_head | right; by apply index_of_absent]. }
  unfold PPORerouter.resolve_position.
  unfold mbind, mret, py_mbind, py_mret, py_bind, py_ret, PPORerouter.update_self,
    py_modify, PPORerouter.in_world, py_gets.
  cbn [PPORerouter.world PPORerouter.self_].
  destruct Hidx as [-> | ->]; reflexivity.
Qed.

(** *** The evaluator *)

Lemma insert_by_elem {A : Type} (key : A -> Q) (x y : A) (l : list A) :
  y ∈ insert_by key x l <-> y = x \/ y ∈ l.
Proof.
  induction l as [|z l IH]; simpl.
  - rewrite list_elem_of_singleton. split; [by left | intros [->|Hin]; [done | by apply elem_of_nil in Hin]].
  - destruct (Qle_bool _ _).
    + rewrite !elem_of_cons. tauto.
    + rewrite !elem_of_cons, IH. tauto.
Qed.

Lemma sort_by_elem {A : Type} (key : A -> Q) (y : A) (l : list A) :
  y ∈ sort_by key l <-> y ∈ l.
Proof.
  induction l as [|x l IH]; simpl; [done|].
  rewrite insert_by_elem. rewrite elem_of_cons. rewrite IH. tauto.
Qed.

Lemma skipped_false (self : PPORerouter.t) (alt : Route.t) :
  PPORerouter.skipped self alt = false ->
  (Route.path_type alt ∉ PPORerouter.used_route_types self)
  /\ Route.path_type alt <> "direct"%string.
Proof.
  unfold PPORerouter.skipped. intros [H1 H2]%orb_false_elim.
  apply bool_decide_eq_false in H1, H2. done.
Qed.

Lemma evaluate_one_kept (self : PPORerouter.t) (current_route : Route.t)
    (blocked_waypoint current_position : ref) (alt_route : Route.t)
    (w w' : World) (e : PPORerouter.Score) :
  PPORerouter.evaluate_one self current_route blocked_waypoint current_position alt_route w
  = (Return (Some e), w') ->
  PPORerouter.route e = alt_route /\ PPORerouter.skipped self alt_route = false.
Proof.
  unfold PPORerouter.evaluate_one.
  destruct (PPORerouter.skipped self alt_route); [discriminate|].
  intros Hrun. split; [|reflexivity].
  unfold mbind, py_mbind, py_bind at 1, py_gets at 1 in Hrun.
  destruct (PPORerouter.nearest _ _ _) as [[[nearest_wp nearest_index] min_distance]|];
    [|discriminate].
  unfold py_bind at 1 in Hrun.
  destruct (PPORerouter._create_rerouted_path _ _ _ _ _ _ _ _) as [[rerouted|err] w1];
    [|discriminate].
  unfold py_bind at 1 in Hrun.
  match type of Hrun with
  | (let (_, _) := ?m w1 in _) = _ => destruct (m w1) as [[[fuel_kg rerouted']|err] w2]
  end; [|discriminate].
  injection Hrun as <- <-. reflexivity.
Qed.

Lemma evaluate_one_skipped (self : PPORerouter.t) (current_route : Route.t)
    (blocked_waypoint current_position : ref) (alt_route : Route.t) (w : World) :
  PPORerouter.skipped self alt_route = true ->
  PPORerouter.evaluate_one self current_route blocked_waypoint current_position alt_route w
  = (Return None, w).
Proof.
  unfold PPORerouter.evaluate_one. intros ->. reflexivity.
Qed.

Lemma evaluate_loop_kept (self : PPORerouter.t) (current_route : Route.t)
    (blocked_waypoint current_position : ref) (alternative_routes : list Route.t) :
  forall (scores scores' : list PPORerouter.Score) (w w' : World),
    PPORerouter.evaluate_loop self current_route blocked_waypoint current_position
      alternative_routes scores w = (Return scores', w') ->
    forall e, e ∈ scores' ->
      e ∈ scores
      \/ (PPORerouter.route e ∈ alternative_routes
          /\ PPORerouter.skipped self (PPORerouter.route e) = false).
Proof.
  induction alternative_routes as [|alt rest IH]; intros scores scores' w w' Hrun e He.
  - simpl in Hrun. injection Hrun as <- <-. left. exact He.
  - simpl in Hrun. unfold mbind, py_mbind, py_bind at 1 in Hrun.
    destruct (PPORerouter.evaluate_one _ _ _ _ _ _) as [[entry|err] w1] eqn:Hone;
      [|discriminate].
    destruct (IH _ _ _ _ Hrun e He) as [Hin|[Hin Hsk]].
    + destruct entry as [e1|]; [|left; exact Hin].
      apply elem_of_app in Hin as [Hin|Hin]; [left; exact Hin|].
      apply list_elem_of_singleton in Hin as ->.
      apply evaluate_one_kept in Hone as [-> Hsk].
      right. split; [apply elem_of_cons; by left | exact Hsk].
    + right. split; [apply elem_of_cons; by right | exact Hsk].
Qed.

Lemma skipped_true (self : PPORerouter.t) (alt : Route.t) :
  Route.path_type alt ∈ PPORerouter.used_route_types self
  \/ Route.path_type alt = "direct"%string ->
  PPORerouter.skipped self alt = true.
Proof.
  unfold PPORerouter.skipped. intros [Hin|Hd].
  - rewrite bool_decide_eq_true_2 by done. reflexivity.
  - rewrite (bool_decide_eq_true_2 _ Hd). apply orb_true_r.
Qed.

Lemma evaluate_alternatives_skipped (self : PPORerouter.t) (current_route : Route.t)
    (blocked_waypoint current_position : ref) (alt_route : Route.t) (w : World) :
  PPORerouter.skipped self alt_route = true ->
  PPORerouter.evaluate_alternatives self current_route blocked_waypoint current_position
    [alt_route] w = (Return [], w).
Proof.
  intros Hsk. unfold PPORerouter.evaluate_alternatives. simpl.
  unfold mbind, py_mbind, py_bind. rewrite (evaluate_one_skipped _ _ _ _ _ _ Hsk).
  reflexivity.
Qed.

Lemma used_route_types_reset (current_route : Route.t) (self : PPORerouter.t) :
  PPORerouter.used_route_types (PPORerouter.reset_used_route_types current_route self)
  = match Route.reroute_history current_route with
    | Some (entry :: entries) => map snd (entry :: entries)
    | _ => [Route.path_type current_route]
    end.
Proof.
  unfold PPORerouter.reset_used_route_types.
  destruct (Route.reroute_history current_route) as [[|entry entries]|]; reflexivity.
Qed.

Lemma reroute_targets_skipped (self : PPORerouter.t) (h : heap) (current_position : ref)
    (alt_route : Route.t) :
  PPORerouter.skipped self alt_route = true ->
  PPORerouter.reroute_targets self h current_position [alt_route] = [].
Proof.
  intros Hsk. unfold PPORerouter.reroute_targets. simpl. rewrite Hsk. reflexivity.
Qed.

Lemma choose_reroute_skipped (blocked_waypoint : ref) (current_route alt_route : Route.t)
    (current_position : ref) (s : PPORerouter.state) :
  PPORerouter.skipped (PPORerouter.self_ s) alt_route = true ->
  PPORerouter.choose_reroute blocked_waypoint current_route [alt_route] current_position s
  = (Return None, s).
Proof.
  intros Hsk. unfold PPORerouter.choose_reroute.
  unfold mbind, mret, py_mbind, py_mret, py_bind at 1, py_gets at 1, py_ret.
  assert (Htargets : forall h, sort_by PPORerouter.t_distance
                        (PPORerouter.reroute_targets (PPORerouter.self_ s) h
                           current_position [alt_route]) = []).
  { intros h. rewrite (reroute_targets_skipped _ _ _ _ Hsk). reflexivity. }
  pose proof (fun w => evaluate_alternatives_skipped (PPORerouter.self_ s) current_route
                         blocked_waypoint current_position alt_route w Hsk) as Heval.
  destruct (PPORerouter.consider_fuel (PPORerouter.self_ s)),
    (PPORerouter.weather_service (PPORerouter.self_ s)),
    (PPORerouter.aircraft (PPORerouter.self_ s));
    unfold py_bind, PPORerouter.in_world, py_gets;
    first [rewrite Heval | rewrite Htargets]; by destruct s.
Qed.

Lemma resolve_position_self (blocked_waypoint : ref) (current_route : Route.t)
    (current_position : option ref) (s : PPORerouter.state) :
  exists o w, PPORerouter.resolve_position blocked_waypoint current_route current_position s
              = (Return o, PPORerouter.mkState (PPORerouter.self_ s) w).
Proof.
  destruct s as [self0 w0]. unfold PPORerouter.resolve_position.
  unfold mbind, mret, py_mbind, py_mret, py_bind, py_ret, PPORerouter.in_world, setattr, py_modify.
  destruct current_position as [p|]; [eexists _, _; reflexivity|].
  unfold py_gets. cbn [PPORerouter.world PPORerouter.self_].
  destruct (index_of _ _ _) as [[|before]|]; simpl; eexists _, _; reflexivity.
Qed.

Lemma reroute_no_alternative (blocked_waypoint : ref) (current_route alt_route : Route.t)
    (current_position : option ref) (s : PPORerouter.state) :
  PPORerouter.skipped
    (PPORerouter.reset_used_route_types current_route (PPORerouter.self_ s)) alt_route = true ->
  fst (PPORerouter.reroute (Some blocked_waypoint) (Some current_route) [alt_route]
         current_position s) = Return None.
Proof.
  intros Hsk. unfold PPORerouter.reroute.
  unfold mbind, py_mbind, py_bind at 1, PPORerouter.update_self, py_modify.
  unfold py_bind at 1.
  destruct (resolve_position_self blocked_waypoint current_route current_position
              (PPORerouter.mkState
                 (PPORerouter.reset_used_route_types current_route (PPORerouter.self_ s))
                 (PPORerouter.world s))) as (o & w & ->).
  destruct o as [p|]; [|reflexivity].
  rewrite choose_reroute_skipped; [reflexivity | exact Hsk].
Qed.

(** C5, as the code has it.  Every candidate the evaluator returns is one of
    the alternatives, with a path type that is neither in the rerouter's used
    list nor "direct".  [reroute] sets that list to the path types recorded in
    the current route's reroute history when there is one, and to the current
    route's own path type otherwise.  So one alternative with the current
    route's path type gives zero candidates, and [reroute] returns [None],
    when the current route has no history (or when its path type is in the
    history or is "direct"). *)
Theorem evaluator_discards_used_path_types (self : PPORerouter.t)
    (current_route : Route.t) (blocked_waypoint current_position : ref)
    (alternative_routes : list Route.t) (w : World) :
  (forall scores w',
     PPORerouter.evaluate_alternatives self current_route blocked_waypoint current_position
       alternative_routes w = (Return scores, w') ->
     forall e, e ∈ scores ->
       PPORerouter.route e ∈ alternative_routes
       /\ (Route.path_type (PPORerouter.route e) ∉ PPORerouter.used_route_types self)
       /\ Route.path_type (PPORerouter.route e) <> "direct"%string)
  /\ PPORerouter.used_route_types (PPORerouter.reset_used_route_types current_route self)
     = match Route.reroute_history current_route with
       | Some (entry :: entries) => map snd (entry :: entries)
       | _ => [Route.path_type current_route]
       end
  /\ (forall alt_route,
        Route.path_type alt_route = Route.path_type current_route ->
        match Route.reroute_history current_route with
        | Some (entry :: entries) =>
          Route.path_type current_route ∈ map snd (entry :: entries)
          \/ Route.path_type current_route = "direct"%string
        | _ => True
        end ->
        PPORerouter.evaluate_alternatives
          (PPORerouter.reset_used_route_types current_route self) current_route
          blocked_waypoint current_position [alt_route] w = (Return [], w)
        /\ forall position s,
             fst (PPORerouter.reroute (Some blocked_waypoint) (Some current_route)
                    [alt_route] position s) = Return None).
Proof.
  split; [|split].
  - intros scores w' Hrun e He.
    unfold PPORerouter.evaluate_alternatives in Hrun.
    unfold mbind, mret, py_mbind, py_mret, py_bind, py_ret in Hrun.
    destruct (PPORerouter.evaluate_loop _ _ _ _ _ _ _) as [[scores0|err] w0] eqn:Hloop;
      [|discriminate].
    injection Hrun as <- <-. apply sort_by_elem in He.
    destruct (evaluate_loop_kept _ _ _ _ _ _ _ _ _ Hloop e He) as [Hnil|[Hin Hsk]];
      [by apply elem_of_nil in Hnil|].
    apply skipped_false in Hsk as [Hused Hdirect]. done.
  - apply used_route_types_reset.
  - intros alt_route Htype Hhist.
    assert (Hsk : forall self0,
              PPORerouter.skipped (PPORerouter.reset_used_route_types current_route self0)
                alt_route = true).
    { intros self0. apply skipped_true. rewrite used_route_types_reset, Htype.
      destruct (Route.reroute_history current_route) as [[|entry entries]|];
        [left; apply list_elem_of_singleton; reflexivity | exact Hhist
        | left; apply list_elem_of_singleton; reflexivity]. }
    split.
    + apply evaluate_alternatives_skipped. apply Hsk.
    + intros position s. apply reroute_no_alternative. apply Hsk.
Qed.
End reroute.

(** ** Runs on the sample data *)

(** C3, where the code departs from it.  [_create_rerouted_path] announces
    "Always ensure the final waypoint is the destination", and takes
    [current_route.waypoints[-1]] for the destination; the declared
    destination is never compared.  R1 ends at waypoint 3, at (16, 16), and
    its destination B lies at (20, 20).  Rerouting R1 around waypoint 2 from
    waypoint 1 through the "left" alternative gives a route whose declared
    destination is B and whose final waypoint is a copy of waypoint 3, at
    (16, 16): the spliced route does not end at its destination. *)
Lemma spliced_route_misses_destination :
  let run :=
    @PPORerouter._create_rerouted_path sample_library plain_rerouter route_R1
      1%nat 0%nat route_left 3%nat 0 wide_world in
  exists r final',
    fst run = Return r
    /\ Route.destination r = Some airport_B
    /\ last (Route.waypoints r) = Some final'
    /\ Waypoint.latitude (deref (store (snd run)) final') == 16
    /\ Waypoint.longitude (deref (store (snd run)) final') == 16
    /\ ~ Waypoint.latitude (deref (store (snd run)) final') == Airport.latitude airport_B
    /\ ~ Waypoint.longitude (deref (store (snd run)) final') == Airport.longitude airport_B.
Proof.
  cbv zeta. eexists _, 8%nat.
  split; [vm_compute; reflexivity|].
  split; [reflexivity|]. split; [reflexivity|].
  split; [vm_compute; reflexivity|]. split; [vm_compute; reflexivity|].
  split; vm_compute; discriminate.
Qed.

Lemma spliced_route_ends_at_last_waypoint_witness :
  let run :=
    @PPORerouter._create_rerouted_path sample_library plain_rerouter route_R1
      1%nat 0%nat route_left 3%nat 0 wide_world in
  exists r final final',
    fst run = Return r
    /\ last (Route.waypoints route_R1) = Some final
    /\ last (Route.waypoints r) = Some final'
    /\ same_coordinates (deref (store (snd run)) final') (deref (store (snd run)) final).
Proof.
  cbv zeta.
  destruct (@PPORerouter._create_rerouted_path sample_library plain_rerouter route_R1
              1%nat 0%nat route_left 3%nat 0 wide_world) as [o w'] eqn:Hrun.
  destruct o as [r|e]; [|vm_compute in Hrun; discriminate].
  destruct (@spliced_route_ends_at_last_waypoint sample_library plain_rerouter route_R1
              1%nat 0%nat route_left 3%nat 0 wide_world w' r Hrun)
    as (final & final' & combined & Hlast & Hlast' & Hsame & _).
  exists r, final, final'. simpl. done.
Defined.

(** C5 as stated fails.  R1 was rerouted once to the left: its path type is
    "rerouted_left" and its history records "left", so the used list is
    ["left"]; the one alternative, of path type "rerouted_left" like the
    current route, is kept as a candidate. *)
Lemma evaluator_keeps_current_path_type :
  let self := PPORerouter.reset_used_route_types route_R1_rerouted plain_rerouter in
  let run :=
    @PPORerouter.evaluate_alternatives sample_library self route_R1_rerouted
      1%nat 0%nat [route_left_again] wide_world in
  Route.path_type route_left_again = Route.path_type route_R1_rerouted
  /\ PPORerouter.used_route_types self = ["left"%string]
  /\ exists candidate,
       fst run = Return [candidate]
       /\ PPORerouter.route candidate = route_left_again.
Proof.
  cbv zeta. split; [reflexivity|]. split; [reflexivity|].
  eexists. split; [vm_compute; reflexivity | reflexivity].
Qed.

Lemma evaluator_discards_used_path_types_witness :
  @PPORerouter.evaluate_alternatives sample_library
    (PPORerouter.reset_used_route_types route_R1 plain_rerouter) route_R1
    1%nat 0%nat [route_direct] wide_world = (Return [], wide_world)
  /\ fst (@PPORerouter.reroute sample_library (Some 1%nat) (Some route_R1) [route_direct]
            (Some 0%nat) (PPORerouter.mkState plain_rerouter wide_world)) = Return None.
Proof.
  destruct (@evaluator_discards_used_path_types sample_library plain_rerouter route_R1
              1%nat 0%nat [route_direct] wide_world) as (_ & _ & Hscenario).
  destruct (Hscenario route_direct) as [Heval Hreroute]; [reflexivity | exact I |].
  split; [exact Heval | apply Hreroute].
Defined.

Lemma reroute_needs_a_position_witness :
  @PPORerouter.reroute sample_library (Some 0%nat) (Some route_R1) [route_left] None
    (PPORerouter.mkState plain_rerouter wide_world)
  = (Return None,
     PPORerouter.mkState (PPORerouter.reset_used_route_types route_R1 plain_rerouter)
                         wide_world).
Proof.
  apply (@reroute_needs_a_position sample_library 0%nat route_R1 [route_left]
           (PPORerouter.mkState plain_rerouter wide_world)).
  - discriminate.
  - left. reflexivity.
Defined.

(** * Further properties of the code

    Properties of the methods beside the ones above: what the cost model
    computes leg by leg, how its methods agree with one another, and what the
    rerouter and the adjuster do at their edges. *)

(** ** Sums, comparisons and lists *)

Lemma Qeq_bool_false (x y : Q) : ~ x == y -> Qeq_bool x y = false.
Proof.
  intros Hne. destruct (Qeq_bool x y) eqn:E; [|reflexivity].
  apply Qeq_bool_iff in E. contradiction.
Qed.

Lemma Qltb_lt (x y : Q) : Qltb x y = true -> x < y.
Proof.
  unfold Qltb. intros E. apply negb_true_iff in E.
  destruct (Qlt_le_dec x y) as [Hlt|Hle]; [exact Hlt|].
  apply Qle_bool_iff in Hle. congruence.
Qed.

Lemma Qdiv_nonneg (x y : Q) : 0 <= x -> 0 < y -> 0 <= x / y.
Proof. intros Hx Hy. apply Qle_shift_div_l; lra. Qed.

Lemma foldl_Qplus_acc (l : list Q) : forall a, foldl Qplus a l == a + Qsum l.
Proof.
  unfold Qsum. induction l as [|x l IH]; intros a; simpl.
  - ring.
  - rewrite (IH (a + x)), (IH (0 + x)). ring.
Qed.

Lemma Qsum_cons (x : Q) (l : list Q) : Qsum (x :: l) == x + Qsum l.
Proof. unfold Qsum at 1. simpl. rewrite foldl_Qplus_acc. ring. Qed.


(** A loop that appends an element per round computes a [map]. *)
Lemma foldl_snoc_map {A B : Type} (f : A -> B) (g : list B -> A -> list B) (l : list A) :
  (forall acc x, g acc x = acc ++ [f x]) ->
  forall acc, foldl g acc l = acc ++ map f l.
Proof.
  intros Hg. induction l as [|x l IH]; intros acc; simpl; [by rewrite app_nil_r|].
  rewrite IH, Hg, <- app_assoc. reflexivity.
Qed.

Lemma foldl_nonneg {A : Type} (f : Q -> A -> Q) (l : list A) :
  (forall acc x, 0 <= acc -> 0 <= f acc x) ->
  forall acc, 0 <= acc -> 0 <= foldl f acc l.
Proof.
  intros Hf. induction l as [|x l IH]; intros acc Hacc; simpl; [exact Hacc|].
  apply IH, Hf, Hacc.
Qed.

Lemma Qlen_cons {A : Type} (x : A) (l : list A) : Route.Qlen (x :: l) == Route.Qlen l + 1.
Proof.
  unfold Route.Qlen. simpl length. rewrite Nat2Z.inj_succ, <- Z.add_1_r.
  rewrite inject_Z_plus. reflexivity.
Qed.

Lemma Qlen_pos {A : Type} (l : list A) : l <> [] -> 0 < Route.Qlen l.
Proof.
  intros Hne. unfold Route.Qlen. change 0 with (inject_Z 0). rewrite <- Zlt_Qlt.
  destruct l; [done | simpl; lia].
Qed.

(** Python's [%] with a positive modulus gives a result in [0, m). *)
Lemma py_mod_bounds (x m : Q) : 0 < m -> 0 <= py_mod x m /\ py_mod x m < m.
Proof.
  intros Hm. unfold py_mod.
  pose proof (Qfloor_le (x / m)) as Hlo.
  pose proof (Qlt_floor (x / m)) as Hhi.
  rewrite inject_Z_plus in Hhi. change (inject_Z 1) with 1 in Hhi.
  set (k := inject_Z (Qfloor (x / m))) in *.
  assert (Hx : x == m * (x / m)) by (field; lra).
  split.
  - assert (m * k <= m * (x / m)) by (apply Qmult_le_l; assumption). lra.
  - assert (m * (x / m) < m * (k + 1)) by (apply Qmult_lt_l; assumption). lra.
Qed.

Lemma Qsum_bounds (m : Q) (l : list Q) :
  (forall x, x ∈ l -> 0 <= x /\ x < m) ->
  0 <= Qsum l /\ (l <> [] -> Qsum l < m * Route.Qlen l).
Proof.
  induction l as [|x l IH]; intros Hl.
  - split; [unfold Qsum; simpl; lra | done].
  - destruct IH as [IH0 IHm]; [intros y Hy; apply Hl; by right|].
    destruct (Hl x) as [Hx0 Hxm]; [by left|].
    rewrite Qsum_cons, Qlen_cons. split; [lra|]. intros _.
    destruct l as [|y l].
    + assert (E : Route.Qlen (@nil Q) == 0) by reflexivity. rewrite E.
      unfold Qsum. simpl. lra.
    + specialize (IHm ltac:(discriminate)). lra.
Qed.

(** *** Indexing *)

Lemma py_index_nat {A : Type} (l : list A) (i : nat) :
  py_index l (Z.of_nat i)
  = match l !! i with Some x => Return x | None => Raise IndexError end.
Proof.
  unfold py_index.
  destruct (Z.of_nat i <? 0)%Z eqn:E; [apply Z.ltb_lt in E; lia|].
  rewrite E, Nat2Z.id. reflexivity.
Qed.

Lemma py_index_succ {A : Type} (l : list A) (i : nat) :
  py_index l (Z.of_nat i + 1)
  = match l !! S i with Some x => Return x | None => Raise IndexError end.
Proof.
  replace (Z.of_nat i + 1)%Z with (Z.of_nat (S i)) by lia. apply py_index_nat.
Qed.

Lemma py_index_lookup {A : Type} (l : list A) (i : Z) (x : A) :
  (0 <= i)%Z -> l !! Z.to_nat i = Some x -> py_index l i = Return x.
Proof.
  intros Hi Hx. unfold py_index.
  destruct (i <? 0)%Z eqn:E; [apply Z.ltb_lt in E; lia|]. rewrite E, Hx. reflexivity.
Qed.

Lemma py_index_in_range {A : Type} (l : list A) (i : Z) :
  in_range l i -> exists x, py_index l i = Return x /\ x ∈ l.
Proof.
  unfold in_range, py_index. intros Hi.
  set (j := if (i <? 0)%Z then _ else i).
  assert (Hj : (0 <= j < Z.of_nat (length l))%Z).
  { unfold j. destruct (i <? 0)%Z eqn:E; [apply Z.ltb_lt in E | apply Z.ltb_ge in E]; lia. }
  destruct (j <? 0)%Z eqn:E; [apply Z.ltb_lt in E; lia|].
  destruct (lookup_lt_is_Some_2 l (Z.to_nat j)) as [x Hx]; [lia|].
  rewrite Hx. exists x. split; [reflexivity|]. by eapply list_elem_of_lookup_2.
Qed.

Lemma py_index_out_of_range {A : Type} (l : list A) (i : Z) :
  ~ in_range l i -> py_index l i = Raise IndexError.
Proof.
  unfold in_range, py_index. intros Hi.
  set (j := if (i <? 0)%Z then _ else i).
  destruct (j <? 0)%Z eqn:E; [reflexivity|]. apply Z.ltb_ge in E.
  rewrite (lookup_ge_None_2 l (Z.to_nat j)); [reflexivity|].
  unfold j in *. destruct (i <? 0)%Z eqn:E'; [apply Z.ltb_lt in E' | apply Z.ltb_ge in E']; lia.
Qed.

(** *** Consecutive pairs *)

Lemma length_consecutive {A : Type} (l : list A) :
  length (Route.consecutive l) = (length l - 1)%nat.
Proof.
  unfold Route.consecutive. rewrite length_zip_with.
  destruct l as [|a l]; [reflexivity|].
  cbn [tail length]. rewrite Nat.min_r by lia. lia.
Qed.

Lemma lookup_consecutive {A : Type} (l : list A) (i : nat) :
  Route.consecutive l !! i
  = match l !! i, l !! S i with
    | Some a, Some b => Some (a, b)
    | _, _ => None
    end.
Proof.
  unfold Route.consecutive. rewrite lookup_zip_with.
  rewrite lookup_tail. destruct (l !! i), (l !! S i); reflexivity.
Qed.

Lemma consecutive_app {A : Type} (l1 l2 : list A) (x y : A) :
  Route.consecutive ((l1 ++ [x]) ++ y :: l2)
  = Route.consecutive (l1 ++ [x]) ++ [(x, y)] ++ Route.consecutive (y :: l2).
Proof.
  induction l1 as [|a l1 IH]; [reflexivity|].
  destruct l1 as [|b l1]; [reflexivity|].
  change (Route.consecutive (((a :: b :: l1) ++ [x]) ++ y :: l2))
    with ((a, b) :: Route.consecutive (((b :: l1) ++ [x]) ++ y :: l2)).
  rewrite IH. reflexivity.
Qed.

Lemma consecutive_take {A : Type} (l : list A) (n : nat) :
  Route.consecutive (take (S n) l) = take n (Route.consecutive l).
Proof.
  revert n. induction l as [|a l IH]; intros n; [by destruct n|].
  destruct l as [|b l]; [by destruct n|].
  destruct n as [|n]; [reflexivity|].
  change (Route.consecutive (take (S (S n)) (a :: b :: l)))
    with ((a, b) :: Route.consecutive (take (S n) (b :: l))).
  rewrite IH. reflexivity.
Qed.

(** *** The half hour for takeoff and landing *)

Lemma length_add_first (x : Q) (l : list Q) : length (Route.add_first x l) = length l.
Proof. destruct l; reflexivity. Qed.

Lemma length_add_last (x : Q) (l : list Q) : length (Route.add_last x l) = length l.
Proof. unfold Route.add_last. destruct (length l) eqn:E; [done|]. by rewrite length_alter. Qed.

(** ** Legs: distances and times *)

Section legs.
Context `{Library}.

Lemma leg_times_distances (h : heap) (self : Route.t) (aircraft : Aircraft.t) :
  Route.leg_distances (snd (Route.calculate_leg_times h self (Some aircraft)))
  = Route.leg_distances (snd (Route.calculate_total_distance h self)).
Proof.
  unfold Route.calculate_leg_times, Route.calculate_total_distance. cbn.
  rewrite !map_app, map_map.
  f_equal; [destruct (Route.origin self), (Route.waypoints self); reflexivity|].
  f_equal; [apply map_ext; intros [a b]; reflexivity|].
  destruct (Route.destination self), (last (Route.waypoints self)); reflexivity.
Qed.

(** [calculate_leg_times] with an aircraft, in terms of the legs that
    [calculate_total_distance] stores. *)
Lemma leg_times_run (h : heap) (self : Route.t) (aircraft : Aircraft.t) :
  let legs := Route.leg_distances (snd (Route.calculate_total_distance h self)) in
  let times :=
    Route.add_last (0.5 / 2)
      (Route.add_first (0.5 / 2)
         (map (fun distance =>
                 if Qltb 0 (Aircraft.cruise_speed_kmh aircraft)
                 then distance / Aircraft.cruise_speed_kmh aircraft else 0)
              legs)) in
  Route.calculate_leg_times h self (Some aircraft)
  = (times, Route.set_leg_times times (Route.set_leg_distances legs self)).
Proof.
  intros legs times. unfold times, legs.
  rewrite <- (leg_times_distances h self aircraft). reflexivity.
Qed.

(** Whether a route has a leg does not depend on where its waypoints are. *)
Lemma no_leg_any_store (h h' : heap) (self : Route.t) :
  Route.leg_distances (snd (Route.calculate_total_distance h self)) = [] ->
  Route.leg_distances (snd (Route.calculate_total_distance h' self)) = [].
Proof.
  unfold Route.calculate_total_distance. cbn. intros Hlegs.
  apply app_eq_nil in Hlegs as [Ho Hrest]. apply app_eq_nil in Hrest as [Hmid Hd].
  apply map_eq_nil in Hmid. rewrite Hmid.
  destruct (Route.origin self), (Route.waypoints self), (Route.destination self);
    try discriminate; try reflexivity; simpl in *;
    destruct (last _); try discriminate; reflexivity.
Qed.

(** X1.  [calculate_leg_times], given an aircraft, stores the leg distances
    that [calculate_total_distance] stores, and returns (and stores) one time
    per leg: none on a route without waypoints, and otherwise one leg between
    each two consecutive waypoints, one more from the origin and one more to
    the destination when the route has them. *)
Theorem leg_times_match_leg_distances (h : heap) (self : Route.t) (aircraft : Aircraft.t) :
  let timed := Route.calculate_leg_times h self (Some aircraft) in
  Route.leg_distances (snd timed)
  = Route.leg_distances (snd (Route.calculate_total_distance h self))
  /\ Route.leg_times (snd timed) = fst timed
  /\ length (fst timed) = length (Route.leg_distances (snd timed))
  /\ length (fst timed)
     = match Route.waypoints self with
       | [] => 0%nat
       | _ :: _ =>
         ((match Route.origin self with Some _ => 1 | None => 0 end)
          + (length (Route.waypoints self) - 1)
          + (match Route.destination self with Some _ => 1 | None => 0 end))%nat
       end.
Proof.
  intros timed. split; [apply leg_times_distances|]. split; [reflexivity|].
  assert (Hlen : length (fst timed) = length (Route.leg_distances (snd timed))).
  { unfold timed. rewrite leg_times_run. cbn [fst snd Route.leg_distances Route.set_leg_times
      Route.set_leg_distances].
    rewrite length_add_last, length_add_first, length_map. reflexivity. }
  split; [exact Hlen|].
  rewrite Hlen. unfold timed. rewrite leg_times_distances.
  unfold Route.calculate_total_distance. cbn.
  rewrite !length_app, length_map, length_consecutive.
  destruct (Route.waypoints self) as [|w0 ws] eqn:Hw.
  - destruct (Route.origin self), (Route.destination self); reflexivity.
  - assert (Hlast : is_Some (last (w0 :: ws))).
    { rewrite last_is_Some. discriminate. }
    destruct Hlast as [wl ->].
    destruct (Route.origin self), (Route.destination self); simpl; lia.
Qed.

(** X4.  Once [calculate_leg_times] has run with an aircraft,
    [get_leg_times] returns what that run returned and leaves the route as it
    is, whatever aircraft it is given and wherever the waypoints are by then:
    the stored times are not recomputed. *)
Theorem get_leg_times_serves_stored (h h' : heap) (self : Route.t)
    (aircraft : Aircraft.t) (other : option Aircraft.t) :
  let timed := Route.calculate_leg_times h self (Some aircraft) in
  Route.get_leg_times h' (snd timed) other = (fst timed, snd timed).
Proof.
  intros timed. unfold timed. rewrite leg_times_run. cbn [fst snd].
  set (legs := Route.leg_distances (snd (Route.calculate_total_distance h self))).
  set (times := Route.add_last _ _).
  unfold Route.get_leg_times.
  change (Route.leg_times (Route.set_leg_times times _)) with times.
  destruct times as [|t ts] eqn:Htimes; [|reflexivity].
  assert (Hlegs : legs = []).
  { apply (f_equal length) in Htimes. unfold times in Htimes.
    rewrite length_add_last, length_add_first, length_map in Htimes.
    exact (nil_length_inv _ Htimes). }
  pose proof (no_leg_any_store h h' self Hlegs) as Hlegs'.
  rewrite Hlegs.
  destruct other as [b|].
  - rewrite leg_times_run.
    change (Route.calculate_total_distance h'
              (Route.set_leg_times [] (Route.set_leg_distances [] self)))
      with (let '(d, r) := Route.calculate_total_distance h' self in
            (d, Route.set_distance d (Route.set_leg_distances
                  (Route.leg_distances r)
                  (Route.set_leg_times [] (Route.set_leg_distances [] self))))).
    destruct (Route.calculate_total_distance h' self) as [d r] eqn:E.
    cbn [snd] in Hlegs'. cbn [snd Route.leg_distances Route.set_distance Route.set_leg_distances].
    rewrite Hlegs'. reflexivity.
  - reflexivity.
Qed.

(** ** Estimated time, fuel, fitness and bearing *)


(** Samples without both wind keys leave the counters of the loop alone. *)
Lemma wind_effect_loop_unread (avg_bearing : Q) (wd : WeatherData) :
  (forall key sample, (key, sample) ∈ wd ->
     sample_has sample "wind_speed" && sample_has sample "wind_direction" = false) ->
  Route.wind_effect_loop avg_bearing wd = (0, 0).
Proof.
  unfold Route.wind_effect_loop. generalize (0, 0) as acc.
  induction wd as [|[key sample] wd IH]; intros acc Hwd; simpl; [reflexivity|].
  destruct acc as [wind_effect num_points].
  rewrite (Hwd key sample) by (apply elem_of_cons; by left).
  apply IH. intros k s' Hin. apply (Hwd k). apply elem_of_cons. by right.
Qed.

(** X6.  [calculate_estimated_time] reads the wind under the keys
    "wind_speed" and "wind_direction" only: weather data in which no sample
    has both (the samples of the fuel model, keyed "wind_speed_10m" and
    "wind_direction_10m", for one) leave the time at distance over cruise
    speed plus the half hour. *)
Theorem estimated_time_ignores_other_weather (h : heap) (self : Route.t)
    (aircraft : Aircraft.t) :
  ~ Route.distance self == 0 ->
  ~ Aircraft.cruise_speed_kmh aircraft == 0 ->
  (forall key sample, (key, sample) ∈ Route.weather_data self ->
     sample_has sample "wind_speed" && sample_has sample "wind_direction" = false) ->
  let t := Route.distance self / Aircraft.cruise_speed_kmh aircraft + 0.5 in
  Route.calculate_estimated_time h self (Some aircraft)
  = (Return (Some t), Route.set_estimated_time (Some t) self).
Proof.
  intros Hd Hc Hwd t. unfold Route.calculate_estimated_time, truthy, py_div.
  rewrite !Qeq_bool_false by assumption. cbn [negb].
  rewrite wind_effect_loop_unread by exact Hwd.
  destruct (Route.weather_data self); reflexivity.
Qed.

(** Without a sample under a segment's key the loop leaves the factor. *)
Lemma wind_loop_unread (h : heap) (n : nat) (wd : WeatherData) :
  forall (segments : list (ref * ref)) (i : nat) (wind_factor : Q),
    (forall j, (j < length segments)%nat ->
       weather_lookup (Route.waypoint_key (i + j)) wd = None) ->
    Route.wind_loop h n wd i segments wind_factor = wind_factor.
Proof.
  induction segments as [|[a b] rest IH]; intros i wind_factor Hwd; simpl; [reflexivity|].
  unfold Route.wind_step.
  pose proof (Hwd O ltac:(simpl; lia)) as H0. rewrite Nat.add_0_r in H0. rewrite H0.
  apply IH. intros j Hj. rewrite Nat.add_succ_l, <- Nat.add_succ_r. apply Hwd. simpl. lia.
Qed.

(** X7.  When the weather mapping has no entry under the key of any segment
    ("waypoint_0" up to the last segment's), [calculate_fuel_consumption]
    returns, and stores, half of distance over cruise speed times the
    consumption rate; so it does on every route with fewer than two
    waypoints, whatever the weather. *)
Theorem fuel_without_segment_weather (h : heap) (self : Route.t)
    (aircraft : Aircraft.t) (weather_data : WeatherData) :
  ~ Aircraft.cruise_speed_kmh aircraft == 0 ->
  (forall i, (i < length (Route.waypoints self) - 1)%nat ->
     weather_lookup (Route.waypoint_key i) weather_data = None) ->
  exists fuel,
    Route.calculate_fuel_consumption h self (Some aircraft) weather_data
    = (Return fuel, Route.set_fuel_consumption fuel self)
    /\ fuel == Route.distance self / Aircraft.cruise_speed_kmh aircraft
               * Aircraft.fuel_consumption_rate_kg_hr aircraft / 2.
Proof.
  intros Hc Hwd. unfold Route.calculate_fuel_consumption, py_div.
  rewrite Qeq_bool_false by exact Hc.
  eexists. split; [reflexivity|].
  unfold Route.overall_wind_factor. rewrite wind_loop_unread.
  - assert (Hmax : Qmax 0.3 1 == 1) by reflexivity. rewrite Hmax. field.
    exact Hc.
  - intros j Hj. apply Hwd. by rewrite length_consecutive in Hj.
Qed.

(** X8.  [calculate_fitness_score] returns a score and stores it whenever
    no aircraft is given, or the aircraft's fuel capacity is not zero: the
    division by the fuel capacity is its only way to fail. *)
Theorem fitness_score_returns (h : heap) (self : Route.t)
    (aircraft : option Aircraft.t) (weather_weight distance_weight : Q) :
  match aircraft with
  | Some aircraft => ~ Aircraft.fuel_capacity_liters aircraft == 0
  | None => True
  end ->
  exists score,
    Route.calculate_fitness_score h self aircraft weather_weight distance_weight
    = (Return score,
       Route.set_fitness_score score
         (if Qle_bool (Route.distance self) 0
          then snd (Route.calculate_total_distance h self) else self)).
Proof.
  intros Hcap. unfold Route.calculate_fitness_score.
  set (self' := if Qle_bool (Route.distance self) 0 then _ else self).
  destruct (Route.weather_data self') as [|s0 rest]; [eexists; reflexivity|].
  destruct (length _ <? 2)%nat; [eexists; reflexivity|].
  unfold Route.weather_fitness.
  destruct aircraft as [aircraft|].
  - cbn zeta.
    destruct (Qltb _ _).
    + unfold py_div. rewrite Qeq_bool_false.
      * eexists. reflexivity.
      * intros E. apply Hcap.
        apply (Qmult_inj_r _ _ 0.8); [discriminate|]. rewrite E. reflexivity.
    + eexists. reflexivity.
  - cbn zeta. destruct (Qltb _ _); eexists; reflexivity.
Qed.

Lemma count_nodes_nonneg (test : WeatherSample -> bool) (nodes : list WeatherSample) :
  0 <= Route.count_nodes test nodes.
Proof.
  unfold Route.count_nodes. apply foldl_nonneg; [|lra].
  intros acc x Hacc. destruct (test x); lra.
Qed.

Lemma weather_fitness_not_negative (self : Route.t) (aircraft : option Aircraft.t)
    (weather_weight distance_weight : Q) (weather_nodes : list WeatherSample) :
  weather_nodes <> [] ->
  0 <= weather_weight -> 0 <= distance_weight ->
  0 <= Route.distance self ->
  match aircraft with
  | Some aircraft =>
    0 <= Aircraft.fuel_consumption_rate_kg_hr aircraft
    /\ 0 < Aircraft.fuel_capacity_liters aircraft
  | None => True
  end ->
  exists score,
    Route.weather_fitness self aircraft weather_weight distance_weight weather_nodes
    = Return score /\ 0 <= score.
Proof.
  intros Hne Hww Hdw Hd Hair. unfold Route.weather_fitness.
  set (heading := match Route.origin self with Some _ => _ | None => _ end).
  pose proof (avg_ground_speed_pos heading weather_nodes Hne) as Havg.
  set (avg := Route.avg_ground_speed heading weather_nodes) in *.
  rewrite (Qltb_true _ _ Havg).
  set (time := Route.distance self / avg).
  assert (Htime : 0 <= time) by (apply Qdiv_nonneg; assumption).
  set (pair := match aircraft with Some _ => _ | None => _ end).
  assert (Hpair : 0 <= fst pair /\ 0 < snd pair).
  { unfold pair. destruct aircraft as [a|]; simpl; [|lra].
    destruct Hair. split; [assumption | lra]. }
  destruct pair as [rate cap]. simpl in Hpair. destruct Hpair as [Hrate Hcap].
  set (fuel := rate * time).
  assert (Hfuel : 0 <= fuel) by (apply Qmult_le_0_compat; assumption).
  assert (Hpen : exists p, (if Qltb cap fuel
                            then obind (py_div (fuel - cap) cap) (fun x => Return (x * 10))
                            else Return 0) = Return p /\ 0 <= p).
  { destruct (Qltb cap fuel) eqn:E.
    - apply Qltb_lt in E. unfold py_div. rewrite Qeq_bool_false by lra.
      eexists. split; [reflexivity|].
      assert (0 <= (fuel - cap) / cap) by (apply Qdiv_nonneg; lra). lra.
    - eexists. split; [reflexivity | lra]. }
  destruct Hpen as (p & -> & Hp). cbn [obind].
  eexists. split; [reflexivity|].
  set (turb := match weather_nodes with [] => 0 | _ => _ end).
  assert (Hturb : 0 <= turb).
  { unfold turb. destruct weather_nodes as [|n ns]; [done|].
    match goal with |- 0 <= ?c / _ * 2 => assert (0 <= c / Route.Qlen (n :: ns)) end.
    { apply Qdiv_nonneg; [apply count_nodes_nonneg | by apply Qlen_pos]. }
    lra. }
  set (thun := match weather_nodes with [] => 0 | _ => _ end).
  assert (Hthun : 0 <= thun).
  { unfold thun. destruct weather_nodes as [|n ns]; [done|].
    match goal with |- 0 <= ?c / _ * 3 => assert (0 <= c / Route.Qlen (n :: ns)) end.
    { apply Qdiv_nonneg; [apply count_nodes_nonneg | by apply Qlen_pos]. }
    lra. }
  set (vis := if Qltb _ 5000 || Qltb _ 5000 then 1 else 0).
  assert (Hvis : 0 <= vis).
  { unfold vis. match goal with |- 0 <= if ?b then _ else _ => destruct b end; lra. }
  set (cloud := if Qltb 80 _ || Qltb 80 _ then 0.5 else 0).
  assert (Hcloud : 0 <= cloud).
  { unfold cloud. match goal with |- 0 <= if ?b then _ else _ => destruct b end; lra. }
  set (runway := Route.count_nodes _ [_; _]).
  assert (Hrunway : 0 <= runway) by apply count_nodes_nonneg.
  set (cross := foldl _ 0 [_; _]).
  assert (Hcross : 0 <= cross).
  { unfold cross. apply foldl_nonneg; [|lra]. intros acc x Hacc.
    match goal with |- 0 <= if ?b then _ else _ => destruct b end; lra. }
  set (hazard := foldl _ 0 [_; _]).
  assert (Hhazard : 0 <= hazard).
  { unfold hazard. apply foldl_nonneg; [|lra]. intros acc x Hacc.
    match goal with |- 0 <= if ?b then _ else _ => destruct b end; lra. }
  set (safety := turb + thun + vis + cloud + runway * 0.75 + cross + hazard).
  assert (Hsafety : 0 <= safety) by (unfold safety; lra).
  assert (H1 : 0 <= weather_weight * safety) by (apply Qmult_le_0_compat; assumption).
  assert (H2 : 0 <= distance_weight * (fuel / 10000)).
  { apply Qmult_le_0_compat; [assumption|]. apply Qdiv_nonneg; lra. }
  destruct (Qltb 5000 (Route.distance self)) eqn:E.
  - apply Qltb_lt in E.
    assert (0 <= (Route.distance self - 5000) / 1000) by (apply Qdiv_nonneg; lra).
    lra.
  - lra.
Qed.

(** X9.  For a route of positive distance, weights that are not negative
    and an aircraft (if one is given) whose consumption rate is not negative
    and whose fuel capacity is positive, the fitness score is not negative:
    every penalty that enters it is zero or more. *)
Theorem fitness_score_not_negative (h : heap) (self : Route.t)
    (aircraft : option Aircraft.t) (weather_weight distance_weight : Q) :
  0 < Route.distance self ->
  0 <= weather_weight -> 0 <= distance_weight ->
  match aircraft with
  | Some aircraft =>
    0 <= Aircraft.fuel_consumption_rate_kg_hr aircraft
    /\ 0 < Aircraft.fuel_capacity_liters aircraft
  | None => True
  end ->
  exists score,
    Route.calculate_fitness_score h self aircraft weather_weight distance_weight
    = (Return score, Route.set_fitness_score score self)
    /\ 0 <= score.
Proof.
  intros Hd Hww Hdw Hair. unfold Route.calculate_fitness_score.
  assert (Hpos : Qle_bool (Route.distance self) 0 = false).
  { destruct (Qle_bool _ _) eqn:E; [|reflexivity]. apply Qle_bool_iff in E. lra. }
  rewrite Hpos.
  assert (Hfallback : 0 <= Route.distance self / 1000) by (apply Qdiv_nonneg; lra).
  destruct (Route.weather_data self) as [|s0 rest]; [eexists; split; [reflexivity | exact Hfallback]|].
  destruct (length _ <? 2)%nat; [eexists; split; [reflexivity | exact Hfallback]|].
  destruct (weather_fitness_not_negative self aircraft weather_weight distance_weight
              (map snd (s0 :: rest))) as (score & -> & Hscore); try assumption; try lra.
  { discriminate. }
  exists score. split; [reflexivity | exact Hscore].
Qed.

(** X10.  The average bearing of a route is a bearing: it lies in
    [0, 360), and it is zero on a route with fewer than two waypoints. *)
Theorem average_bearing_range (h : heap) (self : Route.t) :
  0 <= Route.average_bearing h self /\ Route.average_bearing h self < 360
  /\ ((length (Route.waypoints self) < 2)%nat -> Route.average_bearing h self = 0).
Proof.
  unfold Route.average_bearing.
  destruct (length (Route.waypoints self) <? 2)%nat eqn:Hlen.
  { split; [lra|]. split; [lra | reflexivity]. }
  apply Nat.ltb_ge in Hlen.
  set (bearings := map _ (Route.consecutive (Route.waypoints self))).
  assert (Hne : bearings <> []).
  { unfold bearings. destruct (Route.waypoints self) as [|a [|b l]]; simpl in *; [lia | lia | discriminate]. }
  destruct (Qsum_bounds 360 bearings) as [H0 Hm].
  { unfold bearings. intros x Hx. apply list_elem_of_fmap in Hx as ([a b] & -> & _).
    apply py_mod_bounds. reflexivity. }
  specialize (Hm Hne). pose proof (Qlen_pos bearings Hne) as Hpos.
  split; [apply Qle_shift_div_l; lra|].
  split; [apply Qlt_shift_div_r; lra | lia].
Qed.
End legs.

(** ** Distance and time after a PPO *)

Section ppo.
Context `{Library}.

Lemma ppo_prefix_loop_in_range {B : Type} (body : B -> ref -> ref -> B)
    (waypoints : list ref) (acc : B) (n : nat) :
  n = O \/ (n < length waypoints)%nat ->
  foldl (fun acc i =>
           obind acc (fun acc =>
           obind (py_index waypoints (Z.of_nat i)) (fun start =>
           obind (py_index waypoints (Z.of_nat i + 1)) (fun end_ =>
           Return (body acc start end_)))))
        (Return acc) (seq 0 n)
  = Return (foldl (fun acc '(a, b) => body acc a b) acc
              (take n (Route.consecutive waypoints))).
Proof.
  induction n as [|n IH]; intros Hn; [reflexivity|].
  assert (Hlt : (S n < length waypoints)%nat) by lia.
  rewrite seq_S, foldl_app, IH by lia. simpl.
  destruct (lookup_lt_is_Some_2 waypoints n) as [a Ha]; [lia|].
  destruct (lookup_lt_is_Some_2 waypoints (S n)) as [b Hb]; [lia|].
  rewrite py_index_nat, py_index_succ, Ha, Hb. simpl.
  rewrite (take_S_r _ _ (a, b)) by (rewrite lookup_consecutive, Ha, Hb; reflexivity).
  rewrite foldl_app. reflexivity.
Qed.

(** The loop runs through when the index is at most zero or below the
    number of waypoints; it has then gone over the first [ppo_index]
    segments. *)
Lemma ppo_prefix_in_range {B : Type} (body : B -> ref -> ref -> B)
    (waypoints : list ref) (ppo_index : Z) (acc : B) :
  (ppo_index <= 0 \/ ppo_index < Z.of_nat (length waypoints))%Z ->
  Route.ppo_prefix body waypoints ppo_index acc
  = Return (foldl (fun acc '(a, b) => body acc a b) acc
              (take (Z.to_nat ppo_index) (Route.consecutive waypoints))).
Proof.
  intros Hk. apply ppo_prefix_loop_in_range. lia.
Qed.

Lemma ppo_prefix_loop_raises_only {B : Type} (body : B -> ref -> ref -> B)
    (waypoints : list ref) (acc : B) (n : nat) :
  let r := foldl (fun acc i =>
                    obind acc (fun acc =>
                    obind (py_index waypoints (Z.of_nat i)) (fun start =>
                    obind (py_index waypoints (Z.of_nat i + 1)) (fun end_ =>
                    Return (body acc start end_)))))
                 (Return acc) (seq 0 n) in
  (exists acc', r = Return acc') \/ r = Raise IndexError.
Proof.
  induction n as [|n IH]; [left; by eexists|].
  cbn zeta in *. rewrite seq_S, foldl_app. simpl.
  destruct IH as [[acc' ->] | ->]; [|by right]. simpl.
  rewrite py_index_nat, py_index_succ.
  destruct (waypoints !! n); [|by right]. simpl.
  destruct (waypoints !! S n); [left; by eexists | by right].
Qed.

Lemma ppo_prefix_out_of_range {B : Type} (body : B -> ref -> ref -> B)
    (waypoints : list ref) (ppo_index : Z) (acc : B) :
  (0 < ppo_index)%Z -> (Z.of_nat (length waypoints) <= ppo_index)%Z ->
  Route.ppo_prefix body waypoints ppo_index acc = Raise IndexError.
Proof.
  intros Hpos Hge. unfold Route.ppo_prefix.
  destruct (Z.to_nat ppo_index) as [|n] eqn:Hn; [lia|].
  rewrite seq_S, foldl_app. simpl.
  destruct (ppo_prefix_loop_raises_only body waypoints acc n) as [[acc' ->] | ->];
    [|reflexivity].
  simpl. rewrite py_index_nat, py_index_succ.
  destruct (waypoints !! n); [|reflexivity]. simpl.
  rewrite (lookup_ge_None_2 waypoints (S n)) by lia. reflexivity.
Qed.

(** X11.  [calculate_distance_after_ppo] returns a distance exactly when
    [ppo_index] is an index of the route's waypoints (negative indices
    included); otherwise, and so on every route without waypoints, it raises
    [IndexError]. *)
Theorem distance_after_ppo_index_error (h : heap) (self : Route.t) (ppo_index : Z)
    (alt_waypoints : list ref) (new_destination : Airport.t) :
  match Route.calculate_distance_after_ppo h self ppo_index alt_waypoints new_destination with
  | Return _ => in_range (Route.waypoints self) ppo_index
  | Raise e => e = IndexError /\ ~ in_range (Route.waypoints self) ppo_index
  end.
Proof.
  unfold Route.calculate_distance_after_ppo.
  set (total := match Route.origin self with Some _ => _ | None => _ end).
  destruct (decide (ppo_index <= 0 \/ ppo_index < Z.of_nat (length (Route.waypoints self)))%Z)
    as [Hk|Hk].
  - rewrite ppo_prefix_in_range by exact Hk. cbn [obind].
    destruct (decide (in_range (Route.waypoints self) ppo_index)) as [Hin|Hout].
    + destruct (py_index_in_range _ _ Hin) as (x & -> & _). cbn [obind].
      destruct alt_waypoints as [|alt_first rest]; [exact Hin|].
      destruct (last (alt_first :: rest)); exact Hin.
    + rewrite py_index_out_of_range by exact Hout. split; [reflexivity | exact Hout].
  - rewrite ppo_prefix_out_of_range by lia. split; [reflexivity|].
    unfold in_range. lia.
Qed.

(** X12.  [calculate_time_after_ppo] without an aircraft returns zero
    without looking at the index; with an aircraft it returns a time exactly
    when [ppo_index] is an index of the route's waypoints, and raises
    [IndexError] otherwise. *)
Theorem time_after_ppo_index_error (h : heap) (self : Route.t) (ppo_index : Z)
    (alt_waypoints : list ref) (new_destination : Airport.t)
    (aircraft : option Aircraft.t) :
  match aircraft with
  | None =>
    Route.calculate_time_after_ppo h self ppo_index alt_waypoints new_destination None
    = Return 0
  | Some _ =>
    match Route.calculate_time_after_ppo h self ppo_index alt_waypoints new_destination
            aircraft with
    | Return _ => in_range (Route.waypoints self) ppo_index
    | Raise e => e = IndexError /\ ~ in_range (Route.waypoints self) ppo_index
    end
  end.
Proof.
  destruct aircraft as [aircraft|]; [|reflexivity].
  unfold Route.calculate_time_after_ppo.
  set (segments := match Route.origin self with Some _ => _ | None => _ end).
  destruct (decide (ppo_index <= 0 \/ ppo_index < Z.of_nat (length (Route.waypoints self)))%Z)
    as [Hk|Hk].
  - rewrite ppo_prefix_in_range by exact Hk. cbn [obind].
    destruct (decide (in_range (Route.waypoints self) ppo_index)) as [Hin|Hout].
    + destruct (py_index_in_range _ _ Hin) as (x & -> & _). exact Hin.
    + rewrite py_index_out_of_range by exact Hout. split; [reflexivity | exact Hout].
  - rewrite ppo_prefix_out_of_range by lia. split; [reflexivity|].
    unfold in_range. lia.
Qed.


(** X14.  For an index from 0 on, and with an aircraft, the time after a
    PPO is the sum of the leg times that [calculate_leg_times] gives for the
    route ahead: the route with the same origin, the current waypoints up to
    the index followed by the alternates, and the new destination.  The two
    methods time the same legs in the same order. *)
Theorem time_after_ppo_is_time_ahead (h : heap) (self rerouted : Route.t)
    (ppo_index : Z) (alt_waypoints : list ref) (new_destination : Airport.t)
    (aircraft : Aircraft.t) :
  (0 <= ppo_index < Z.of_nat (length (Route.waypoints self)))%Z ->
  Route.origin rerouted = Route.origin self ->
  Route.waypoints rerouted = ahead self ppo_index alt_waypoints ->
  Route.destination rerouted = Some new_destination ->
  Route.calculate_time_after_ppo h self ppo_index alt_waypoints new_destination
    (Some aircraft)
  = Return (Qsum (fst (Route.calculate_leg_times h rerouted (Some aircraft)))).
Proof.
  intros Hk Ho Hw Hd.
  unfold Route.calculate_time_after_ppo, Route.calculate_leg_times.
  cbn [fst]. rewrite Ho, Hw, Hd. unfold ahead.
  set (n := Z.to_nat ppo_index).
  destruct (lookup_lt_is_Some_2 (Route.waypoints self) n) as [at_ppo Hat]; [lia|].
  rewrite ppo_prefix_in_range by lia. fold n. cbn [obind].
  rewrite (py_index_lookup _ _ at_ppo) by (first [lia | exact Hat]). cbn [obind].
  assert (Hpre : Route.consecutive (take n (Route.waypoints self) ++ [at_ppo])
                 = take n (Route.consecutive (Route.waypoints self))).
  { rewrite <- (take_S_r _ _ _ Hat). apply consecutive_take. }
  set (wp2 := fun '(a, b) => (Route.wp_point h a, Route.wp_point h b)).
  rewrite (foldl_snoc_map wp2) by (by intros acc [a b]).
  rewrite map_map.
  do 4 f_equal.
  assert (Hfirst : match Route.origin self,
                         take (S n) (Route.waypoints self) ++ alt_waypoints with
                   | Some o, w0 :: _ => [(Airport.point o, Route.wp_point h w0)]
                   | _, _ => []
                   end
                   = match Route.origin self, Route.waypoints self with
                     | Some o, w0 :: _ => [(Airport.point o, Route.wp_point h w0)]
                     | _, _ => []
                     end).
  { destruct (Route.origin self); [|reflexivity].
    destruct (Route.waypoints self) as [|w0 ws]; [done | reflexivity]. }
  rewrite Hfirst, (take_S_r _ _ _ Hat).
  set (first := match Route.origin self with Some _ => _ | None => _ end).
  set (f := fun '(start, end_) => _).
  match goal with
  | |- map f ?l = map ?g ?r => transitivity (map f r); [f_equal|]
  end.
  2:{ apply map_ext. intros [s e]. reflexivity. }
  destruct alt_waypoints as [|alt_first alts].
  - cbn [last]. rewrite app_nil_r, last_snoc, Hpre, <- app_assoc. reflexivity.
  - destruct (last (alt_first :: alts)) as [alt_last|] eqn:Hlast;
      [|by apply last_None in Hlast].
    rewrite (last_app_cons _ alts alt_first), Hlast.
    rewrite consecutive_app, Hpre, !map_app, <- !app_assoc. reflexivity.
Qed.
End ppo.

(** *** The properties of the cost model on the sample route *)


Lemma estimated_time_ignores_other_weather_witness :
  ~ Route.distance route_R1_windy == 0
  /\ ~ Aircraft.cruise_speed_kmh jet == 0
  /\ fst (@Route.calculate_estimated_time sample_library sample_store route_R1_windy
             (Some jet))
     = Return (Some (1800 / 900 + 0.5)).
Proof.
  split; [discriminate|]. split; [discriminate|].
  rewrite (@estimated_time_ignores_other_weather sample_library sample_store
             route_R1_windy jet); [reflexivity | discriminate | discriminate |].
  intros key sample Hin.
  apply elem_of_cons in Hin as [[= -> ->]|Hin]; [reflexivity|].
  apply elem_of_cons in Hin as [[= -> ->]|Hin]; [reflexivity|].
  by apply elem_of_nil in Hin.
Defined.

Lemma fuel_without_segment_weather_witness :
  ~ Aircraft.cruise_speed_kmh jet == 0
  /\ weather_lookup (Route.waypoint_key 0) [("origin"%string, gale)] = None
  /\ weather_lookup (Route.waypoint_key 1) [("origin"%string, gale)] = None
  /\ exists fuel,
       fst (@Route.calculate_fuel_consumption sample_library sample_store
              (Route.set_distance 1800 route_R1) (Some jet) [("origin"%string, gale)])
       = Return fuel
       /\ fuel == 3000.
Proof.
  split; [discriminate|]. split; [reflexivity|]. split; [reflexivity|].
  destruct (@fuel_without_segment_weather sample_library sample_store
              (Route.set_distance 1800 route_R1) jet [("origin"%string, gale)])
    as (fuel & Hrun & Hfuel).
  - discriminate.
  - intros i Hi. destruct i as [|[|i]]; [reflexivity | reflexivity | simpl in Hi; lia].
  - exists fuel. split; [rewrite Hrun; reflexivity|].
    eapply Qeq_trans; [exact Hfuel | reflexivity].
Defined.

Lemma fitness_score_returns_witness :
  ~ Aircraft.fuel_capacity_liters jet == 0
  /\ exists score,
       fst (@Route.calculate_fitness_score sample_library sample_store route_R1_windy
              (Some jet) 0.6 0.4) = Return score.
Proof.
  split; [discriminate|].
  destruct (@fitness_score_returns sample_library sample_store route_R1_windy
              (Some jet) 0.6 0.4) as (score & Hrun); [discriminate|].
  exists score. rewrite Hrun. reflexivity.
Defined.

Lemma fitness_score_not_negative_witness :
  0 < Route.distance route_R1_windy
  /\ 0 <= Aircraft.fuel_consumption_rate_kg_hr jet
  /\ 0 < Aircraft.fuel_capacity_liters jet
  /\ exists score,
       fst (@Route.calculate_fitness_score sample_library sample_store route_R1_windy
              (Some jet) 0.6 0.4) = Return score
       /\ 0 <= score.
Proof.
  split; [reflexivity|]. split; [discriminate|]. split; [reflexivity|].
  destruct (@fitness_score_not_negative sample_library sample_store route_R1_windy
              (Some jet) 0.6 0.4) as (score & Hrun & Hscore);
    [reflexivity | discriminate | discriminate | split; [discriminate | reflexivity] |].
  exists score. split; [rewrite Hrun; reflexivity | exact Hscore].
Defined.


Lemma time_after_ppo_is_time_ahead_witness :
  (0 <= 1 < Z.of_nat (length (Route.waypoints route_R1)))%Z
  /\ Route.waypoints route_R1_ahead = ahead route_R1 1 [4; 5]%nat
  /\ @Route.calculate_time_after_ppo sample_library (store wide_world) route_R1 1
       [4; 5]%nat airport_B (Some jet)
     = Return (Qsum (fst (@Route.calculate_leg_times sample_library (store wide_world)
                            route_R1_ahead (Some jet)))).
Proof.
  split; [simpl; lia|]. split; [reflexivity|].
  apply (@time_after_ppo_is_time_ahead sample_library (store wide_world)
           route_R1 route_R1_ahead 1 [4; 5]%nat airport_B jet);
    [simpl; lia | reflexivity | reflexivity | reflexivity].
Defined.

(** ** The rerouter: choosing where to join *)

Lemma enumerate_snoc {A : Type} (l : list A) (x : A) :
  enumerate (l ++ [x]) = enumerate l ++ [(length l, x)].
Proof.
  unfold enumerate. rewrite imap_app. simpl. rewrite Nat.add_0_r. reflexivity.
Qed.

(** *** Sorting by a key *)

Lemma insert_by_sorted {A : Type} (key : A -> Q) (x : A) (l : list A) :
  StronglySorted (fun a b => key a <= key b) l ->
  StronglySorted (fun a b => key a <= key b) (insert_by key x l).
Proof.
  induction l as [|y l IH]; intros Hs; simpl.
  - constructor; [constructor | constructor].
  - apply StronglySorted_inv in Hs as [Hs Hy].
    destruct (Qle_bool (key x) (key y)) eqn:E.
    + apply Qle_bool_iff in E. constructor; [by constructor|].
      constructor; [exact E|]. eapply Forall_impl; [exact Hy|].
      intros z Hz. simpl in Hz. eapply Qle_trans; eassumption.
    + constructor; [by apply IH|].
      apply Forall_forall. intros z Hz. apply insert_by_elem in Hz as [-> | Hz].
      * destruct (Qlt_le_dec (key y) (key x)) as [Hlt|Hle]; [by apply Qlt_le_weak|].
        apply Qle_bool_iff in Hle. congruence.
      * rewrite Forall_forall in Hy. by apply Hy.
Qed.

Lemma sort_by_sorted {A : Type} (key : A -> Q) (l : list A) :
  StronglySorted (fun a b => key a <= key b) (sort_by key l).
Proof.
  induction l as [|x l IH]; simpl; [constructor|]. by apply insert_by_sorted.
Qed.

Lemma sorted_ascending {A : Type} (key : A -> Q) (l : list A) :
  StronglySorted (fun a b => key a <= key b) l -> ascending key l.
Proof.
  induction 1 as [|a l Hs IH Ha]; intros i j x y Hij Hi Hj; [by destruct i|].
  destruct j as [|j]; [lia|]. simpl in Hj.
  destruct i as [|i]; simpl in Hi.
  - injection Hi as <-. rewrite Forall_forall in Ha. apply Ha.
    by eapply list_elem_of_lookup_2.
  - apply (IH i j); [lia | done | done].
Qed.

Lemma sort_by_ascending {A : Type} (key : A -> Q) (l : list A) :
  ascending key (sort_by key l).
Proof. apply sorted_ascending, sort_by_sorted. Qed.

Section choice.
Context `{Library}.

(** The search keeps, round by round, the first of the closest waypoints
    met so far. *)
Lemma nearest_closest (h : heap) (current_position : ref) (alt_waypoints : list ref) :
  closest h current_position alt_waypoints
    (PPORerouter.nearest h current_position alt_waypoints).
Proof.
  unfold PPORerouter.nearest.
  induction alt_waypoints as [|x l IH] using rev_ind; [reflexivity|].
  rewrite enumerate_snoc, foldl_app. simpl.
  set (best := foldl _ None (enumerate l)) in *.
  set (dist := fun wp =>
    calculate_distance (Route.wp_point h current_position) (Route.wp_point h wp)).
  assert (Hnew : closest h current_position (l ++ [x]) (Some (x, length l, dist x)) <->
                 forall j wp', l !! j = Some wp' -> dist x < dist wp').
  { unfold closest. fold dist. split.
    - intros (_ & _ & _ & Hlt) j wp' Hj. apply (Hlt j).
      + by eapply lookup_lt_Some.
      + by rewrite lookup_app_l by (by eapply lookup_lt_Some).
    - intros Hlt. split; [by rewrite list_lookup_middle|]. split; [reflexivity|].
      split.
      + intros j wp' Hj. apply lookup_app_Some in Hj as [Hj | [Hge Hj]].
        * apply Qlt_le_weak. by eapply Hlt.
        * apply list_lookup_singleton_Some in Hj as [_ <-]. apply Qle_refl.
      + intros j wp' Hji Hj. rewrite lookup_app_l in Hj by exact Hji. by eapply Hlt. }
  destruct best as [[[wp i] m]|].
  - destruct IH as (Hi & Hm & Hle & Hlt). fold dist in Hm, Hle, Hlt.
    fold (dist x).
    destruct (Qltb (dist x) m) eqn:E.
    + apply Hnew. intros j wp' Hj. apply Qltb_lt in E.
      eapply Qlt_le_trans; [exact E | by eapply Hle].
    + unfold closest. fold dist.
      assert (Hmx : m <= dist x).
      { unfold Qltb in E. apply negb_false_iff in E. by apply Qle_bool_iff. }
      split; [rewrite lookup_app_l; [exact Hi | by eapply lookup_lt_Some]|].
      split; [exact Hm|]. split.
      * intros j wp' Hj. apply lookup_app_Some in Hj as [Hj | [Hge Hj]].
        -- by eapply Hle.
        -- apply list_lookup_singleton_Some in Hj as [_ <-]. exact Hmx.
      * intros j wp' Hji Hj.
        rewrite lookup_app_l in Hj by (apply lookup_lt_Some in Hi; lia).
        by eapply Hlt.
  - simpl in IH. subst l. apply Hnew. intros j wp' Hj. by destruct j.
Qed.

(** X15.  The search for the nearest waypoint of an alternative finds
    nothing only on a route without waypoints; otherwise it returns a
    waypoint of the route with its index and its distance to the current
    position, no waypoint of the route is closer, and every earlier one is
    strictly farther: among equally close waypoints the first wins. *)
Theorem nearest_is_closest (h : heap) (current_position : ref) (alt_waypoints : list ref) :
  let dist := fun wp =>
    calculate_distance (Route.wp_point h current_position) (Route.wp_point h wp) in
  match PPORerouter.nearest h current_position alt_waypoints with
  | None => alt_waypoints = []
  | Some (nearest_wp, nearest_index, min_distance) =>
    alt_waypoints !! nearest_index = Some nearest_wp
    /\ min_distance = dist nearest_wp
    /\ (forall wp, wp ∈ alt_waypoints -> min_distance <= dist wp)
    /\ (forall j wp, (j < nearest_index)%nat -> alt_waypoints !! j = Some wp ->
                     min_distance < dist wp)
  end.
Proof.
  intros dist. pose proof (nearest_closest h current_position alt_waypoints) as Hc.
  destruct (PPORerouter.nearest h current_position alt_waypoints) as [[[wp i] d]|];
    [|exact Hc].
  destruct Hc as (Hi & Hd & Hle & Hlt). split; [exact Hi|]. split; [exact Hd|].
  split; [|exact Hlt].
  intros wp' Hin. apply list_elem_of_lookup in Hin as [j Hj]. by eapply Hle.
Qed.

(** X16.  The candidates that [evaluate_alternatives] returns are in
    ascending order of their score, so the first one, which [reroute] takes,
    has the lowest score of all. *)
Theorem evaluate_alternatives_ascending (self : PPORerouter.t) (current_route : Route.t)
    (blocked_waypoint current_position : ref) (alternative_routes : list Route.t)
    (w w' : World) (scores : list PPORerouter.Score) :
  PPORerouter.evaluate_alternatives self current_route blocked_waypoint current_position
    alternative_routes w = (Return scores, w') ->
  ascending PPORerouter.score scores
  /\ forall best e, head scores = Some best -> e ∈ scores ->
        PPORerouter.score best <= PPORerouter.score e.
Proof.
  unfold PPORerouter.evaluate_alternatives.
  unfold mbind, py_mbind, py_bind, mret, py_mret, py_ret.
  destruct (PPORerouter.evaluate_loop _ _ _ _ _ _ _) as [[found|e] w1] eqn:Hloop;
    [|discriminate].
  intros [= <- <-].
  pose proof (sort_by_ascending PPORerouter.score found) as Hasc.
  split; [exact Hasc|].
  intros best e Hhead He. apply list_elem_of_lookup in He as [j Hj].
  destruct j as [|j].
  - rewrite <- head_lookup in Hj. rewrite Hhead in Hj. injection Hj as <-. apply Qle_refl.
  - apply (Hasc O (S j)); [lia | by rewrite <- head_lookup | exact Hj].
Qed.


(** *** When every alternative is skipped *)

Lemma evaluate_loop_all_skipped (self : PPORerouter.t) (current_route : Route.t)
    (blocked_waypoint current_position : ref) (alternative_routes : list Route.t) :
  Forall (fun alt_route => PPORerouter.skipped self alt_route = true) alternative_routes ->
  forall scores w,
    PPORerouter.evaluate_loop self current_route blocked_waypoint current_position
      alternative_routes scores w = (Return scores, w).
Proof.
  induction 1 as [|alt rest Hsk _ IH]; intros scores w; [reflexivity|].
  simpl. unfold mbind, py_mbind, py_bind.
  rewrite (evaluate_one_skipped _ _ _ _ _ _ Hsk). apply IH.
Qed.

Lemma reroute_targets_all_skipped (self : PPORerouter.t) (h : heap) (current_position : ref)
    (alternative_routes : list Route.t) :
  Forall (fun alt_route => PPORerouter.skipped self alt_route = true) alternative_routes ->
  PPORerouter.reroute_targets self h current_position alternative_routes = [].
Proof.
  unfold PPORerouter.reroute_targets.
  induction 1 as [|alt rest Hsk _ IH]; [reflexivity|]. simpl. rewrite Hsk. exact IH.
Qed.

Lemma choose_reroute_all_skipped (blocked_waypoint : ref) (current_route : Route.t)
    (alternative_routes : list Route.t) (current_position : ref) (s : PPORerouter.state) :
  Forall (fun alt_route => PPORerouter.skipped (PPORerouter.self_ s) alt_route = true)
         alternative_routes ->
  PPORerouter.choose_reroute blocked_waypoint current_route alternative_routes
    current_position s = (Return None, s).
Proof.
  intros Hsk. unfold PPORerouter.choose_reroute.
  unfold mbind, mret, py_mbind, py_mret, py_bind at 1, py_gets at 1, py_ret.
  assert (Htargets : forall h, sort_by PPORerouter.t_distance
                        (PPORerouter.reroute_targets (PPORerouter.self_ s) h
                           current_position alternative_routes) = []).
  { intros h. rewrite (reroute_targets_all_skipped _ _ _ _ Hsk). reflexivity. }
  assert (Heval : forall w, PPORerouter.evaluate_alternatives (PPORerouter.self_ s)
                    current_route blocked_waypoint current_position alternative_routes w
                  = (Return [], w)).
  { intros w. unfold PPORerouter.evaluate_alternatives, mbind, py_mbind, py_bind.
    rewrite (evaluate_loop_all_skipped _ _ _ _ _ Hsk). reflexivity. }
  destruct (PPORerouter.consider_fuel (PPORerouter.self_ s)),
    (PPORerouter.weather_service (PPORerouter.self_ s)),
    (PPORerouter.aircraft (PPORerouter.self_ s));
    unfold py_bind, PPORerouter.in_world, py_gets;
    first [rewrite Heval | rewrite Htargets]; by destruct s.
Qed.

(** X18.  When [reroute] is called without a position, on a blocked
    waypoint that is in the route after the first place, and every
    alternative is skipped, it returns [None], and yet it has changed an
    object of the current route: the waypoint before the blocked one has
    status ACTIVE.  The status is assigned before the alternatives are looked
    at, and nothing takes it back. *)
Theorem reroute_failure_keeps_active_mark (blocked_waypoint : ref)
    (current_route : Route.t) (alternative_routes : list Route.t)
    (s : PPORerouter.state) (before : nat) :
  alternative_routes <> [] ->
  index_of (store (PPORerouter.world s)) blocked_waypoint (Route.waypoints current_route)
  = Some (S before) ->
  Forall (fun alt_route =>
            PPORerouter.skipped
              (PPORerouter.reset_used_route_types current_route (PPORerouter.self_ s))
              alt_route = true) alternative_routes ->
  PPORerouter.reroute (Some blocked_waypoint) (Some current_route) alternative_routes None s
  = (Return None,
     PPORerouter.mkState
       (PPORerouter.reset_used_route_types current_route (PPORerouter.self_ s))
       (set_store (mutate (Waypoint.set_status ACTIVE)
                     (Route.waypoints current_route !!! before)
                     (store (PPORerouter.world s)))
          (PPORerouter.world s))).
Proof.
  intros Hne Hidx Hskip. unfold PPORerouter.reroute, PPORerouter.resolve_position.
  destruct alternative_routes as [|alt rest]; [done|].
  unfold mbind, mret, py_mbind, py_mret, py_bind, py_ret, PPORerouter.update_self,
    py_modify, PPORerouter.in_world, py_gets, setattr.
  cbn [PPORerouter.world PPORerouter.self_]. rewrite Hidx.
  cbn [PPORerouter.world PPORerouter.self_].
  apply choose_reroute_all_skipped. exact Hskip.
Qed.
End choice.

(** ** The rerouter: what the spliced route is made of *)

Lemma deref_lookup (l : heap) (j : nat) (v : Waypoint.t) :
  l !! j = Some v -> deref l j = v.
Proof. intros Hv. unfold deref. by apply list_lookup_total_correct. Qed.

(** The loop over the initial part allocates one copy per waypoint, with
    the orders from [i + 1] on. *)
Lemma copy_initial_copies (l : list ref) :
  forall (i : nat) (w : World),
  exists added,
    length added = length l
    /\ PPORerouter.copy_initial i l w
       = (Return (seq (length (store w)) (length l)),
          mkWorld (store w ++ added) (uuid_pool w) (uuid_drawn w))
    /\ forall j x v, l !! j = Some x -> added !! j = Some v ->
         Waypoint.order v = Z.of_nat (S (i + j))
         /\ ((x < length (store w))%nat -> v = initial_copy (S (i + j)) (deref (store w) x)).
Proof.
  induction l as [|x l IH]; intros i w.
  - exists []. split; [done|]. split; [|intros j x v Hj; by destruct j].
    simpl. world_unfold. rewrite app_nil_r. by destruct w.
  - simpl. world_unfold. simpl. rewrite alter_snoc.
    edestruct (IH (S i)) as (added & Hlen & Hrun & Hadded). rewrite Hrun. clear Hrun. simpl.
    rewrite length_app. simpl. rewrite Nat.add_1_r.
    eexists (_ :: added). split; [simpl; by rewrite Hlen|].
    split; [rewrite <- app_assoc; reflexivity|].
    intros [|j] y v Hy Hv; simpl in Hy, Hv.
    + injection Hy as <-. injection Hv as <-. rewrite Nat.add_0_r.
      split; [simpl; lia|]. intros _. unfold initial_copy. f_equal. lia.
    + destruct (Hadded j y v Hy Hv) as [Ho Hc]. cbn [store] in Hc.
      rewrite Nat.add_succ_r. split; [exact Ho|].
      intros Hvalid. rewrite Hc by (rewrite length_app; lia).
      rewrite deref_prefix by exact Hvalid. reflexivity.
Qed.

(** The loop over the alternative part allocates one copy per waypoint,
    with the next identifiers of [uuid4] and the orders from
    [next_order + i] on. *)
Lemma copy_alt_copies (next_order : nat) (l : list ref) :
  forall (i : nat) (w : World),
  exists added,
    length added = length l
    /\ PPORerouter.copy_alt next_order i l w
       = (Return (seq (length (store w)) (length l)),
          mkWorld (store w ++ added) (uuid_pool w) (uuid_drawn w + length l))
    /\ forall j x v, l !! j = Some x -> added !! j = Some v ->
         Waypoint.order v = Z.of_nat (next_order + i + j)
         /\ Waypoint.id v = uuid_pool w (uuid_drawn w + j)
         /\ ((x < length (store w))%nat ->
             v = alt_copy (uuid_pool w (uuid_drawn w + j)) (next_order + i + j)
                   (deref (store w) x)).
Proof.
  induction l as [|x l IH]; intros i w.
  - exists []. split; [done|]. split; [|intros j x v Hj; by destruct j].
    simpl. world_unfold. rewrite app_nil_r, Nat.add_0_r. by destruct w.
  - simpl. world_unfold. simpl. rewrite !alter_snoc.
    edestruct (IH (S i)) as (added & Hlen & Hrun & Hadded). rewrite Hrun. clear Hrun. simpl.
    rewrite length_app. simpl. rewrite Nat.add_1_r.
    eexists (_ :: added). split; [simpl; by rewrite Hlen|].
    split; [rewrite <- app_assoc; simpl; do 2 f_equal; lia|].
    intros [|j] y v Hy Hv; simpl in Hy, Hv.
    + injection Hy as <-. injection Hv as <-. rewrite !Nat.add_0_r.
      split; [reflexivity|]. split; [reflexivity|].
      intros Hvalid. unfold alt_copy. do 2 f_equal.
      rewrite deref_app. rewrite decide_True by exact Hvalid. reflexivity.
    + destruct (Hadded j y v Hy Hv) as (Ho & Hid & Hc). cbn [store uuid_pool uuid_drawn] in *.
      replace (next_order + i + S j)%nat with (next_order + S i + j)%nat by lia.
      replace (uuid_drawn w + S j)%nat with (S (uuid_drawn w) + j)%nat by lia.
      split; [exact Ho|]. split; [exact Hid|].
      intros Hvalid. rewrite Hc by (rewrite length_app; lia).
      rewrite deref_prefix by exact Hvalid. reflexivity.
Qed.

(** The two parts of the splice are taken from the two routes. *)
Lemma split_paths_elem `{Library} (h : heap) (current_route alternative_route : Route.t)
    (blocked_waypoint current_position : ref) (target_index : Z) (wi wa : list ref) :
  PPORerouter.split_paths h current_route alternative_route blocked_waypoint
    current_position target_index = (wi, wa) ->
  (forall x, x ∈ wi -> x ∈ Route.waypoints current_route)
  /\ (forall x, x ∈ wa ->
        x ∈ Route.waypoints current_route \/ x ∈ Route.waypoints alternative_route).
Proof.
  unfold PPORerouter.split_paths.
  destruct (PPORerouter.locate _ _ _ _) as [cpi bi].
  destruct (_ && _); intros [= <- <-]; unfold slice_to, slice_from; split; intros x Hx.
  - by eapply subseteq_take.
  - right. by eapply subseteq_drop.
  - by eapply subseteq_take.
  - left. by eapply subseteq_drop.
Qed.

(** The objects of the spliced route, as [create_rerouted_path_copies]
    lays them out. *)
Lemma rerouted_object (h add1 add2 : heap) (d_obj : Waypoint.t) (j : nat) :
  deref ((h ++ add1 ++ add2) ++ [d_obj]) (length h + j)
  = if decide (j < length add1)%nat then deref add1 j
    else if decide (j < length add1 + length add2)%nat then deref add2 (j - length add1)
    else deref [d_obj] (j - length add1 - length add2).
Proof.
  rewrite <- !app_assoc. rewrite deref_app. rewrite decide_False by lia.
  replace (length h + j - length h)%nat with j by lia.
  rewrite deref_app. destruct (decide (j < length add1)%nat) as [H1|H1]; [reflexivity|].
  rewrite deref_app. destruct (decide (j - length add1 < length add2)%nat) as [H2|H2].
  - rewrite decide_True by lia. reflexivity.
  - rewrite decide_False by lia. f_equal.
Qed.

Section labels.
Context `{Library}.

Lemma total_distance_same_labels (h : heap) (r : Route.t) :
  same_labels r (snd (Route.calculate_total_distance h r)).
Proof. repeat split. Qed.

Lemma fitness_score_same_labels (h : heap) (r : Route.t) (a : option Aircraft.t) (ww dw : Q) :
  same_labels r (snd (Route.calculate_fitness_score h r a ww dw)).
Proof.
  unfold Route.calculate_fitness_score.
  destruct (Qle_bool (Route.distance r) 0); cbn;
    repeat match goal with
           | |- context [match ?x with _ => _ end] => destruct x
           end; repeat split.
Qed.

Lemma fuel_consumption_same_labels (h : heap) (r : Route.t) (a : option Aircraft.t)
    (wd : WeatherData) :
  same_labels r (snd (Route.calculate_fuel_consumption h r a wd)).
Proof.
  unfold Route.calculate_fuel_consumption. destruct a; [|repeat split].
  destruct (py_div _ _); repeat split.
Qed.

Lemma estimated_time_same_labels (h : heap) (r : Route.t) (a : option Aircraft.t) :
  same_labels r (snd (Route.calculate_estimated_time h r a)).
Proof.
  unfold Route.calculate_estimated_time. destruct a; [|repeat split].
  destruct (negb _); [repeat split|]. destruct (py_div _ _); repeat split.
Qed.

Lemma same_labels_trans (r1 r2 r3 : Route.t) :
  same_labels r1 r2 -> same_labels r2 r3 -> same_labels r1 r3.
Proof. unfold same_labels. intuition congruence. Qed.

(** The labels of the route that [build_route] returns are those it is
    constructed with. *)
Lemma build_route_labels (self : PPORerouter.t) (current_route : Route.t)
    (blocked_waypoint : ref) (alternative_route : Route.t) (combined : list ref)
    (w w' : World) (r : Route.t) :
  PPORerouter.build_route self current_route blocked_waypoint alternative_route combined w
  = (Return r, w') ->
  same_labels
    (Route.set_reroute_history
       (Some (PPORerouter.extend_history current_route
                (Waypoint.name (deref (store w) blocked_waypoint),
                 Route.path_type alternative_route)))
       (Route.init (uuid_pool w (uuid_drawn w)) ("Rerouted_" +:+ Route.name current_route)
          (Route.origin current_route) (Route.destination current_route) combined
          ("rerouted_" +:+ Route.path_type alternative_route) "ppo" 0 0))
    r.
Proof.
  unfold PPORerouter.build_route. intros Hrun.
  unfold mbind, py_mbind, py_bind at 1, getattr, py_gets in Hrun.
  unfold py_bind at 1, uuid4 in Hrun.
  unfold py_bind at 1 in Hrun. cbn [store uuid_pool uuid_drawn] in Hrun.
  set (base := Route.set_reroute_history _ _) in *.
  set (r0 := match Route.weather_data current_route with | [] => _ | _ :: _ => _ end) in Hrun.
  assert (H0 : same_labels base r0).
  { subst r0. destruct (Route.weather_data current_route), (Route.weather_data alternative_route);
      repeat split. }
  clearbody r0.
  pose proof (total_distance_same_labels (store w) r0) as P1.
  destruct (Route.calculate_total_distance (store w) r0) as [d r1]. simpl in P1.
  unfold py_bind at 1, call at 1 in Hrun.
  pose proof (fitness_score_same_labels (store w) r1 None 0.6 0.4) as P2.
  destruct (Route.calculate_fitness_score (store w) r1 None 0.6 0.4) as [[f|e] r2];
    [|discriminate]. simpl in P2.
  set (r3 := if opt_truthy _ then _ else _) in Hrun.
  assert (P3 : same_labels r2 r3).
  { subst r3. destruct (opt_truthy _); repeat split. }
  clearbody r3.
  assert (H3 : same_labels base r3).
  { eapply same_labels_trans; [|exact P3]. eapply same_labels_trans; [|exact P2].
    eapply same_labels_trans; [exact H0 | exact P1]. }
  assert (Hdefault :
            ((if negb (opt_truthy (Route.estimated_time r3))
              then mret (Route.set_estimated_time (Some (Route.distance r3 / 900 + 0.5)) r3)
              else mret r3) : Py World Route.t) {| store := store w; uuid_pool := uuid_pool w;
                              uuid_drawn := S (uuid_drawn w) |} = (Return r, w') ->
            same_labels base r).
  { destruct (negb _); intros [= <- <-]; [|exact H3].
    eapply same_labels_trans; [exact H3 | repeat split]. }
  destruct (PPORerouter.aircraft self) as [ac|]; [|exact (Hdefault Hrun)].
  destruct (Route.weather_data r3) as [|x l] eqn:Hwd; [exact (Hdefault Hrun)|].
  unfold py_bind at 1, call at 1 in Hrun.
  pose proof (fuel_consumption_same_labels (store w) r3 (Some ac) (x :: l)) as P4.
  destruct (Route.calculate_fuel_consumption (store w) r3 (Some ac) (x :: l)) as [[fuel|e] r4];
    [|discriminate]. simpl in P4.
  unfold py_bind at 1, call at 1 in Hrun.
  pose proof (estimated_time_same_labels (store w) (Route.set_fuel_consumption fuel r4) (Some ac)) as P5.
  destruct (Route.calculate_estimated_time (store w) (Route.set_fuel_consumption fuel r4) (Some ac))
    as [[t|e] r5]; [|discriminate]. simpl in P5.
  injection Hrun as <- <-.
  eapply same_labels_trans; [exact H3|]. eapply same_labels_trans; [exact P4|].
  eapply same_labels_trans; [|eapply same_labels_trans; [exact P5|]]; repeat split.
Qed.

(** A successful run of [_create_rerouted_path] ends in a successful run
    of the construction of the route. *)
Lemma create_rerouted_path_builds (self : PPORerouter.t)
    (current_route : Route.t) (blocked_waypoint current_position : ref)
    (alternative_route : Route.t) (target_waypoint : ref) (target_index : Z)
    (w w' : World) (r : Route.t) :
  PPORerouter._create_rerouted_path self current_route blocked_waypoint current_position
    alternative_route target_waypoint target_index w = (Return r, w') ->
  exists combined w3,
    PPORerouter.build_route self current_route blocked_waypoint alternative_route
      combined w3 = (Return r, w')
    /\ uuid_pool w3 = uuid_pool w
    /\ (uuid_drawn w <= uuid_drawn w3)%nat.
Proof.
  unfold PPORerouter._create_rerouted_path. intros Hrun.
  unfold mbind, py_mbind, py_bind at 1, py_gets at 1 in Hrun.
  destruct (PPORerouter.split_paths _ _ _ _ _ _) as [wi wa] eqn:Hsplit.
  unfold py_bind at 1 in Hrun.
  destruct (copy_initial_run wi 0 w) as (add1 & Hl1 & Hrun1). rewrite Hrun1 in Hrun.
  unfold py_bind at 1 in Hrun.
  edestruct (copy_alt_run (S (length (seq (length (store w)) (length wi)))) wa 0)
    as (add2 & Hl2 & Hrun2).
  rewrite Hrun2 in Hrun. clear Hrun1 Hrun2. cbn [store uuid_pool uuid_drawn] in Hrun.
  unfold py_bind at 1 in Hrun.
  set (w2 := mkWorld _ _ _) in Hrun.
  set (combined := _ ++ _) in Hrun.
  pose proof (ensure_destination_run current_route combined w2) as Hens.
  destruct (last (Route.waypoints current_route)) as [final|] eqn:Hlast;
    [|rewrite Hens in Hrun; discriminate].
  cbv zeta in Hens.
  destruct (PPORerouter.is_destination_included _ combined _) eqn:Hinc.
  - rewrite Hens in Hrun. eexists _, _. split; [exact Hrun|]. simpl. split; [reflexivity | lia].
  - destruct Hens as [new_name Hens]. rewrite Hens in Hrun.
    eexists _, _. split; [exact Hrun|]. simpl. split; [reflexivity | lia].
Qed.

(** A successful run of [_create_rerouted_path], object by object: the
    store gains the copies of the initial part, then those of the alternative
    part, then the copy of the last waypoint; the route refers to the first
    two groups, and to the last copy when the route did not end there. *)
Lemma create_rerouted_path_copies (self : PPORerouter.t)
    (current_route : Route.t) (blocked_waypoint current_position : ref)
    (alternative_route : Route.t) (target_waypoint : ref) (target_index : Z)
    (w w' : World) (r : Route.t) :
  PPORerouter._create_rerouted_path self current_route blocked_waypoint current_position
    alternative_route target_waypoint target_index w = (Return r, w') ->
  exists wi wa add1 add2 d_obj,
    PPORerouter.split_paths (store w) current_route alternative_route
      blocked_waypoint current_position target_index = (wi, wa)
    /\ store w' = (store w ++ add1 ++ add2) ++ [d_obj]
    /\ length add1 = length wi /\ length add2 = length wa
    /\ (forall j x v, wi !! j = Some x -> add1 !! j = Some v ->
          Waypoint.order v = Z.of_nat (S j)
          /\ ((x < length (store w))%nat -> v = initial_copy (S j) (deref (store w) x)))
    /\ (forall j x v, wa !! j = Some x -> add2 !! j = Some v ->
          Waypoint.order v = Z.of_nat (S (length wi) + j)
          /\ Waypoint.id v = uuid_pool w (uuid_drawn w + j)
          /\ ((x < length (store w))%nat ->
              v = alt_copy (uuid_pool w (uuid_drawn w + j)) (S (length wi) + j)
                    (deref (store w) x)))
    /\ (Route.waypoints r = seq (length (store w)) (length wi + length wa)
        \/ Route.waypoints r
           = seq (length (store w)) (length wi + length wa)
             ++ [(length (store w) + (length wi + length wa))%nat]
           /\ Waypoint.order d_obj = Z.of_nat (S (length wi + length wa))
           /\ Waypoint.id d_obj = uuid_pool w (uuid_drawn w + length wa)).
Proof.
  unfold PPORerouter._create_rerouted_path. intros Hrun.
  unfold mbind, py_mbind, py_bind at 1, py_gets at 1 in Hrun.
  destruct (PPORerouter.split_paths _ _ _ _ _ _) as [wi wa] eqn:Hsplit.
  unfold py_bind at 1 in Hrun.
  destruct (copy_initial_copies wi 0 w) as (add1 & Hl1 & Hrun1 & Hadd1). rewrite Hrun1 in Hrun.
  unfold py_bind at 1 in Hrun.
  edestruct (copy_alt_copies (S (length (seq (length (store w)) (length wi)))) wa 0)
    as (add2 & Hl2 & Hrun2 & Hadd2).
  rewrite Hrun2 in Hrun. clear Hrun1 Hrun2. cbn [store uuid_pool uuid_drawn] in Hrun, Hadd2.
  unfold py_bind at 1 in Hrun.
  set (w2 := mkWorld _ _ _) in Hrun.
  set (combined := seq (length (store w)) (length wi) ++ seq (length (store w ++ add1)) (length wa)) in Hrun.
  assert (Hcomb : combined = seq (length (store w)) (length wi + length wa)).
  { subst combined. rewrite length_app, Hl1. symmetry. apply seq_app. }
  assert (Hclen : length combined = (length wi + length wa)%nat).
  { rewrite Hcomb. apply length_seq. }
  pose proof (ensure_destination_run current_route combined w2) as Hens.
  destruct (last (Route.waypoints current_route)) as [final|] eqn:Hlast;
    [|rewrite Hens in Hrun; discriminate].
  cbv zeta in Hens.
  assert (Hlen2 : length (store w2) = (length (store w) + (length wi + length wa))%nat).
  { subst w2. simpl. rewrite !length_app, Hl1, Hl2. lia. }
  assert (Hst2 : store w2 = store w ++ add1 ++ add2).
  { subst w2. simpl. by rewrite <- app_assoc. }
  assert (H1 : forall j x v, wi !! j = Some x -> add1 !! j = Some v ->
             Waypoint.order v = Z.of_nat (S j)
             /\ ((x < length (store w))%nat -> v = initial_copy (S j) (deref (store w) x))).
  { intros j x v Hx Hv. exact (Hadd1 j x v Hx Hv). }
  assert (H2 : forall j x v, wa !! j = Some x -> add2 !! j = Some v ->
             Waypoint.order v = Z.of_nat (S (length wi) + j)
             /\ Waypoint.id v = uuid_pool w (uuid_drawn w + j)
             /\ ((x < length (store w))%nat ->
                 v = alt_copy (uuid_pool w (uuid_drawn w + j)) (S (length wi) + j)
                       (deref (store w) x))).
  { intros j x v Hx Hv. destruct (Hadd2 j x v Hx Hv) as (Ho & Hid & Hc).
    rewrite length_seq, Nat.add_0_r in Ho, Hc.
    split; [exact Ho|]. split; [exact Hid|]. intros Hvalid.
    rewrite Hc by (rewrite length_app; lia). rewrite deref_prefix by exact Hvalid.
    reflexivity. }
  destruct (PPORerouter.is_destination_included _ combined _) eqn:Hinc.
  - rewrite Hens in Hrun. clear Hens.
    apply build_route_run in Hrun as (Hst & Hup & Hud & Hwps & _ & Hdest).
    cbn [store uuid_pool uuid_drawn] in Hst, Hup, Hud.
    eexists wi, wa, add1, add2, _. split; [reflexivity|].
    split; [rewrite Hst, Hst2; reflexivity|].
    split; [exact Hl1|]. split; [exact Hl2|]. split; [exact H1|]. split; [exact H2|].
    left. rewrite Hwps. exact Hcomb.
  - destruct Hens as [new_name Hens]. rewrite Hens in Hrun. clear Hens.
    apply build_route_run in Hrun as (Hst & Hup & Hud & Hwps & _ & Hdest).
    cbn [store uuid_pool uuid_drawn] in Hst, Hup, Hud.
    eexists wi, wa, add1, add2, _. split; [reflexivity|].
    split; [rewrite Hst, Hst2; reflexivity|].
    split; [exact Hl1|]. split; [exact Hl2|]. split; [exact H1|]. split; [exact H2|].
    right. rewrite Hwps, Hcomb, Hlen2. split; [reflexivity|].
    split; [simpl; rewrite ?Hclen, ?length_seq; reflexivity | reflexivity].
Qed.

(** X19.  The waypoints of a spliced route are objects of its own, created
    by the call and distinct from one another, and they are numbered in
    sequence: the waypoint at position [j] has order [j + 1].  The objects
    that existed before the call are left as they were. *)
Theorem rerouted_waypoints_renumbered (self : PPORerouter.t)
    (current_route : Route.t) (blocked_waypoint current_position : ref)
    (alternative_route : Route.t) (target_waypoint : ref) (target_index : Z)
    (w w' : World) (r : Route.t) :
  PPORerouter._create_rerouted_path self current_route blocked_waypoint current_position
    alternative_route target_waypoint target_index w = (Return r, w') ->
  store w `prefix_of` store w'
  /\ NoDup (Route.waypoints r)
  /\ forall j x, Route.waypoints r !! j = Some x ->
       (length (store w) <= x < length (store w'))%nat
       /\ Waypoint.order (deref (store w') x) = Z.of_nat (S j).
Proof.
  intros Hrun.
  destruct (create_rerouted_path_copies _ _ _ _ _ _ _ _ _ _ Hrun)
    as (wi & wa & add1 & add2 & d_obj & _ & Hst & Hl1 & Hl2 & H1 & H2 & Hwps).
  split; [rewrite Hst, <- !app_assoc; by eexists|].
  split.
  { destruct Hwps as [-> | [-> _]]; [apply NoDup_seq|].
    rewrite <- seq_S. apply NoDup_seq. }
  assert (Hbody : forall j, (j < length wi + length wa)%nat ->
            Waypoint.order (deref (store w') (length (store w) + j)) = Z.of_nat (S j)).
  { intros j Hj. rewrite Hst, rerouted_object.
    destruct (decide (j < length add1)%nat) as [Hj1|Hj1].
    - destruct (lookup_lt_is_Some_2 wi j) as [x Hx]; [lia|].
      destruct (lookup_lt_is_Some_2 add1 j) as [v Hv]; [lia|].
      rewrite (deref_lookup _ _ _ Hv). by destruct (H1 j x v Hx Hv).
    - rewrite decide_True by lia.
      destruct (lookup_lt_is_Some_2 wa (j - length add1)) as [x Hx]; [lia|].
      destruct (lookup_lt_is_Some_2 add2 (j - length add1)) as [v Hv]; [lia|].
      rewrite (deref_lookup _ _ _ Hv). destruct (H2 _ x v Hx Hv) as [-> _].
      f_equal. lia. }
  assert (Hlen : length (store w') = S (length (store w) + (length wi + length wa))).
  { rewrite Hst, !length_app. simpl. lia. }
  intros j x Hx.
  destruct Hwps as [Hwps | (Hwps & Ho & _)]; rewrite Hwps in Hx.
  - apply lookup_seq in Hx as [-> Hj]. split; [lia | by apply Hbody].
  - apply lookup_app_Some in Hx as [Hx | [Hge Hx]].
    + apply lookup_seq in Hx as [-> Hj]. split; [lia | by apply Hbody].
    + rewrite length_seq in Hge, Hx.
      apply list_lookup_singleton_Some in Hx as [Hj <-]. split; [lia|].
      rewrite Hst, rerouted_object, !decide_False by lia.
      replace (length wi + length wa - length add1 - length add2)%nat with O by lia.
      replace j with (length wi + length wa)%nat by lia.
      exact Ho.
Qed.

(** X20.  When the waypoints of the two routes are objects of the store,
    the spliced route consists of copies: first, of the waypoints of the
    initial part, each with its id, name, coordinates and status, and its new
    order; then, of the waypoints of the alternative part, each with its
    coordinates and status, the next id drawn from [uuid4], its new order and
    the name [WP{order}_{route_type}], where the route type is the last part
    of the name of the waypoint copied; and after them at most one more
    waypoint. *)
Theorem rerouted_waypoints_are_copies (self : PPORerouter.t)
    (current_route : Route.t) (blocked_waypoint current_position : ref)
    (alternative_route : Route.t) (target_waypoint : ref) (target_index : Z)
    (w w' : World) (r : Route.t) :
  (forall x, x ∈ Route.waypoints current_route ++ Route.waypoints alternative_route ->
             (x < length (store w))%nat) ->
  PPORerouter._create_rerouted_path self current_route blocked_waypoint current_position
    alternative_route target_waypoint target_index w = (Return r, w') ->
  let '(waypoints_initial, waypoints_alt) :=
    PPORerouter.split_paths (store w) current_route alternative_route
      blocked_waypoint current_position target_index in
  (forall j x, waypoints_initial !! j = Some x ->
     exists y, Route.waypoints r !! j = Some y
       /\ deref (store w') y = initial_copy (S j) (deref (store w) x))
  /\ (forall j x, waypoints_alt !! j = Some x ->
        exists y, Route.waypoints r !! (length waypoints_initial + j)%nat = Some y
          /\ deref (store w') y
             = alt_copy (uuid_pool w (uuid_drawn w + j))
                 (S (length waypoints_initial) + j) (deref (store w) x))
  /\ (length (Route.waypoints r)
      <= S (length waypoints_initial + length waypoints_alt))%nat.
Proof.
  intros Hvalid Hrun.
  destruct (create_rerouted_path_copies _ _ _ _ _ _ _ _ _ _ Hrun)
    as (wi & wa & add1 & add2 & d_obj & Hsplit & Hst & Hl1 & Hl2 & H1 & H2 & Hwps).
  rewrite Hsplit. destruct (split_paths_elem _ _ _ _ _ _ _ _ Hsplit) as [Hwi Hwa].
  assert (Hlook : forall j, (j < length wi + length wa)%nat ->
            Route.waypoints r !! j = Some (length (store w) + j)%nat).
  { intros j Hj. destruct Hwps as [-> | [-> _]].
    - by apply lookup_seq.
    - rewrite lookup_app_l by (by rewrite length_seq). by apply lookup_seq. }
  split; [|split].
  - intros j x Hx. pose proof (lookup_lt_Some _ _ _ Hx) as Hj.
    exists (length (store w) + j)%nat. split; [apply Hlook; lia|].
    rewrite Hst, rerouted_object, decide_True by lia.
    destruct (lookup_lt_is_Some_2 add1 j) as [v Hv]; [lia|].
    rewrite (deref_lookup _ _ _ Hv). destruct (H1 j x v Hx Hv) as [_ Hc].
    apply Hc, Hvalid. apply elem_of_app. left. apply Hwi. by eapply list_elem_of_lookup_2.
  - intros j x Hx. pose proof (lookup_lt_Some _ _ _ Hx) as Hj.
    exists (length (store w) + (length wi + j))%nat. split; [apply Hlook; lia|].
    rewrite Hst, rerouted_object, decide_False, decide_True by lia.
    replace (length wi + j - length add1)%nat with j by lia.
    destruct (lookup_lt_is_Some_2 add2 j) as [v Hv]; [lia|].
    rewrite (deref_lookup _ _ _ Hv). destruct (H2 j x v Hx Hv) as (_ & _ & Hc).
    apply Hc, Hvalid. apply elem_of_app.
    destruct (Hwa x) as [Hin | Hin]; [by eapply list_elem_of_lookup_2 | by left | by right].
  - destruct Hwps as [-> | [-> _]]; rewrite ?length_app, !length_seq; simpl; lia.
Qed.

(** X21.  A spliced route is labelled as a reroute: its name is
    "Rerouted_" and the current route's name, its path type "rerouted_" and
    the alternative's path type, its optimization method "ppo", its id is
    drawn from [uuid4], and its reroute history is the current route's
    history with one more record, of the blocked waypoint's name and the
    alternative's path type.  So any rerouter that reroutes the spliced route
    skips that alternative: a path type is not used twice along a chain of
    reroutes. *)
Theorem rerouted_path_records_reroute (self : PPORerouter.t)
    (current_route : Route.t) (blocked_waypoint current_position : ref)
    (alternative_route : Route.t) (target_waypoint : ref) (target_index : Z)
    (w w' : World) (r : Route.t) :
  PPORerouter._create_rerouted_path self current_route blocked_waypoint current_position
    alternative_route target_waypoint target_index w = (Return r, w') ->
  Route.name r = "Rerouted_" +:+ Route.name current_route
  /\ Route.path_type r = "rerouted_" +:+ Route.path_type alternative_route
  /\ Route.optimization_method r = "ppo"%string
  /\ (exists n, (uuid_drawn w <= n < uuid_drawn w')%nat /\ Route.id r = uuid_pool w n)
  /\ Route.reroute_history r
     = Some (default [] (Route.reroute_history current_route)
             ++ [(Waypoint.name (deref (store w') blocked_waypoint),
                  Route.path_type alternative_route)])
  /\ forall rerouter,
       PPORerouter.skipped (PPORerouter.reset_used_route_types r rerouter)
         alternative_route = true.
Proof.
  intros Hrun.
  destruct (create_rerouted_path_builds _ _ _ _ _ _ _ _ _ _ Hrun)
    as (combined & w3 & Hbuild & Hpool & Hdrawn).
  pose proof (build_route_labels _ _ _ _ _ _ _ _ Hbuild) as (Hid & Hname & Hpt & Hom & Hhist).
  apply build_route_run in Hbuild as (Hst & _ & Hud & _).
  cbn in Hid, Hname, Hpt, Hom, Hhist.
  assert (Hhistory : Route.reroute_history r
            = Some (default [] (Route.reroute_history current_route)
                    ++ [(Waypoint.name (deref (store w') blocked_waypoint),
                         Route.path_type alternative_route)])).
  { rewrite Hhist, Hst. unfold PPORerouter.extend_history.
    destruct (Route.reroute_history current_route) as [[|entry entries]|]; reflexivity. }
  split; [exact Hname|]. split; [exact Hpt|]. split; [exact Hom|].
  split; [exists (uuid_drawn w3); rewrite Hid, Hpool; split; [lia | reflexivity]|].
  split; [exact Hhistory|].
  intros rerouter. apply skipped_true. left.
  rewrite used_route_types_reset, Hhistory.
  set (l := default [] _). set (rec := (_, _)).
  assert (Hin : Route.path_type alternative_route ∈ map snd (l ++ [rec])).
  { rewrite map_app. apply elem_of_app. right. simpl. apply list_elem_of_singleton. reflexivity. }
  destruct (l ++ [rec]) eqn:E; [by destruct l | exact Hin].
Qed.

(** X22.  On a current route without waypoints [_create_rerouted_path]
    raises [IndexError]: it reads the last waypoint of the current route to
    have a destination. *)
Theorem rerouted_path_needs_a_last_waypoint (self : PPORerouter.t)
    (current_route : Route.t) (blocked_waypoint current_position : ref)
    (alternative_route : Route.t) (target_waypoint : ref) (target_index : Z) (w : World) :
  Route.waypoints current_route = [] ->
  fst (PPORerouter._create_rerouted_path self current_route blocked_waypoint
         current_position alternative_route target_waypoint target_index w)
  = Raise IndexError.
Proof.
  intros Hnil. unfold PPORerouter._create_rerouted_path.
  unfold mbind, py_mbind, py_bind at 1, py_gets at 1.
  destruct (PPORerouter.split_paths _ _ _ _ _ _) as [wi wa] eqn:Hsplit.
  unfold py_bind at 1.
  destruct (copy_initial_run wi 0 w) as (add1 & Hl1 & Hrun1). rewrite Hrun1.
  unfold py_bind at 1.
  edestruct (copy_alt_run (S (length (seq (length (store w)) (length wi)))) wa 0)
    as (add2 & Hl2 & Hrun2).
  rewrite Hrun2. cbn [store uuid_pool uuid_drawn].
  unfold py_bind at 1.
  match goal with
  | |- context [PPORerouter.ensure_destination current_route ?c ?w2] =>
    pose proof (ensure_destination_run current_route c w2) as Hens
  end.
  rewrite Hnil in Hens. simpl in Hens. rewrite Hens. reflexivity.
Qed.
End labels.

(** ** The adjuster *)

Lemma find_waypoint_none (h : heap) (waypoint_id : string) (waypoints : list ref) :
  (forall x, x ∈ waypoints -> Waypoint.id (deref h x) <> waypoint_id) ->
  forall idx, RouteAdjuster.find_waypoint h waypoint_id idx waypoints = None.
Proof.
  induction waypoints as [|x l IH]; intros Hids idx; [reflexivity|]. simpl.
  rewrite bool_decide_eq_false_2 by (apply Hids; by left).
  apply IH. intros y Hy. apply Hids. by right.
Qed.

(** X23.  For a route id that is not registered, and for a waypoint id
    that no waypoint of the registered route carries,
    [handle_blocked_waypoint] returns [None] and changes nothing: neither the
    registry nor any waypoint, statuses included. *)
Theorem unknown_waypoint_changes_nothing (services : RouteAdjuster.Services)
    (route_id waypoint_id : string) (s : RouteAdjuster.state) :
  match RouteAdjuster.active_routes s !! route_id with
  | Some route =>
    forall x, x ∈ Route.waypoints route ->
      Waypoint.id (deref (store (RouteAdjuster.world s)) x) <> waypoint_id
  | None => True
  end ->
  RouteAdjuster.handle_blocked_waypoint services route_id waypoint_id s = (Return None, s).
Proof.
  intros Hunknown. unfold RouteAdjuster.handle_blocked_waypoint. py_unfold.
  destruct s as [registry w]. cbn [RouteAdjuster.active_routes RouteAdjuster.world] in *.
  destruct (registry !! route_id) as [route|]; [|reflexivity].
  simpl. rewrite find_waypoint_none by exact Hunknown. reflexivity.
Qed.

(** X24.  When the blocked waypoint is the first of a registered route
    that has no origin, [handle_blocked_waypoint] raises [AttributeError]
    (it reads the coordinates of the origin), after it has marked the
    waypoint BLOCKED: the mark stays, the registry is unchanged and no bypass
    is asked for. *)
Theorem first_waypoint_blocked_without_origin (services : RouteAdjuster.Services)
    (route_id waypoint_id : string) (s : RouteAdjuster.state)
    (route : Route.t) (blocked : ref) :
  RouteAdjuster.active_routes s !! route_id = Some route ->
  head (Route.waypoints route) = Some blocked ->
  Waypoint.id (deref (store (RouteAdjuster.world s)) blocked) = waypoint_id ->
  Route.origin route = None ->
  RouteAdjuster.handle_blocked_waypoint services route_id waypoint_id s
  = (Raise AttributeError,
     with_store (mutate Waypoint.mark_as_blocked blocked (store (RouteAdjuster.world s))) s).
Proof.
  intros Hroute Hhead Hid Horigin. unfold RouteAdjuster.handle_blocked_waypoint. py_unfold.
  destruct s as [registry w]. cbn [RouteAdjuster.active_routes RouteAdjuster.world] in *.
  rewrite Hroute. simpl.
  destruct (Route.waypoints route) as [|x l]; [discriminate|]. injection Hhead as ->.
  simpl. rewrite bool_decide_eq_true_2 by exact Hid. simpl.
  unfold RouteAdjuster.anchor. rewrite Horigin. reflexivity.
Qed.

(** After a bypass no waypoint of the route carries the blocked id, when ids
    identify the waypoints of the route and the bypass is new. *)
Lemma bypass_drops_id (route : Route.t) (blocked_idx : nat) (blocked : ref)
    (waypoint_id : string) (h : heap) (new : list Waypoint.t) :
  RouteAdjuster.find_waypoint h waypoint_id 0 (Route.waypoints route)
  = Some (blocked_idx, blocked) ->
  NoDup (map (fun x => Waypoint.id (deref h x)) (Route.waypoints route)) ->
  (forall v, v ∈ new -> Waypoint.id v <> waypoint_id) ->
  let h' := marked route blocked_idx blocked h in
  forall x,
    x ∈ take blocked_idx (Route.waypoints route) ++ seq (length h') (length new)
        ++ drop (S blocked_idx) (Route.waypoints route) ->
    Waypoint.id (deref (h' ++ new) x) <> waypoint_id.
Proof.
  intros Hfind Hnodup Hfresh h' x Hx.
  assert (Hlen : length h' = length h) by apply length_marked.
  destruct (find_waypoint_spec _ _ _ _ _ _ Hfind) as (_ & Hblocked & Hid & _).
  rewrite Nat.sub_0_r in Hblocked.
  assert (Hnew : forall y, (length h <= y)%nat -> Waypoint.id (deref h y) <> waypoint_id ->
                           Waypoint.id (deref (h' ++ new) y) <> waypoint_id).
  { intros y Hy Hidy. rewrite deref_app. rewrite decide_False by lia.
    destruct (deref_elem_or_default new (y - length h')) as [Hin|[_ Hd]].
    - apply Hfresh. exact Hin.
    - rewrite Hd. rewrite (deref_default h y Hy) in Hidy. exact Hidy. }
  assert (Hold : forall j y, Route.waypoints route !! j = Some y -> j <> blocked_idx ->
                             Waypoint.id (deref (h' ++ new) y) <> waypoint_id).
  { intros j y Hj Hne.
    assert (Hidy : Waypoint.id (deref h y) <> waypoint_id).
    { intros Heq. apply Hne.
      eapply (NoDup_lookup _ j blocked_idx); [exact Hnodup| |].
      - rewrite list_lookup_fmap, Hj. reflexivity.
      - rewrite list_lookup_fmap, Hblocked. simpl. f_equal. congruence. }
    destruct (decide (y < length h)%nat) as [Hlt|Hge].
    - rewrite deref_app. rewrite decide_True by lia.
      destruct (same_identity_marked route blocked_idx blocked h y) as [Hsame _].
      fold h' in Hsame. rewrite Hsame. exact Hidy.
    - apply Hnew; [lia | exact Hidy]. }
  apply elem_of_app in Hx as [Hx|Hx]; [|apply elem_of_app in Hx as [Hx|Hx]].
  - apply list_elem_of_lookup in Hx as [j Hj].
    pose proof (lookup_lt_Some _ _ _ Hj) as Hjl. rewrite length_take in Hjl.
    rewrite lookup_take_lt in Hj by lia.
    eapply Hold; [exact Hj | lia].
  - apply elem_of_seq in Hx.
    rewrite deref_app. rewrite decide_False by lia.
    apply Hfresh. unfold deref. eapply list_elem_of_lookup_2.
    apply list_lookup_lookup_total_lt. lia.
  - apply list_elem_of_lookup in Hx as [j Hj]. rewrite lookup_drop in Hj.
    eapply Hold; [exact Hj | lia].
Qed.

(** X25.  A bypass is not repeatable: once [handle_blocked_waypoint] has
    bypassed a waypoint, the same request (whatever the collaborators would
    answer) returns [None] and changes nothing, since the route no longer has
    a waypoint with that id; provided the ids identified the waypoints of the
    route, and no waypoint of a bypass carries the blocked id. *)
Theorem bypass_is_not_repeatable (services services' : RouteAdjuster.Services)
    (route_id waypoint_id : string) (s s' : RouteAdjuster.state) (r : Route.t) :
  RouteAdjuster.handle_blocked_waypoint services route_id waypoint_id s
  = (Return (Some r), s') ->
  (forall route, RouteAdjuster.active_routes s !! route_id = Some route ->
     NoDup (map (fun x => Waypoint.id (deref (store (RouteAdjuster.world s)) x))
                (Route.waypoints route))) ->
  (forall method routes segment v,
     RouteAdjuster.optimize services method routes = Return (Some segment) ->
     v ∈ interior (RouteAdjuster.segment_waypoints segment) ->
     Waypoint.id v <> waypoint_id) ->
  RouteAdjuster.handle_blocked_waypoint services' route_id waypoint_id s'
  = (Return None, s').
Proof.
  intros Hrun Hnodup Hfresh.
  destruct (RouteAdjuster.active_routes s !! route_id) as [route|] eqn:Hroute;
    [|unfold RouteAdjuster.handle_blocked_waypoint in Hrun; py_unfold;
      rewrite Hroute in Hrun; discriminate].
  destruct (RouteAdjuster.find_waypoint (store (RouteAdjuster.world s)) waypoint_id 0
              (Route.waypoints route)) as [[blocked_idx blocked]|] eqn:Hfind;
    [|unfold RouteAdjuster.handle_blocked_waypoint in Hrun; py_unfold;
      rewrite Hroute in Hrun; simpl in Hrun; rewrite Hfind in Hrun; discriminate].
  destruct (handle_run _ _ _ _ _ _ _ _ _ Hroute Hfind Hrun)
    as [(Hno & _)|(t_o & nw & ea & routes & seg & Hgen & Hopt & Ho & Hreg & Hstore)];
    [by destruct (Hno r)|].
  injection Ho as ->.
  pose proof (bypass_drops_id route blocked_idx blocked waypoint_id _ _ Hfind
                (Hnodup route eq_refl) (fun v => Hfresh _ _ _ v Hopt)) as Hids.
  cbv zeta in Hids. rewrite <- Hstore in Hids.
  unfold RouteAdjuster.handle_blocked_waypoint. py_unfold.
  destruct s' as [registry' w']. cbn [RouteAdjuster.active_routes RouteAdjuster.world] in *.
  rewrite Hreg, lookup_insert_eq. simpl.
  rewrite find_waypoint_none; [reflexivity|].
  intros x Hx. apply Hids. exact Hx.
Qed.

(** ** Serialising the estimated time *)

(** The minutes that [to_dict] writes. *)
Lemma minutes_range (t : Q) :
  (0 <= Qfloor (py_mod t 1 * 60) <= 59)%Z.
Proof.
  pose proof (py_mod_bounds t 1 ltac:(reflexivity)) as [Hlo Hhi].
  set (m := py_mod t 1 * 60) in *.
  assert (Hm0 : 0 <= m) by (unfold m; lra).
  assert (Hm60 : m < 60) by (unfold m; lra).
  split.
  - change 0%Z with (Qfloor 0). by apply Qfloor_resp_le.
  - assert (Hlt : inject_Z (Qfloor m) < inject_Z 60).
    { eapply Qle_lt_trans; [apply Qfloor_le | exact Hm60]. }
    rewrite <- Zlt_Qlt in Hlt. lia.
Qed.

(** X26.  [to_dict] writes an estimated time that is not negative as its
    whole hours and a number of minutes from 0 to 59 (a time of zero as
    [None]), so what [from_dict] reads back lies in the same hour as the
    time.  A route without estimated time ([None]) is written as [None] and
    comes back with the time 0. *)
Theorem estimated_time_round_trip (self : Route.t) :
  let written := Route.to_dict_estimated_time self in
  let back := Route.from_dict_estimated_time written in
  match Route.estimated_time self with
  | Some t =>
    0 <= t ->
    match written with
    | Some (hours, minutes) => hours = Qfloor t /\ (0 <= minutes <= 59)%Z
    | None => t == 0
    end
    /\ inject_Z (Qfloor t) <= back < inject_Z (Qfloor t) + 1
  | None => written = None /\ back = 0
  end.
Proof.
  intros written back. unfold back, written, Route.to_dict_estimated_time.
  destruct (Route.estimated_time self) as [t|]; [|split; reflexivity].
  intros Ht. unfold truthy.
  destruct (Qeq_bool t 0) eqn:E; simpl.
  { apply Qeq_bool_iff in E. split; [exact E|].
    rewrite (Qfloor_comp _ _ E). split; [apply Qle_refl | reflexivity]. }
  unfold py_int. rewrite (proj2 (Qle_bool_iff 0 t) Ht).
  pose proof (minutes_range t) as [Hm0 Hm59].
  assert (Hm : 0 <= py_mod t 1 * 60).
  { pose proof (py_mod_bounds t 1 ltac:(reflexivity)) as [Hlo _]. lra. }
  rewrite (proj2 (Qle_bool_iff 0 _) Hm).
  split; [split; [reflexivity | split; assumption]|].
  set (k := inject_Z (Qfloor (py_mod t 1 * 60))).
  assert (Hk0 : 0 <= k) by (unfold k; rewrite <- (Zle_Qle 0); exact Hm0).
  assert (Hk59 : k <= 59) by (unfold k; rewrite <- (Zle_Qle _ 59); exact Hm59).
  set (f := inject_Z (Qfloor t)). clearbody k f.
  assert (Hdiv : k / 60 == k * (1 # 60)) by field.
  rewrite Hdiv. split; lra.
Qed.

(** *** The properties of the rerouter and the adjuster on the sample routes *)

Lemma evaluate_alternatives_ascending_witness :
  let run :=
    @PPORerouter.evaluate_alternatives sample_library plain_rerouter route_R1
      1%nat 0%nat [route_left_again; route_left] wide_world in
  exists scores,
    fst run = Return scores
    /\ length scores = 2%nat
    /\ ascending PPORerouter.score scores.
Proof.
  cbv zeta.
  destruct (@PPORerouter.evaluate_alternatives sample_library plain_rerouter route_R1
              1%nat 0%nat [route_left_again; route_left] wide_world) as [o w'] eqn:Hrun.
  destruct o as [scores|e]; [|vm_compute in Hrun; discriminate].
  destruct (@evaluate_alternatives_ascending sample_library plain_rerouter route_R1
              1%nat 0%nat [route_left_again; route_left] wide_world w' scores Hrun)
    as [Hasc _].
  exists scores. split; [reflexivity|]. split; [|exact Hasc].
  vm_compute in Hrun. injection Hrun as <- _. reflexivity.
Defined.


Lemma reroute_failure_keeps_active_mark_witness :
  let run :=
    @PPORerouter.reroute sample_library (Some 1%nat) (Some route_R1) [route_direct] None
      (PPORerouter.mkState plain_rerouter wide_world) in
  fst run = Return None
  /\ Waypoint.status (deref (store wide_world) 0%nat) = PENDING
  /\ Waypoint.status (deref (store (PPORerouter.world (snd run))) 0%nat) = ACTIVE.
Proof.
  cbv zeta.
  rewrite (@reroute_failure_keeps_active_mark sample_library 1%nat route_R1 [route_direct]
             (PPORerouter.mkState plain_rerouter wide_world) 0%nat).
  - split; [reflexivity|]. split; reflexivity.
  - discriminate.
  - reflexivity.
  - constructor; [reflexivity | constructor].
Defined.

Lemma rerouted_waypoints_renumbered_witness :
  let run :=
    @PPORerouter._create_rerouted_path sample_library plain_rerouter route_R1
      1%nat 0%nat route_left 3%nat 0 wide_world in
  exists r,
    fst run = Return r
    /\ NoDup (Route.waypoints r)
    /\ forall j x, Route.waypoints r !! j = Some x ->
         (length (store wide_world) <= x)%nat
         /\ Waypoint.order (deref (store (snd run)) x) = Z.of_nat (S j).
Proof.
  cbv zeta.
  destruct (@PPORerouter._create_rerouted_path sample_library plain_rerouter route_R1
              1%nat 0%nat route_left 3%nat 0 wide_world) as [o w'] eqn:Hrun.
  destruct o as [r|e]; [|vm_compute in Hrun; discriminate].
  destruct (@rerouted_waypoints_renumbered sample_library plain_rerouter route_R1
              1%nat 0%nat route_left 3%nat 0 wide_world w' r Hrun)
    as (_ & Hnodup & Hnew).
  exists r. split; [reflexivity|]. split; [exact Hnodup|].
  intros j x Hx. destruct (Hnew j x Hx) as [[Hlo _] Horder].
  split; [exact Hlo | exact Horder].
Defined.

Lemma rerouted_waypoints_are_copies_witness :
  let run :=
    @PPORerouter._create_rerouted_path sample_library plain_rerouter route_R1
      1%nat 0%nat route_left 3%nat 0 wide_world in
  exists r y,
    fst run = Return r
    /\ Route.waypoints r !! 0%nat = Some y
    /\ deref (store (snd run)) y = Waypoint.mk "id-1" "WP1_direct" 12 12 1 PENDING.
Proof.
  cbv zeta.
  destruct (@PPORerouter._create_rerouted_path sample_library plain_rerouter route_R1
              1%nat 0%nat route_left 3%nat 0 wide_world) as [o w'] eqn:Hrun.
  destruct o as [r|e]; [|vm_compute in Hrun; discriminate].
  pose proof (@rerouted_waypoints_are_copies sample_library plain_rerouter route_R1
                1%nat 0%nat route_left 3%nat 0 wide_world w' r) as Hcopies.
  destruct (@PPORerouter.split_paths sample_library (store wide_world) route_R1 route_left
              1%nat 0%nat 0) as [waypoints_initial waypoints_alt] eqn:Hsplit.
  destruct Hcopies as (Hinitial & _ & _).
  - intros x Hx. simpl in Hx.
    repeat (apply elem_of_cons in Hx as [->|Hx]; [simpl; lia|]).
    by apply elem_of_nil in Hx.
  - exact Hrun.
  - vm_compute in Hsplit. injection Hsplit as <- <-.
    destruct (Hinitial 0%nat 0%nat eq_refl) as (y & Hy & Hobj).
    exists r, y. split; [reflexivity|]. split; [exact Hy|]. cbn [snd]. rewrite Hobj. reflexivity.
Defined.

Lemma rerouted_path_records_reroute_witness :
  let run :=
    @PPORerouter._create_rerouted_path sample_library plain_rerouter route_R1
      1%nat 0%nat route_left 3%nat 0 wide_world in
  exists r,
    fst run = Return r
    /\ Route.name r = "Rerouted_R1"%string
    /\ Route.path_type r = "rerouted_left"%string
    /\ Route.reroute_history r = Some [("WP2_direct"%string, "left"%string)]
    /\ PPORerouter.skipped (PPORerouter.reset_used_route_types r plain_rerouter) route_left
       = true.
Proof.
  cbv zeta.
  destruct (@PPORerouter._create_rerouted_path sample_library plain_rerouter route_R1
              1%nat 0%nat route_left 3%nat 0 wide_world) as [o w'] eqn:Hrun.
  destruct o as [r|e]; [|vm_compute in Hrun; discriminate].
  destruct (@rerouted_path_records_reroute sample_library plain_rerouter route_R1
              1%nat 0%nat route_left 3%nat 0 wide_world w' r Hrun)
    as (Hname & Hpt & _ & _ & Hhist & Hskip).
  exists r. split; [reflexivity|]. split; [exact Hname|]. split; [exact Hpt|].
  split; [|apply Hskip].
  rewrite Hhist. vm_compute in Hrun. injection Hrun as _ <-. reflexivity.
Defined.

Lemma rerouted_path_needs_a_last_waypoint_witness :
  fst (@PPORerouter._create_rerouted_path sample_library plain_rerouter route_bare
         1%nat 0%nat route_left 3%nat 0 wide_world)
  = Raise IndexError.
Proof.
  apply (@rerouted_path_needs_a_last_waypoint sample_library plain_rerouter route_bare
           1%nat 0%nat route_left 3%nat 0 wide_world).
  reflexivity.
Defined.

Lemma unknown_waypoint_changes_nothing_witness :
  RouteAdjuster.handle_blocked_waypoint detour "R1" "id-9" registry_R1
  = (Return None, registry_R1)
  /\ RouteAdjuster.handle_blocked_waypoint detour "R9" "id-2" registry_R1
     = (Return None, registry_R1).
Proof.
  split.
  - apply (unknown_waypoint_changes_nothing detour "R1" "id-9" registry_R1).
    change (RouteAdjuster.active_routes registry_R1 !! "R1"%string) with (Some route_R1).
    intros x Hx. simpl in Hx.
    repeat (apply elem_of_cons in Hx as [->|Hx]; [discriminate|]).
    by apply elem_of_nil in Hx.
  - apply (unknown_waypoint_changes_nothing detour "R9" "id-2" registry_R1).
    change (RouteAdjuster.active_routes registry_R1 !! "R9"%string) with (@None Route.t).
    exact I.
Defined.

Lemma first_waypoint_blocked_without_origin_witness :
  let run := RouteAdjuster.handle_blocked_waypoint detour "R5" "id-1" registry_adrift in
  fst run = Raise AttributeError
  /\ RouteAdjuster.active_routes (snd run) = RouteAdjuster.active_routes registry_adrift
  /\ map (fun x => Waypoint.status (deref (store (RouteAdjuster.world (snd run))) x))
         (Route.waypoints route_adrift) = [BLOCKED; PENDING; PENDING].
Proof.
  cbv zeta.
  rewrite (first_waypoint_blocked_without_origin detour "R5" "id-1" registry_adrift
             route_adrift 0%nat); [| reflexivity | reflexivity | reflexivity | reflexivity].
  split; [reflexivity|]. split; reflexivity.
Defined.

Lemma bypass_is_not_repeatable_witness :
  let s' := snd (RouteAdjuster.handle_blocked_waypoint detour "R1" "id-2" registry_R1) in
  RouteAdjuster.handle_blocked_waypoint detour "R1" "id-2" s' = (Return None, s').
Proof.
  cbv zeta.
  apply (bypass_is_not_repeatable detour detour "R1" "id-2" registry_R1 _
           (Route.set_waypoints [0; 3; 4; 2]%nat route_R1)).
  - vm_compute. reflexivity.
  - intros route Hroute.
    change (RouteAdjuster.active_routes registry_R1 !! "R1"%string) with (Some route_R1)
      in Hroute.
    injection Hroute as <-. simpl.
    apply NoDup_cons. split; [intros Hin|apply NoDup_cons; split; [intros Hin|apply NoDup_singleton]];
      repeat (apply elem_of_cons in Hin as [Hin|Hin]; [discriminate|]);
      by apply elem_of_nil in Hin.
  - intros method routes segment v Hopt Hv. simpl in Hopt. injection Hopt as <-.
    simpl in Hv.
    repeat (apply elem_of_cons in Hv as [->|Hv]; [discriminate|]).
    by apply elem_of_nil in Hv.
Defined.

Lemma estimated_time_round_trip_witness :
  let self := Route.set_estimated_time (Some 2.51) route_R1 in
  let back := Route.from_dict_estimated_time (Route.to_dict_estimated_time self) in
  Route.to_dict_estimated_time self = Some (2, 30)%Z
  /\ 2 <= back < 3.
Proof.
  cbv zeta. split; [reflexivity|].
  apply (estimated_time_round_trip (Route.set_estimated_time (Some 2.51) route_R1)).
  discriminate.
Defined.
